(** * SpeechSense: the authentication and token lifecycle

    A shallow embedding of [app/auth/router.py], [app/auth/dependencies.py],
    [app/auth/utils.py], the three tables of [app/models.py] the
    authentication flows touch, and the session dependency [get_db] of
    [app/database.py].

    - Rows are records, tables are lists of rows, the database is a record
      of tables.
    - An [AsyncSession] is a pair of the committed tables and the tables as
      the open transaction sees them; [commit] publishes the second,
      [rollback] discards it.
    - Endpoints are computations in a state-and-exception monad over the
      session; [get_db] runs one of them against a database.
    - [datetime] values are seconds on the UTC clock, as [Z].
    - What the code draws from the outside is an input: the clock, the
      process environment, the random strings of [uuid] and [secrets], and
      the two third-party libraries (python-jose and passlib). *)

From Stdlib Require Import String List ZArith Bool Lia.
From Stdlib Require Import Ascii.
Import ListNotations.
Local Open Scope string_scope.
Local Open Scope list_scope.

(* ================================================================= *)
(** ** Exceptions and results *)

Inductive Exception : Type :=
| HTTPException (status_code : nat) (detail : string)
| IntegrityError            (* sqlalchemy.exc: a constraint rejected a flush *)
| MultipleResultsFound      (* sqlalchemy.exc: scalar_one_or_none saw 2+ rows *)
| JWTError                  (* jose: bad signature, malformed, expired *)
| UnknownHashError          (* passlib.exc: "hash could not be identified" *)
| ValueError (msg : string)  (* passlib: malformed hash of a known scheme;
                               open: a NUL in the path *)
| ValidationError           (* pydantic: a field of a response model refused *)
| OSError (errno : nat) (strerror : string). (* open, write, makedirs *)

Inductive Result (A : Type) : Type :=
| Ok (a : A)
| Raise (e : Exception).
Arguments Ok {A} a.
Arguments Raise {A} e.

Definition HTTP_400_BAD_REQUEST : nat := 400.
Definition HTTP_401_UNAUTHORIZED : nat := 401.

(* ================================================================= *)
(** ** app/models.py *)

(** [users].  The columns the authentication flows never read or write
    ([profile_image_url], [is_email_verified], [created_at], [updated_at])
    are left out.  [first_name] and [last_name] are nullable columns:
    [None] is NULL. *)
Module User.
Record t : Type := mk {
  id : string;
  email : string;
  password : string;
  first_name : option string;
  last_name : option string;
  account_type : string
}.
Definition set_password (u : t) (p : string) : t :=
  mk (id u) (email u) p (first_name u) (last_name u) (account_type u).
End User.

(** [auth_tokens] *)
Module AuthToken.
Record t : Type := mk {
  id : string;
  user_id : string;
  token : string;
  type : string;
  expires_at : Z
}.
End AuthToken.

(** [password_reset_tokens]; [id] is the serial primary key. *)
Module PasswordResetToken.
Record t : Type := mk {
  id : nat;
  user_id : string;
  token : string;
  expires_at : Z;
  used : bool
}.
Definition set_used (r : t) (b : bool) : t :=
  mk (id r) (user_id r) (token r) (expires_at r) b.
End PasswordResetToken.

Record Tables : Type := mkTables {
  users : list User.t;
  auth_tokens : list AuthToken.t;
  password_reset_tokens : list PasswordResetToken.t;
  password_reset_tokens_id_seq : nat
}.

Definition set_users (f : list User.t -> list User.t) (t : Tables) : Tables :=
  mkTables (f (users t)) (auth_tokens t) (password_reset_tokens t)
           (password_reset_tokens_id_seq t).

Definition set_auth_tokens (f : list AuthToken.t -> list AuthToken.t)
    (t : Tables) : Tables :=
  mkTables (users t) (f (auth_tokens t)) (password_reset_tokens t)
           (password_reset_tokens_id_seq t).

Definition set_password_reset_tokens
    (f : list PasswordResetToken.t -> list PasswordResetToken.t)
    (t : Tables) : Tables :=
  mkTables (users t) (auth_tokens t) (f (password_reset_tokens t))
           (password_reset_tokens_id_seq t).

(** *** The constraints the schema declares

    [primary_key=True], [unique=True] and [ForeignKey("users.id")]. *)

Fixpoint distinct {A : Type} (eqb : A -> A -> bool) (l : list A) : bool :=
  match l with
  | [] => true
  | x :: r => negb (existsb (eqb x) r) && distinct eqb r
  end.

Definition references_user (us : list User.t) (uid : string) : bool :=
  existsb (fun u => User.id u =? uid) us.

Definition constraints_ok (t : Tables) : bool :=
  distinct String.eqb (map User.id (users t))
  && distinct String.eqb (map User.email (users t))
  && distinct String.eqb (map AuthToken.id (auth_tokens t))
  && distinct String.eqb (map AuthToken.token (auth_tokens t))
  && forallb (fun a => references_user (users t) (AuthToken.user_id a))
             (auth_tokens t)
  && distinct Nat.eqb (map PasswordResetToken.id (password_reset_tokens t))
  && distinct String.eqb
       (map PasswordResetToken.token (password_reset_tokens t))
  && forallb (fun r => references_user (users t) (PasswordResetToken.user_id r))
             (password_reset_tokens t).

(** The serial behind [password_reset_tokens.id] has not yet handed out
    the value it holds. *)
Definition seq_ahead (t : Tables) : bool :=
  forallb (fun r => Nat.ltb (PasswordResetToken.id r)
                            (password_reset_tokens_id_seq t))
          (password_reset_tokens t).

(** A database as PostgreSQL can hold it. *)
Definition wf (t : Tables) : Prop :=
  constraints_ok t = true /\ seq_ahead t = true.

(* ================================================================= *)
(** ** The session monad *)

Record Session : Type := mkSession {
  committed : Tables;
  pending : Tables
}.

Definition M (A : Type) : Type := Session -> Result A * Session.

Definition ret {A : Type} (a : A) : M A := fun s => (Ok a, s).

Definition raise {A : Type} (e : Exception) : M A := fun s => (Raise e, s).

Definition bind {A B : Type} (m : M A) (k : A -> M B) : M B :=
  fun s =>
    match m s with
    | (Ok a, s') => k a s'
    | (Raise e, s') => (Raise e, s')
    end.

Definition lift {A : Type} (r : Result A) : M A := fun s => (r, s).

Notation "x <- m ;; k" := (bind m (fun x => k))
  (at level 61, m at next level, right associativity).
Notation "m ;;; k" := (bind m (fun _ => k))
  (at level 61, right associativity).

(** [await db.execute(select(T).where(p))]: the rows the transaction sees. *)
Definition execute_select {R : Type} (table : Tables -> list R)
    (where_ : R -> bool) : M (list R) :=
  fun s => (Ok (filter where_ (table (pending s))), s).

(** [result.scalar_one_or_none()] *)
Definition scalar_one_or_none {R : Type} (rows : list R) : M (option R) :=
  match rows with
  | [] => ret None
  | [r] => ret (Some r)
  | _ :: _ :: _ => raise MultipleResultsFound
  end.

Definition modify (f : Tables -> Tables) : M unit :=
  fun s => (Ok tt, mkSession (committed s) (f (pending s))).

(** [db.add(row)] *)
Definition add_User (u : User.t) : M unit :=
  modify (set_users (fun l => l ++ [u])).

Definition add_AuthToken (a : AuthToken.t) : M unit :=
  modify (set_auth_tokens (fun l => l ++ [a])).

(** [db.add(PasswordResetToken(user_id=, token=, expires_at=))]: the id
    comes from the serial and [used] from the column default. *)
Definition insert_PasswordResetToken (user_id token : string)
    (expires_at : Z) (t : Tables) : Tables :=
  mkTables (users t) (auth_tokens t)
    (password_reset_tokens t ++
       [PasswordResetToken.mk (password_reset_tokens_id_seq t)
                              user_id token expires_at false])
    (S (password_reset_tokens_id_seq t)).

Definition add_PasswordResetToken (user_id token : string) (expires_at : Z)
    : M unit :=
  modify (insert_PasswordResetToken user_id token expires_at).

(** [await db.execute(delete(T).where(p))] *)
Definition execute_delete_AuthToken (where_ : AuthToken.t -> bool) : M unit :=
  modify (set_auth_tokens (filter (fun a => negb (where_ a)))).

Definition execute_delete_PasswordResetToken
    (where_ : PasswordResetToken.t -> bool) : M unit :=
  modify (set_password_reset_tokens (filter (fun r => negb (where_ r)))).

(** [await db.delete(obj)]: the row with the object's primary key goes. *)
Definition delete_AuthToken (a : AuthToken.t) : M unit :=
  execute_delete_AuthToken (fun x => AuthToken.id x =? AuthToken.id a).

Definition delete_PasswordResetToken (r : PasswordResetToken.t) : M unit :=
  execute_delete_PasswordResetToken
    (fun x => Nat.eqb (PasswordResetToken.id x) (PasswordResetToken.id r)).

(** Attribute assignment on a loaded object ([user.password = ...],
    [reset_token.used = True]): an UPDATE of the row with its key. *)
Definition update_User (u : User.t) (f : User.t -> User.t) : M unit :=
  modify (set_users
    (map (fun x => if User.id x =? User.id u then f x else x))).

Definition update_PasswordResetToken (r : PasswordResetToken.t)
    (f : PasswordResetToken.t -> PasswordResetToken.t) : M unit :=
  modify (set_password_reset_tokens
    (map (fun x =>
       if Nat.eqb (PasswordResetToken.id x) (PasswordResetToken.id r)
       then f x else x))).

(** [await db.commit()]: the pending rows are flushed; a constraint that
    rejects them raises and leaves the transaction rolled back. *)
Definition commit : M unit :=
  fun s =>
    if constraints_ok (pending s)
    then (Ok tt, mkSession (pending s) (pending s))
    else (Raise IntegrityError, mkSession (committed s) (committed s)).

(** [await session.rollback()] *)
Definition rollback (s : Session) : Session :=
  mkSession (committed s) (committed s).

(** [await db.refresh(obj)]: reloads the attributes of a row that was
    just committed. *)
Definition refresh : M unit := ret tt.

(** app/database.py, [get_db]: open a session, run the endpoint, commit;
    on any exception roll back and re-raise.  The result is what the
    caller receives and what the database holds afterwards. *)
Definition get_db {A : Type} (endpoint : M A) (db : Tables)
    : Result A * Tables :=
  match endpoint (mkSession db db) with
  | (Ok a, s) =>
      match commit s with
      | (Ok _, s') => (Ok a, committed s')
      | (Raise e, s') => (Raise e, committed (rollback s'))
      end
  | (Raise e, s) => (Raise e, committed (rollback s))
  end.

(* ================================================================= *)
(** ** What the code takes from outside *)

(** The claims of a JWT as the code uses them: the dict
    [{"sub": ..., "exp": ...}]. *)
Record Claims : Type := mkClaims {
  sub : option string;
  exp : option Z
}.

(** python-jose and passlib are third-party packages, not code of this
    repository.  Their cryptography is a parameter of the development:
    - [jwt_encode claims key algorithm] and
      [jwt_decode token key algorithm clock] stand for [jose.jwt.encode] and
      [jose.jwt.decode]; the latter raises [JWTError] (bad signature,
      malformed token, expired [exp]) or returns the claims;
    - [bcrypt_hash salt secret] and [bcrypt_verify secret hash] stand for
      the bcrypt handler behind [CryptContext(schemes=["bcrypt"])]. *)
Record Library : Type := mkLibrary {
  jwt_encode : Claims -> string -> string -> string;
  jwt_decode : string -> string -> string -> Z -> Result Claims;
  bcrypt_hash : string -> string -> string;
  bcrypt_verify : string -> string -> Result bool
}.

(** [os.getenv] *)
Record Environ : Type := mkEnviron {
  JWT_SECRET_KEY : option string;
  NODE_ENV : option string
}.

(** The random draws one request can make: the salt of
    [pwd_context.hash], two [uuid.uuid4()] and one
    [secrets.token_urlsafe(32)]. *)
Record Entropy : Type := mkEntropy {
  salt : string;
  uuid4_first : string;
  uuid4_second : string;
  token_urlsafe : string
}.

Definition getenv_is (v : option string) (expected : string) : bool :=
  match v with
  | Some s => s =? expected
  | None => false
  end.

(** [timedelta(minutes=m)] in seconds. *)
Definition timedelta_minutes (m : Z) : Z := (m * 60)%Z.

(* ================================================================= *)
(** ** app/auth/schemas.py *)

Record UserRegister : Type := mkUserRegister {
  reg_email : string;
  reg_password : string;
  reg_confirm_password : string;
  reg_first_name : string;
  reg_last_name : string;
  reg_account_type : string
}.

Record UserLogin : Type := mkUserLogin {
  login_email : string;
  login_password : string
}.

Record ResetPassword : Type := mkResetPassword {
  reset_token_ : string;
  reset_password_ : string;
  reset_confirm_password : string
}.

Record UserResponse : Type := mkUserResponse {
  resp_id : string;
  resp_email : string;
  resp_first_name : string;
  resp_last_name : string;
  resp_account_type : string
}.

(** [UserResponse.model_validate(user)]: [first_name] and [last_name] are
    declared [str], so pydantic refuses a row where one of them is NULL;
    [created_at] is optional and the other columns are not nullable. *)
Definition UserResponse_model_validate (u : User.t) : Result UserResponse :=
  match User.first_name u, User.last_name u with
  | Some first_name, Some last_name =>
      Ok (mkUserResponse (User.id u) (User.email u) first_name last_name
                         (User.account_type u))
  | _, _ => Raise ValidationError
  end.

(** [LoginResponse] and [RegisterResponse] have the same fields. *)
Record AuthResponse : Type := mkAuthResponse {
  auth_message : string;
  auth_user : UserResponse;
  auth_access_token : string
}.

Record ForgotPasswordResponse : Type := mkForgotPasswordResponse {
  forgot_message : string;
  forgot_reset_token : option string
}.

Record TokenVerificationResponse : Type := mkTokenVerificationResponse {
  valid : bool;
  verification_message : string
}.

Record RefreshTokenResponse : Type := mkRefreshTokenResponse {
  refresh_access_token_ : string;
  refresh_message : string
}.

(** [response.set_cookie(...)] *)
Record Cookie : Type := mkCookie {
  cookie_key : string;
  cookie_value : string;
  max_age : Z;
  httponly : bool;
  secure : bool;
  samesite : string
}.

(* ================================================================= *)
(** ** app/auth/utils.py *)

Section Auth.

Context (lib : Library) (environ : Environ).

Definition SECRET_KEY : string :=
  match JWT_SECRET_KEY environ with
  | Some k => k
  | None => "your-secret-key-change-in-production"
  end.

Definition ALGORITHM : string := "HS256".
Definition ACCESS_TOKEN_EXPIRE_MINUTES : Z := (60 * 24 * 7)%Z.
Definition REFRESH_TOKEN_EXPIRE_MINUTES : Z := (60 * 24 * 30)%Z.

(** The identifiers passlib's bcrypt handler recognises; [CryptContext]
    picks the handler of a hash by them. *)
Definition bcrypt_ident_values : list string :=
  ["$2$"; "$2a$"; "$2x$"; "$2y$"; "$2b$"].

Definition bcrypt_identify (hash : string) : bool :=
  existsb (fun ident => String.prefix ident hash) bcrypt_ident_values.

(** passlib, [CryptContext.hash] and [CryptContext.verify] with the one
    scheme configured: [verify] looks for the handler that identifies the
    hash and raises [UnknownHashError] when none does. *)
Definition pwd_context_hash (salt_ secret : string) : string :=
  bcrypt_hash lib salt_ secret.

Definition pwd_context_verify (secret hash : string) : Result bool :=
  if bcrypt_identify hash
  then bcrypt_verify lib secret hash
  else Raise UnknownHashError.

Definition hash_password (salt_ password : string) : string :=
  pwd_context_hash salt_ password.

Definition verify_password (plain_password hashed_password : string)
    : Result bool :=
  pwd_context_verify plain_password hashed_password.

Definition create_access_token (utcnow : Z) (data : Claims)
    (expires_delta : option Z) : string :=
  let expire :=
    match expires_delta with
    | Some d => (utcnow + d)%Z
    | None => (utcnow + timedelta_minutes ACCESS_TOKEN_EXPIRE_MINUTES)%Z
    end in
  let to_encode := mkClaims (sub data) (Some expire) in
  jwt_encode lib to_encode SECRET_KEY ALGORITHM.

Definition create_refresh_token (rnd : Entropy) : string := token_urlsafe rnd.

Definition create_reset_token (rnd : Entropy) : string := token_urlsafe rnd.

(** [try: jwt.decode(...) except JWTError: return None] *)
Definition verify_token (utcnow : Z) (token : string)
    : Result (option Claims) :=
  match jwt_decode lib token SECRET_KEY ALGORITHM utcnow with
  | Ok payload => Ok (Some payload)
  | Raise JWTError => Ok None
  | Raise e => Raise e
  end.

Definition get_token_expiry (utcnow : Z) (minutes : Z) : Z :=
  (utcnow + timedelta_minutes minutes)%Z.

(* ================================================================= *)
(** ** app/auth/dependencies.py *)

Definition credentials_exception : Exception :=
  HTTPException HTTP_401_UNAUTHORIZED "Could not validate credentials".

(** [credentials] is the bearer string [HTTPBearer] took from the
    Authorization header. *)
Definition get_current_user (utcnow : Z) (credentials : string) : M User.t :=
  payload <- lift (verify_token utcnow credentials) ;;
  match payload with
  | None => raise credentials_exception
  | Some payload =>
      match sub payload with
      | None => raise credentials_exception
      | Some user_id =>
          result <- execute_select users (fun u => User.id u =? user_id) ;;
          user <- scalar_one_or_none result ;;
          match user with
          | None => raise credentials_exception
          | Some user => ret user
          end
      end
  end.

(** [refresh_token] is the cookie, if the request has one; the empty
    string is falsy. *)
Definition get_refresh_token_user (utcnow : Z) (refresh_token : option string)
    : M User.t :=
  match refresh_token with
  | None | Some "" =>
      raise (HTTPException HTTP_401_UNAUTHORIZED "Refresh token not provided")
  | Some refresh_token =>
      result <- execute_select auth_tokens
                  (fun a => AuthToken.token a =? refresh_token) ;;
      auth_token <- scalar_one_or_none result ;;
      match auth_token with
      | None =>
          raise (HTTPException HTTP_401_UNAUTHORIZED "Invalid refresh token")
      | Some auth_token =>
          if (AuthToken.expires_at auth_token <? utcnow)%Z
          then
            delete_AuthToken auth_token ;;;
            commit ;;;
            raise (HTTPException HTTP_401_UNAUTHORIZED "Refresh token expired")
          else
            result <- execute_select users
                        (fun u => User.id u =? AuthToken.user_id auth_token) ;;
            user <- scalar_one_or_none result ;;
            match user with
            | None =>
                raise (HTTPException HTTP_401_UNAUTHORIZED "User not found")
            | Some user => ret user
            end
      end
  end.

(* ================================================================= *)
(** ** app/auth/router.py *)

Definition register_user (utcnow : Z) (rnd : Entropy)
    (user_data : UserRegister) : M AuthResponse :=
  result <- execute_select users
              (fun u => User.email u =? reg_email user_data) ;;
  existing_user <- scalar_one_or_none result ;;
  match existing_user with
  | Some _ =>
      raise (HTTPException HTTP_400_BAD_REQUEST
                           "Email address already registered")
  | None =>
      let hashed_password :=
        hash_password (salt rnd) (reg_password user_data) in
      let db_user :=
        User.mk (uuid4_first rnd) (reg_email user_data) hashed_password
                (Some (reg_first_name user_data))
                (Some (reg_last_name user_data))
                (reg_account_type user_data) in
      add_User db_user ;;;
      commit ;;;
      refresh ;;;
      let access_token :=
        create_access_token utcnow (mkClaims (Some (User.id db_user)) None)
                            None in
      let refresh_token := create_refresh_token rnd in
      let auth_token :=
        AuthToken.mk (uuid4_second rnd) (User.id db_user) refresh_token
                     "refresh" (get_token_expiry utcnow (60 * 24 * 30)) in
      add_AuthToken auth_token ;;;
      commit ;;;
      user <- lift (UserResponse_model_validate db_user) ;;
      ret (mkAuthResponse "User registered successfully" user access_token)
  end.

Definition invalid_credentials : Exception :=
  HTTPException HTTP_401_UNAUTHORIZED "Invalid email or password".

(** [login_user] returns its body and the cookie it sets. *)
Definition login_user (utcnow : Z) (rnd : Entropy)
    (user_credentials : UserLogin) : M (AuthResponse * Cookie) :=
  result <- execute_select users
              (fun u => User.email u =? login_email user_credentials) ;;
  user <- scalar_one_or_none result ;;
  match user with
  | None => raise invalid_credentials
  | Some user =>
      ok <- lift (verify_password (login_password user_credentials)
                                  (User.password user)) ;;
      if negb ok then raise invalid_credentials
      else
        let access_token :=
          create_access_token utcnow (mkClaims (Some (User.id user)) None)
                              None in
        let refresh_token := create_refresh_token rnd in
        let auth_token :=
          AuthToken.mk (uuid4_first rnd) (User.id user) refresh_token
                       "refresh" (get_token_expiry utcnow (60 * 24 * 30)) in
        add_AuthToken auth_token ;;;
        commit ;;;
        let cookie :=
          mkCookie "refresh_token" refresh_token (60 * 60 * 24 * 30) true
                   (getenv_is (NODE_ENV environ) "production") "lax" in
        validated <- lift (UserResponse_model_validate user) ;;
        ret (mkAuthResponse "Login successful" validated access_token,
             cookie)
  end.

(** FastAPI resolves the dependencies in the order of the parameters:
    [get_current_user], then [get_refresh_token_user], on one session.
    The body answers with a message and clears the cookie. *)
Definition logout_user (utcnow : Z) (credentials : string)
    (refresh_token : option string) : M string :=
  current_user <- get_current_user utcnow credentials ;;
  refresh_token_user <- get_refresh_token_user utcnow refresh_token ;;
  execute_delete_AuthToken
    (fun a => AuthToken.user_id a =? User.id current_user) ;;;
  commit ;;;
  ret "Logout successful".

Definition refresh_access_token (utcnow : Z) (refresh_token : option string)
    : M RefreshTokenResponse :=
  current_user <- get_refresh_token_user utcnow refresh_token ;;
  let access_token :=
    create_access_token utcnow (mkClaims (Some (User.id current_user)) None)
                        None in
  ret (mkRefreshTokenResponse access_token "Token refreshed successfully").

Definition success_message : string :=
  "If this email exists, a password reset link has been sent".

Definition forgot_password (utcnow : Z) (rnd : Entropy) (email : string)
    : M ForgotPasswordResponse :=
  result <- execute_select users (fun u => User.email u =? email) ;;
  user <- scalar_one_or_none result ;;
  match user with
  | None => ret (mkForgotPasswordResponse success_message None)
  | Some user =>
      execute_delete_PasswordResetToken
        (fun r => PasswordResetToken.user_id r =? User.id user) ;;;
      let reset_token := create_reset_token rnd in
      add_PasswordResetToken (User.id user) reset_token
                             (get_token_expiry utcnow 60) ;;;
      commit ;;;
      let development_token :=
        if getenv_is (NODE_ENV environ) "development"
        then Some reset_token else None in
      ret (mkForgotPasswordResponse success_message development_token)
  end.

(** The WHERE clause both reset endpoints use. *)
Definition unused_with_token (token : string) (r : PasswordResetToken.t)
    : bool :=
  (PasswordResetToken.token r =? token) && negb (PasswordResetToken.used r).

Definition reset_password (utcnow : Z) (rnd : Entropy)
    (reset_data : ResetPassword) : M string :=
  result <- execute_select password_reset_tokens
              (unused_with_token (reset_token_ reset_data)) ;;
  reset_token <- scalar_one_or_none result ;;
  match reset_token with
  | None =>
      raise (HTTPException HTTP_400_BAD_REQUEST
                           "Invalid or expired reset token")
  | Some reset_token =>
      if (PasswordResetToken.expires_at reset_token <? utcnow)%Z
      then
        delete_PasswordResetToken reset_token ;;;
        commit ;;;
        raise (HTTPException HTTP_400_BAD_REQUEST "Reset token has expired")
      else
        result <- execute_select users
                    (fun u => User.id u
                              =? PasswordResetToken.user_id reset_token) ;;
        user <- scalar_one_or_none result ;;
        match user with
        | None =>
            raise (HTTPException HTTP_400_BAD_REQUEST "User not found")
        | Some user =>
            update_User user (fun u =>
              User.set_password u
                (hash_password (salt rnd) (reset_password_ reset_data))) ;;;
            update_PasswordResetToken reset_token (fun r =>
              PasswordResetToken.set_used r true) ;;;
            execute_delete_AuthToken
              (fun a => AuthToken.user_id a =? User.id user) ;;;
            commit ;;;
            ret "Password has been reset successfully. Please log in with your new password."
        end
  end.

Definition verify_reset_token (utcnow : Z) (token : string)
    : M TokenVerificationResponse :=
  result <- execute_select password_reset_tokens (unused_with_token token) ;;
  reset_token <- scalar_one_or_none result ;;
  match reset_token with
  | None =>
      ret (mkTokenVerificationResponse false "Token is invalid or expired")
  | Some reset_token =>
      if (PasswordResetToken.expires_at reset_token <? utcnow)%Z
      then ret (mkTokenVerificationResponse false
                                            "Token is invalid or expired")
      else ret (mkTokenVerificationResponse true "Token is valid")
  end.

End Auth.

(* ================================================================= *)
(** ** The tables after the writes of the flows *)

(** After [delete(AuthToken).where(AuthToken.user_id == uid)]. *)
Definition without_sessions_of (uid : string) (t : Tables) : Tables :=
  set_auth_tokens (filter (fun a => negb (AuthToken.user_id a =? uid))) t.

(** After [db.delete(auth_token)]. *)
Definition without_auth_token (a : AuthToken.t) (t : Tables) : Tables :=
  set_auth_tokens (filter (fun x => negb (AuthToken.id x =? AuthToken.id a))) t.

(** After [db.delete(reset_token)]. *)
Definition without_reset_token (r : PasswordResetToken.t) (t : Tables)
    : Tables :=
  set_password_reset_tokens
    (filter (fun x => negb (Nat.eqb (PasswordResetToken.id x)
                                    (PasswordResetToken.id r)))) t.

(** After [delete(PasswordResetToken).where(user_id == uid)]. *)
Definition without_reset_tokens_of (uid : string) (t : Tables) : Tables :=
  set_password_reset_tokens
    (filter (fun r => negb (PasswordResetToken.user_id r =? uid))) t.

(** The [AuthToken] row register and login build. *)
Definition refresh_record (id user_id token : string) (utcnow : Z)
    : AuthToken.t :=
  AuthToken.mk id user_id token "refresh"
               (utcnow + timedelta_minutes (60 * 24 * 30))%Z.

(** After [db.add(auth_token)]. *)
Definition with_auth_token (a : AuthToken.t) (t : Tables) : Tables :=
  set_auth_tokens (fun l => l ++ [a]) t.

(** After [db.add(db_user)]. *)
Definition with_user (u : User.t) (t : Tables) : Tables :=
  set_users (fun l => l ++ [u]) t.

(** The [User] row register builds. *)
Definition registered_user (lib : Library) (rnd : Entropy)
    (user_data : UserRegister) : User.t :=
  User.mk (uuid4_first rnd) (reg_email user_data)
          (hash_password lib (salt rnd) (reg_password user_data))
          (Some (reg_first_name user_data)) (Some (reg_last_name user_data))
          (reg_account_type user_data).

(** After the three writes of a successful password reset. *)
Definition after_reset (new_hash : string) (user : User.t)
    (reset_token : PasswordResetToken.t) (t : Tables) : Tables :=
  without_sessions_of (User.id user)
    (set_password_reset_tokens
       (map (fun x =>
          if Nat.eqb (PasswordResetToken.id x)
                     (PasswordResetToken.id reset_token)
          then PasswordResetToken.set_used x true else x))
       (set_users
          (map (fun x =>
             if User.id x =? User.id user
             then User.set_password x new_hash else x))
          t)).

(** What a successful login answers, for the user as the response model
    shows it: the body and the cookie. *)
Definition login_response (lib : Library) (environ : Environ) (utcnow : Z)
    (rnd : Entropy) (user : UserResponse) : AuthResponse * Cookie :=
  (mkAuthResponse "Login successful" user
     (create_access_token lib environ utcnow
        (mkClaims (Some (resp_id user)) None) None),
   mkCookie "refresh_token" (token_urlsafe rnd) (60 * 60 * 24 * 30) true
            (getenv_is (NODE_ENV environ) "production") "lax").

(** What a successful registration answers. *)
Definition register_response (lib : Library) (environ : Environ) (utcnow : Z)
    (rnd : Entropy) (user_data : UserRegister) : AuthResponse :=
  mkAuthResponse "User registered successfully"
    (mkUserResponse (uuid4_first rnd) (reg_email user_data)
                    (reg_first_name user_data) (reg_last_name user_data)
                    (reg_account_type user_data))
    (create_access_token lib environ utcnow
       (mkClaims (Some (uuid4_first rnd)) None) None).

(** What forgot-password answers for a known email. *)
Definition forgot_response (environ : Environ) (rnd : Entropy)
    : ForgotPasswordResponse :=
  mkForgotPasswordResponse
    "If this email exists, a password reset link has been sent"
    (if getenv_is (NODE_ENV environ) "development"
     then Some (token_urlsafe rnd) else None).

(** The reset-token table after forgot-password for a known user. *)
Definition after_forgot (utcnow : Z) (rnd : Entropy) (user : User.t)
    (t : Tables) : Tables :=
  insert_PasswordResetToken (User.id user) (token_urlsafe rnd)
    (utcnow + timedelta_minutes 60)%Z
    (without_reset_tokens_of (User.id user) t).

(** What a successful password reset answers. *)
Definition reset_ok_message : string :=
  "Password has been reset successfully. Please log in with your new password.".

(* ================================================================= *)
(** ** The invariant of a session *)

(** What is committed is a database PostgreSQL can hold, and the serial
    is ahead of the rows the transaction sees. *)
Definition session_inv (s : Session) : Prop :=
  wf (committed s) /\ seq_ahead (pending s) = true.

Definition preserves {A : Type} (m : M A) : Prop :=
  forall s r s', session_inv s -> m s = (r, s') -> session_inv s'.

(* ================================================================= *)
(** ** Sample data

    A stand-in for the two libraries (a token is ["jwt:"] followed by its
    subject, a hash is ["$2b$12$"] followed by the secret) and a small
    database, for the examples below. *)

Module Sample.

Definition lib : Library :=
  mkLibrary
    (fun claims _ _ =>
       String.append "jwt:"
         (match sub claims with Some s => s | None => "" end))
    (fun token _ _ _ =>
       if String.prefix "jwt:" token
       then Ok (mkClaims (Some (substring 4 (String.length token - 4) token))
                         None)
       else Raise JWTError)
    (fun _ secret => String.append "$2b$12$" secret)
    (fun secret hash => Ok (hash =? String.append "$2b$12$" secret)).

Definition production : Environ := mkEnviron (Some "k") (Some "production").
Definition development : Environ := mkEnviron (Some "k") (Some "development").

Definition alice : User.t :=
  User.mk "u1" "alice@example.com" "$2b$12$alice-secret" (Some "Alice")
          (Some "A") "patient".
Definition bob : User.t :=
  User.mk "u2" "bob@example.com" "$2b$12$bob-secret" (Some "Bob") (Some "B")
          "therapist".
Definition carol : User.t :=
  User.mk "u3" "carol@example.com" "plain" (Some "Carol") (Some "C")
          "patient".

Definition alice_session : AuthToken.t :=
  AuthToken.mk "t1" "u1" "R1" "refresh" 1000.
Definition bob_session : AuthToken.t :=
  AuthToken.mk "t2" "u2" "R2" "refresh" 1000.
Definition alice_old_session : AuthToken.t :=
  AuthToken.mk "t3" "u1" "R3" "refresh" 10.

Definition alice_reset : PasswordResetToken.t :=
  PasswordResetToken.mk 0 "u1" "P1" 1000 false.
Definition bob_reset : PasswordResetToken.t :=
  PasswordResetToken.mk 1 "u2" "P2" 10 false.
Definition carol_reset : PasswordResetToken.t :=
  PasswordResetToken.mk 2 "u3" "P3" 1000 true.

Definition db : Tables :=
  mkTables [alice; bob; carol]
           [alice_session; bob_session; alice_old_session]
           [alice_reset; bob_reset; carol_reset]
           3.

Definition rnd : Entropy := mkEntropy "s" "u4" "t4" "R4".

(** The users as the response model shows them. *)
Definition alice_response : UserResponse :=
  mkUserResponse "u1" "alice@example.com" "Alice" "A" "patient".

(** A database with a user whose name columns are NULL. *)
Definition erin : User.t :=
  User.mk "u9" "erin@example.com" "$2b$12$erin-secret" None None "patient".

Definition legacy_db : Tables := mkTables [erin] [] [] 0.

End Sample.

(* ================================================================= *)
(** ** app/auth/dependencies.py, the optional dependency *)


(* ================================================================= *)
(** ** app/auth/schemas.py, the validators

    [UserRegister] and [ResetPassword] carry the same two validators.
    Strings are sequences of characters; [len] is their number. *)

(** The [values] a validator receives: the fields validated before it
    that passed. *)
Definition Values : Type := list (string * string).

Fixpoint values_get (key : string) (values : Values) : option string :=
  match values with
  | [] => None
  | (k, v) :: rest => if k =? key then Some v else values_get key rest
  end.

Definition validate_password (v : string) : Result string :=
  if Nat.ltb (String.length v) 8
  then Raise (ValueError "Password must be at least 8 characters long")
  else Ok v.

Definition passwords_match (v : string) (values : Values) : Result string :=
  match values_get "password" values with
  | Some password =>
      if negb (v =? password)
      then Raise (ValueError "Passwords do not match")
      else Ok v
  | None => Ok v
  end.

(** pydantic validates the fields in the order the class declares them:
    a field that passes joins [values]; for a field whose validator raises
    [ValueError] the message is recorded under the field's name and the
    field stays out of [values]. *)
Definition validate_field (field : string)
    (validator : string -> Values -> Result string) (raw : string)
    (state : Values * list (string * string))
    : Values * list (string * string) :=
  match validator raw (fst state) with
  | Ok v => (fst state ++ [(field, v)], snd state)
  | Raise (ValueError msg) => (fst state, snd state ++ [(field, msg)])
  | Raise _ => state
  end.

(** The errors the fields [password] and [confirm_password] contribute,
    declared in this order in both classes. *)
Definition password_fields_errors (password confirm_password : string)
    : list (string * string) :=
  snd (validate_field "confirm_password" passwords_match confirm_password
         (validate_field "password" (fun v _ => validate_password v) password
            ([], []))).

(* ================================================================= *)
(** ** app/database.py, the connection string

    Python's [str] methods, for the uses the module makes of them. *)

Fixpoint str_drop (n : nat) (s : string) : string :=
  match n, s with
  | O, _ => s
  | S n', String _ r => str_drop n' r
  | S _, EmptyString => EmptyString
  end.

(** [s.replace(old, new, 1)]: the leftmost occurrence. *)
Fixpoint str_replace_first (old new s : string) : string :=
  if String.prefix old s
  then String.append new (str_drop (String.length old) s)
  else match s with
       | EmptyString => EmptyString
       | String c r => String c (str_replace_first old new r)
       end.

(** [sub in s] *)
Fixpoint str_contains (sub s : string) : bool :=
  String.prefix sub s
  || match s with
     | EmptyString => false
     | String _ r => str_contains sub r
     end.

(** [s.split(sep)] for a separator of one character. *)
Fixpoint str_split (sep : Ascii.ascii) (s : string) : list string :=
  match s with
  | EmptyString => [EmptyString]
  | String c r =>
      if Ascii.eqb c sep then EmptyString :: str_split sep r
      else match str_split sep r with
           | piece :: pieces => String c piece :: pieces
           | [] => [String c EmptyString]
           end
  end.

(** [sep.join(pieces)] *)
Fixpoint str_join (sep : string) (pieces : list string) : string :=
  match pieces with
  | [] => EmptyString
  | [piece] => piece
  | piece :: rest => String.append piece (String.append sep (str_join sep rest))
  end.

(** The module-level code of [app/database.py] up to [create_async_engine]:
    from [os.getenv("DATABASE_URL")] to the string the engine gets. *)
Definition DATABASE_URL (getenv : option string) : Result string :=
  match getenv with
  | None | Some EmptyString =>
      Raise (ValueError "DATABASE_URL environment variable is not set")
  | Some url =>
      let url :=
        if String.prefix "postgres://" url
        then str_replace_first "postgres://" "postgresql+asyncpg://" url
        else if String.prefix "postgresql://" url
        then str_replace_first "postgresql://" "postgresql+asyncpg://" url
        else url in
      if str_contains "sslmode=" url
      then
        match str_split "?"%char url with
        | base :: query :: _ =>
            let params :=
              filter (fun p => negb (String.prefix "sslmode=" p))
                     (str_split "&"%char query) in
            match params with
            | [] => Ok base
            | _ :: _ =>
                Ok (String.append base
                      (String.append "?" (str_join "&" params)))
            end
        | _ => Ok url
        end
      else Ok url
  end.

(** The parameters of a connection string, read as the module reads
    them: what follows the first question mark, cut at the ampersands. *)
Definition query_params (url : string) : list string :=
  match str_split "?"%char url with
  | _ :: query :: _ => str_split "&"%char query
  | _ => []
  end.

(** [c in s], for one character. *)
Fixpoint str_has_char (c : Ascii.ascii) (s : string) : bool :=
  match s with
  | EmptyString => false
  | String a r => Ascii.eqb a c || str_has_char c r
  end.

(** The scheme rewrite of the module, on the part before the query. *)
Definition asyncpg_scheme (base : string) : string :=
  if String.prefix "postgres://" base
  then String.append "postgresql+asyncpg://" (str_drop 11 base)
  else if String.prefix "postgresql://" base
  then String.append "postgresql+asyncpg://" (str_drop 13 base)
  else base.

(** The two halves of the module's rewriting, for the proofs: the scheme,
    as the module writes it, and the [sslmode] filter. *)
Definition rewrite_scheme (url : string) : string :=
  if String.prefix "postgres://" url
  then str_replace_first "postgres://" "postgresql+asyncpg://" url
  else if String.prefix "postgresql://" url
  then str_replace_first "postgresql://" "postgresql+asyncpg://" url
  else url.

Definition without_sslmode (url : string) : Result string :=
  if str_contains "sslmode=" url
  then
    match str_split "?" url with
    | base :: query :: _ =>
        let params :=
          filter (fun p => negb (String.prefix "sslmode=" p))
                 (str_split "&" query) in
        match params with
        | [] => Ok base
        | _ :: _ =>
            Ok (String.append base (String.append "?" (str_join "&" params)))
        end
    | _ => Ok url
    end
  else Ok url.

(* ================================================================= *)
(** ** app/speech: the tables, the schemas and the router

    The speech endpoints run on the same session as the authentication
    flows, over three more tables, and write uploaded files to disk.

    - Python floats are carried, never computed with, except for one
      comparison and for formatting; their type, that comparison and the
      formatting functions are taken from the runtime.
    - The bytes of an upload are a length and an indexing function.
    - The disk is a list of paths with their contents; whether the
      operating system lets a directory be made or a file be written is
      an input, like the clock. *)

Module Speech.

(** What the router takes from the Python runtime: the floats, with the
    value of a literal, [x > n] and [str(x)]; [str(n)] for an int; and
    [strftime('%Y-%m-%d')]. *)
Record Runtime : Type := mkRuntime {
  float : Type;
  float_literal : string -> float;
  float_gt : float -> Z -> bool;
  float_str : float -> string;
  int_str : Z -> string;
  strftime_Ymd : Z -> string
}.

(** A JSON value, for the [analysis_data] column. *)
Inductive Json (float : Type) : Type :=
| JNumber (x : float)
| JString (s : string)
| JArray (items : list (Json float))
| JObject (members : list (string * Json float)).
Arguments JNumber {float} x.
Arguments JString {float} s.
Arguments JArray {float} items.
Arguments JObject {float} members.

(** [audio_files] *)
Module AudioFile.
Record t (float : Type) : Type := mk {
  id : Z;
  user_id : string;
  filename : string;
  original_name : string;
  file_path : string;
  file_size : Z;
  mime_type : string;
  duration : option float;
  created_at : Z
}.
Arguments mk {float}.
Arguments id {float}.
Arguments user_id {float}.
Arguments filename {float}.
Arguments original_name {float}.
Arguments file_path {float}.
Arguments file_size {float}.
Arguments mime_type {float}.
Arguments duration {float}.
Arguments created_at {float}.
End AudioFile.

(** [speech_analyses]; [error_message] is never read or written. *)
Module SpeechAnalysis.
Record t (float : Type) : Type := mk {
  id : Z;
  user_id : string;
  audio_file_id : Z;
  stuttering_detected : bool;
  stuttering_percentage : float;
  total_words : Z;
  stuttered_words : Z;
  average_pause_duration : float;
  speech_rate : float;
  analysis_data : option (Json float);
  processing_status : string;
  processed_at : option Z;
  created_at : Z
}.
Arguments mk {float}.
Arguments id {float}.
Arguments user_id {float}.
Arguments audio_file_id {float}.
Arguments stuttering_detected {float}.
Arguments stuttering_percentage {float}.
Arguments total_words {float}.
Arguments stuttered_words {float}.
Arguments average_pause_duration {float}.
Arguments speech_rate {float}.
Arguments analysis_data {float}.
Arguments processing_status {float}.
Arguments processed_at {float}.
Arguments created_at {float}.
End SpeechAnalysis.

(** [reports] *)
Module Report.
Record t : Type := mk {
  id : Z;
  user_id : string;
  speech_analysis_id : Z;
  title : string;
  summary : option string;
  recommendations : option string;
  detailed_findings : option string;
  report_type : string;
  generated_by : option string;
  created_at : Z;
  updated_at : Z
}.
End Report.

Record SpeechTables (float : Type) : Type := mkSpeechTables {
  audio_files : list (AudioFile.t float);
  speech_analyses : list (SpeechAnalysis.t float);
  reports : list Report.t;
  audio_files_id_seq : Z;
  speech_analyses_id_seq : Z;
  reports_id_seq : Z
}.
Arguments mkSpeechTables {float}.
Arguments audio_files {float}.
Arguments speech_analyses {float}.
Arguments reports {float}.
Arguments audio_files_id_seq {float}.
Arguments speech_analyses_id_seq {float}.
Arguments reports_id_seq {float}.

(** The whole database: the tables of the authentication flows and
    these. *)
Record Database (float : Type) : Type := mkDatabase {
  auth : Tables;
  speech : SpeechTables float
}.
Arguments mkDatabase {float}.
Arguments auth {float}.
Arguments speech {float}.

(** [bytes] *)
Record Bytes : Type := mkBytes {
  len : Z;
  byte_at : Z -> Ascii.ascii
}.

Definition Disk : Type := list (string * Bytes).

(** What the operating system answers to the two file operations of the
    upload, on a disk: [None] when the call goes through, and otherwise
    the exception it raises ([OSError]: name too long, no space left,
    permission denied, ...), for a write together with the disk as the
    failed write leaves it. *)
Record FileSystem : Type := mkFileSystem {
  makedirs_error : Disk -> string -> option Exception;
  write_error : Disk -> string -> Bytes -> option (Exception * Disk)
}.

(** fastapi's [UploadFile] *)
Record UploadFile : Type := mkUploadFile {
  upload_filename : option string;
  content_type : option string;
  content : Bytes
}.

(** *** app/speech/schemas.py *)

Record AudioFileUpload (float : Type) : Type := mkAudioFileUpload {
  upload_id : Z;
  upload_name : string;
  upload_original_name : string;
  upload_file_size : Z;
  upload_mime_type : string;
  upload_duration : option float;
  upload_created_at : Z
}.
Arguments mkAudioFileUpload {float}.
Arguments upload_id {float}.
Arguments upload_name {float}.
Arguments upload_original_name {float}.
Arguments upload_file_size {float}.
Arguments upload_mime_type {float}.
Arguments upload_duration {float}.
Arguments upload_created_at {float}.

Record SpeechAnalysisResponse (float : Type) : Type :=
  mkSpeechAnalysisResponse {
  r_id : Z;
  r_audio_file_id : Z;
  r_stuttering_detected : bool;
  r_stuttering_percentage : float;
  r_total_words : Z;
  r_stuttered_words : Z;
  r_average_pause_duration : float;
  r_speech_rate : float;
  r_analysis_data : option (Json float);
  r_processing_status : string;
  r_processed_at : option Z;
  r_created_at : Z
}.
Arguments mkSpeechAnalysisResponse {float}.
Arguments r_id {float}.
Arguments r_audio_file_id {float}.
Arguments r_stuttering_detected {float}.
Arguments r_processing_status {float}.

Record ReportResponse : Type := mkReportResponse {
  rr_id : Z;
  rr_speech_analysis_id : Z;
  rr_title : string;
  rr_summary : option string;
  rr_recommendations : option string;
  rr_detailed_findings : option string;
  rr_report_type : string;
  rr_created_at : Z;
  rr_updated_at : Z
}.

(** *** The constraints the schema declares for these tables *)

Definition has_id {R : Type} (key : R -> Z) (rows : list R) (k : Z) : bool :=
  existsb (fun r => Z.eqb (key r) k) rows.

Definition speech_constraints_ok {float : Type} (d : Database float) : bool :=
  let t := speech d in
  distinct Z.eqb (map AudioFile.id (audio_files t))
  && forallb (fun a => references_user (users (auth d)) (AudioFile.user_id a))
             (audio_files t)
  && distinct Z.eqb (map SpeechAnalysis.id (speech_analyses t))
  && forallb (fun a => references_user (users (auth d))
                                       (SpeechAnalysis.user_id a))
             (speech_analyses t)
  && forallb (fun a => has_id AudioFile.id (audio_files t)
                              (SpeechAnalysis.audio_file_id a))
             (speech_analyses t)
  && distinct Z.eqb (map Report.id (reports t))
  && forallb (fun r => references_user (users (auth d)) (Report.user_id r))
             (reports t)
  && forallb (fun r => has_id SpeechAnalysis.id (speech_analyses t)
                              (Report.speech_analysis_id r))
             (reports t).

Definition database_ok {float : Type} (d : Database float) : bool :=
  constraints_ok (auth d) && speech_constraints_ok d.

(** The three serials are ahead of the rows. *)
Definition serials_ahead {float : Type} (d : Database float) : bool :=
  let t := speech d in
  forallb (fun a => Z.ltb (AudioFile.id a) (audio_files_id_seq t))
          (audio_files t)
  && forallb (fun a => Z.ltb (SpeechAnalysis.id a) (speech_analyses_id_seq t))
             (speech_analyses t)
  && forallb (fun r => Z.ltb (Report.id r) (reports_id_seq t)) (reports t).

(** *** The session, with the disk beside it *)

Record World (float : Type) : Type := mkWorld {
  db_committed : Database float;
  db_pending : Database float;
  disk : Disk
}.
Arguments mkWorld {float}.
Arguments db_committed {float}.
Arguments db_pending {float}.
Arguments disk {float}.

Section Router.

Context (py : Runtime) (lib : Library) (environ : Environ)
        (os : FileSystem).

Let F : Type := float py.

Definition M (A : Type) : Type := World F -> Result A * World F.

Definition ret {A : Type} (a : A) : M A := fun w => (Ok a, w).

Definition raise {A : Type} (e : Exception) : M A := fun w => (Raise e, w).

Definition bind {A B : Type} (m : M A) (k : A -> M B) : M B :=
  fun w =>
    match m w with
    | (Ok a, w') => k a w'
    | (Raise e, w') => (Raise e, w')
    end.

(** A dependency of the authentication flows, on this session. *)
Definition on_auth {A : Type} (m : Session -> Result A * Session) : M A :=
  fun w =>
    match m (mkSession (auth (db_committed w)) (auth (db_pending w))) with
    | (r, s) =>
        (r, mkWorld (mkDatabase (committed s) (speech (db_committed w)))
                    (mkDatabase (pending s) (speech (db_pending w)))
                    (disk w))
    end.

Definition execute_select {R : Type} (table : SpeechTables F -> list R)
    (where_ : R -> bool) : M (list R) :=
  fun w => (Ok (filter where_ (table (speech (db_pending w)))), w).

Definition scalar_one_or_none {R : Type} (rows : list R) : M (option R) :=
  match rows with
  | [] => ret None
  | [r] => ret (Some r)
  | _ :: _ :: _ => raise MultipleResultsFound
  end.

Definition modify_speech (f : SpeechTables F -> SpeechTables F) : M unit :=
  fun w =>
    (Ok tt,
     mkWorld (db_committed w)
             (mkDatabase (auth (db_pending w)) (f (speech (db_pending w))))
             (disk w)).

(** [db.add(row)] followed, after the commit, by [db.refresh(row)]: the
    row gets its id from the serial; the computation answers the row as
    the refresh shows it. *)
Definition add_AudioFile (row : Z -> AudioFile.t F) : M (AudioFile.t F) :=
  fun w =>
    let t := speech (db_pending w) in
    let r := row (audio_files_id_seq t) in
    (Ok r,
     mkWorld (db_committed w)
       (mkDatabase (auth (db_pending w))
          (mkSpeechTables (audio_files t ++ [r]) (speech_analyses t)
             (reports t) (audio_files_id_seq t + 1)%Z
             (speech_analyses_id_seq t) (reports_id_seq t)))
       (disk w)).

Definition add_SpeechAnalysis (row : Z -> SpeechAnalysis.t F)
    : M (SpeechAnalysis.t F) :=
  fun w =>
    let t := speech (db_pending w) in
    let r := row (speech_analyses_id_seq t) in
    (Ok r,
     mkWorld (db_committed w)
       (mkDatabase (auth (db_pending w))
          (mkSpeechTables (audio_files t) (speech_analyses t ++ [r])
             (reports t) (audio_files_id_seq t)
             (speech_analyses_id_seq t + 1)%Z (reports_id_seq t)))
       (disk w)).

Definition add_Report (row : Z -> Report.t) : M Report.t :=
  fun w =>
    let t := speech (db_pending w) in
    let r := row (reports_id_seq t) in
    (Ok r,
     mkWorld (db_committed w)
       (mkDatabase (auth (db_pending w))
          (mkSpeechTables (audio_files t) (speech_analyses t)
             (reports t ++ [r]) (audio_files_id_seq t)
             (speech_analyses_id_seq t) (reports_id_seq t + 1)%Z))
       (disk w)).

Definition commit : M unit :=
  fun w =>
    if database_ok (db_pending w)
    then (Ok tt, mkWorld (db_pending w) (db_pending w) (disk w))
    else (Raise IntegrityError,
          mkWorld (db_committed w) (db_committed w) (disk w)).

Definition rollback (w : World F) : World F :=
  mkWorld (db_committed w) (db_committed w) (disk w).

(** [os.makedirs(path, exist_ok=True)] *)
Definition makedirs (path : string) : M unit :=
  fun w =>
    match makedirs_error os (disk w) path with
    | Some e => (Raise e, w)
    | None => (Ok tt, w)
    end.

(** [async with aiofiles.open(path, "wb") as f: await f.write(data)].
    [open] refuses a path that holds a NUL before it asks the operating
    system. *)
Definition write_file (path : string) (data : Bytes) : M unit :=
  fun w =>
    if str_has_char "000"%char path
    then (Raise (ValueError "embedded null byte"), w)
    else
      match write_error os (disk w) path data with
      | Some (e, disk') =>
          (Raise e, mkWorld (db_committed w) (db_pending w) disk')
      | None =>
          (Ok tt,
           mkWorld (db_committed w) (db_pending w)
                   ((path, data)
                      :: filter (fun e => negb (fst e =? path)) (disk w)))
      end.

(** app/database.py, [get_db], for an endpoint of this router: from a
    database and a disk to the answer, the database and the disk. *)
Definition get_db {A : Type} (endpoint : M A) (db : Database F) (files : Disk)
    : Result A * Database F * Disk :=
  match endpoint (mkWorld db db files) with
  | (Ok a, w) =>
      match commit w with
      | (Ok _, w') => (Ok a, db_committed w', disk w')
      | (Raise e, w') => (Raise e, db_committed (rollback w'), disk w')
      end
  | (Raise e, w) => (Raise e, db_committed (rollback w), disk w)
  end.

(** *** os.path, as posixpath has it *)

(** What follows the last slash. *)
Fixpoint basename (p : string) : string :=
  match p with
  | EmptyString => EmptyString
  | String c r =>
      if str_has_char "/" r then basename r
      else if Ascii.eqb c "/" then r else p
  end.

Fixpoint strip_leading_dots (s : string) : string :=
  match s with
  | String c r => if Ascii.eqb c "." then strip_leading_dots r else s
  | EmptyString => EmptyString
  end.

(** From the last dot on, if there is a dot. *)
Fixpoint from_last_dot (s : string) : option string :=
  match s with
  | EmptyString => None
  | String c r =>
      match from_last_dot r with
      | Some ext => Some ext
      | None => if Ascii.eqb c "." then Some s else None
      end
  end.

(** [os.path.splitext(p)[1]]: the extension starts at the last dot of the
    last component; leading dots of the component do not count. *)
Definition splitext_ext (p : string) : string :=
  match from_last_dot (strip_leading_dots (basename p)) with
  | Some ext => ext
  | None => EmptyString
  end.

(** [os.path.join(a, b)] *)
Definition path_join (a b : string) : string :=
  if String.prefix "/" b then b
  else if (a =? "") || str_has_char "/" (str_drop (String.length a - 1) a)
  then String.append a b
  else String.append a (String "/" b).

(** *** app/speech/router.py *)

Definition HTTP_404_NOT_FOUND : nat := 404.

Definition allowed_types : list string :=
  ["audio/mpeg"; "audio/wav"; "audio/mp4"; "audio/m4a"].

Definition max_size : Z := (50 * 1024 * 1024)%Z.

(** [file.filename] when it is truthy. *)
Definition truthy (s : option string) : option string :=
  match s with
  | Some (String c r) => Some (String c r)
  | _ => None
  end.

(** [str(x)] for an [Optional[str]] in an f-string. *)
Definition str_optional (s : option string) : string :=
  match s with
  | Some v => v
  | None => "None"
  end.

Definition AudioFileUpload_of (a : AudioFile.t F) : AudioFileUpload F :=
  mkAudioFileUpload (AudioFile.id a) (AudioFile.filename a)
    (AudioFile.original_name a) (AudioFile.file_size a)
    (AudioFile.mime_type a) (AudioFile.duration a) (AudioFile.created_at a).

(** [os.path.splitext(file.filename)[1] if file.filename else ".bin"] *)
Definition file_extension (file : UploadFile) : string :=
  match truthy (upload_filename file) with
  | Some name => splitext_ext name
  | None => ".bin"
  end.

Definition upload_audio_file (utcnow : Z) (uuid4 : string)
    (credentials : string) (file : UploadFile) : M (AudioFileUpload F) :=
  bind (on_auth (get_current_user lib environ utcnow credentials))
    (fun current_user =>
  if negb (match content_type file with
           | Some t => existsb (String.eqb t) allowed_types
           | None => false
           end)
  then
    raise (HTTPException HTTP_400_BAD_REQUEST
             (String.append "File type "
                (String.append (str_optional (content_type file))
                   (String.append " not supported. Allowed types: "
                      (str_join ", " allowed_types)))))
  else
    let file_content := content file in
    if (max_size <? len file_content)%Z
    then raise (HTTPException HTTP_400_BAD_REQUEST
                              "File size exceeds 50MB limit")
    else
      let file_extension := file_extension file in
      let unique_filename := String.append uuid4 file_extension in
      let upload_dir := "uploads/audio" in
      bind (makedirs upload_dir) (fun _ =>
      let file_path := path_join upload_dir unique_filename in
      bind (write_file file_path file_content) (fun _ =>
      bind (add_AudioFile (fun id =>
              AudioFile.mk id (User.id current_user) unique_filename
                (match truthy (upload_filename file) with
                 | Some name => name
                 | None => "unknown"
                 end)
                file_path (len file_content)
                (str_optional (content_type file)) None utcnow))
        (fun db_audio_file =>
      bind commit (fun _ =>
      ret (AudioFileUpload_of db_audio_file)))))).

Definition SpeechAnalysisResponse_of (a : SpeechAnalysis.t F)
    : SpeechAnalysisResponse F :=
  mkSpeechAnalysisResponse (SpeechAnalysis.id a)
    (SpeechAnalysis.audio_file_id a) (SpeechAnalysis.stuttering_detected a)
    (SpeechAnalysis.stuttering_percentage a) (SpeechAnalysis.total_words a)
    (SpeechAnalysis.stuttered_words a)
    (SpeechAnalysis.average_pause_duration a) (SpeechAnalysis.speech_rate a)
    (SpeechAnalysis.analysis_data a) (SpeechAnalysis.processing_status a)
    (SpeechAnalysis.processed_at a) (SpeechAnalysis.created_at a).

Definition mock_analysis_data : Json F :=
  JObject
    [("stuttering_events",
      JArray
        [JObject [("timestamp", JNumber (float_literal py "2.3"));
                  ("type", JString "repetition");
                  ("word", JString "the")];
         JObject [("timestamp", JNumber (float_literal py "5.7"));
                  ("type", JString "prolongation");
                  ("word", JString "speech")];
         JObject [("timestamp", JNumber (float_literal py "12.1"));
                  ("type", JString "block");
                  ("duration", JNumber (float_literal py "0.8"))]]);
     ("confidence_score", JNumber (float_literal py "0.92"));
     ("processing_method", JString "mock_ai_v1.0")].

(** The row [analyze_speech] builds. *)
Definition mock_analysis (utcnow : Z) (user_id : string) (audio_file_id : Z)
    (id : Z) : SpeechAnalysis.t F :=
  SpeechAnalysis.mk id user_id audio_file_id true
    (float_literal py "15.2") 120 18 (float_literal py "0.45")
    (float_literal py "95.5") (Some mock_analysis_data) "completed"
    (Some utcnow) utcnow.

Definition analyze_speech (utcnow : Z) (credentials : string)
    (audio_file_id : Z) : M (SpeechAnalysisResponse F) :=
  bind (on_auth (get_current_user lib environ utcnow credentials))
    (fun current_user =>
  bind (execute_select audio_files
          (fun a => Z.eqb (AudioFile.id a) audio_file_id
                    && (AudioFile.user_id a =? User.id current_user)))
    (fun result =>
  bind (scalar_one_or_none result) (fun audio_file =>
  match audio_file with
  | None => raise (HTTPException HTTP_404_NOT_FOUND "Audio file not found")
  | Some _ =>
      bind (execute_select speech_analyses
              (fun a => Z.eqb (SpeechAnalysis.audio_file_id a) audio_file_id))
        (fun result =>
      bind (scalar_one_or_none result) (fun existing_analysis =>
      match existing_analysis with
      | Some existing_analysis =>
          ret (SpeechAnalysisResponse_of existing_analysis)
      | None =>
          bind (add_SpeechAnalysis
                  (mock_analysis utcnow (User.id current_user) audio_file_id))
            (fun db_analysis =>
          bind commit (fun _ =>
          ret (SpeechAnalysisResponse_of db_analysis)))
      end))
  end))).

Definition get_user_analyses (utcnow : Z) (credentials : string)
    : M (list (SpeechAnalysisResponse F)) :=
  bind (on_auth (get_current_user lib environ utcnow credentials))
    (fun current_user =>
  bind (execute_select speech_analyses
          (fun a => SpeechAnalysis.user_id a =? User.id current_user))
    (fun analyses =>
  ret (map SpeechAnalysisResponse_of analyses))).

Definition ReportResponse_of (r : Report.t) : ReportResponse :=
  mkReportResponse (Report.id r) (Report.speech_analysis_id r)
    (Report.title r) (Report.summary r) (Report.recommendations r)
    (Report.detailed_findings r) (Report.report_type r)
    (Report.created_at r) (Report.updated_at r).

Definition report_summary (analysis : SpeechAnalysis.t F) : string :=
  String.append "Speech analysis detected "
    (String.append
       (if SpeechAnalysis.stuttering_detected analysis
        then "stuttering patterns" else "no significant stuttering")
       " in the audio sample.").

Definition report_recommendations : string :=
  "1. Continue monitoring speech patterns during daily activities
2. Practice controlled breathing techniques during speech
3. Consider consultation with a speech-language pathologist
4. Regular follow-up assessments recommended".

Definition report_detailed_findings (analysis : SpeechAnalysis.t F)
    : string :=
  String.append "Analysis Results:
- Total words analyzed: "
  (String.append (int_str py (SpeechAnalysis.total_words analysis))
  (String.append "
- Stuttering events detected: "
  (String.append (int_str py (SpeechAnalysis.stuttered_words analysis))
  (String.append "
- Stuttering percentage: "
  (String.append
     (float_str py (SpeechAnalysis.stuttering_percentage analysis))
  (String.append "%
- Average pause duration: "
  (String.append
     (float_str py (SpeechAnalysis.average_pause_duration analysis))
  (String.append "s
- Speech rate: "
  (String.append (float_str py (SpeechAnalysis.speech_rate analysis))
  (String.append " words per minute

The analysis indicates "
  (String.append
     (if float_gt py (SpeechAnalysis.stuttering_percentage analysis) 10
      then "moderate" else "mild")
     " stuttering patterns."))))))))))).

(** The row [generate_report] builds. *)
Definition new_report (utcnow : Z) (user_id : string)
    (analysis : SpeechAnalysis.t F) (analysis_id : Z) (id : Z) : Report.t :=
  Report.mk id user_id analysis_id
    (String.append "Speech Analysis Report - " (strftime_Ymd py utcnow))
    (Some (report_summary analysis))
    (Some report_recommendations)
    (Some (report_detailed_findings analysis))
    "standard" (Some "system") utcnow utcnow.

Definition generate_report (utcnow : Z) (credentials : string)
    (analysis_id : Z) : M ReportResponse :=
  bind (on_auth (get_current_user lib environ utcnow credentials))
    (fun current_user =>
  bind (execute_select speech_analyses
          (fun a => Z.eqb (SpeechAnalysis.id a) analysis_id
                    && (SpeechAnalysis.user_id a =? User.id current_user)))
    (fun result =>
  bind (scalar_one_or_none result) (fun analysis =>
  match analysis with
  | None =>
      raise (HTTPException HTTP_404_NOT_FOUND "Speech analysis not found")
  | Some analysis =>
      bind (execute_select reports
              (fun r => Z.eqb (Report.speech_analysis_id r) analysis_id))
        (fun result =>
      bind (scalar_one_or_none result) (fun existing_report =>
      match existing_report with
      | Some existing_report => ret (ReportResponse_of existing_report)
      | None =>
          bind (add_Report
                  (new_report utcnow (User.id current_user) analysis
                              analysis_id))
            (fun db_report =>
          bind commit (fun _ =>
          ret (ReportResponse_of db_report)))
      end))
  end))).

End Router.

End Speech.

(** The database after the inserts of the speech router. *)
Definition with_audio_file {float : Type} (row : Speech.AudioFile.t float)
    (d : Speech.Database float) : Speech.Database float :=
  let t := Speech.speech d in
  Speech.mkDatabase (Speech.auth d)
    (Speech.mkSpeechTables (Speech.audio_files t ++ [row])
       (Speech.speech_analyses t) (Speech.reports t)
       (Speech.audio_files_id_seq t + 1)%Z (Speech.speech_analyses_id_seq t)
       (Speech.reports_id_seq t)).

Definition with_speech_analysis {float : Type}
    (row : Speech.SpeechAnalysis.t float) (d : Speech.Database float)
    : Speech.Database float :=
  let t := Speech.speech d in
  Speech.mkDatabase (Speech.auth d)
    (Speech.mkSpeechTables (Speech.audio_files t)
       (Speech.speech_analyses t ++ [row]) (Speech.reports t)
       (Speech.audio_files_id_seq t) (Speech.speech_analyses_id_seq t + 1)%Z
       (Speech.reports_id_seq t)).

Definition with_report {float : Type} (row : Speech.Report.t)
    (d : Speech.Database float) : Speech.Database float :=
  let t := Speech.speech d in
  Speech.mkDatabase (Speech.auth d)
    (Speech.mkSpeechTables (Speech.audio_files t) (Speech.speech_analyses t)
       (Speech.reports t ++ [row]) (Speech.audio_files_id_seq t)
       (Speech.speech_analyses_id_seq t) (Speech.reports_id_seq t + 1)%Z).

(** The user an access token resolves to, if any. *)
Definition authenticated (lib : Library) (environ : Environ) (utcnow : Z)
    (credentials : string) (users_ : Tables) : Result User.t :=
  fst (get_current_user lib environ utcnow credentials
         (mkSession users_ users_)).

(** A stand-in for the runtime (a float is the text of its literal) and
    a small database for the speech endpoints, over [Sample.db]. *)
Module SpeechSample.

Definition py : Speech.Runtime :=
  Speech.mkRuntime string (fun literal => literal)
    (fun x n => negb (x =? "5.0")) (fun x => x)
    (fun n => if Z.eqb n 120 then "120" else "18")
    (fun t => "1970-01-01").

Definition alice_recording : Speech.AudioFile.t string :=
  Speech.AudioFile.mk 1 "u1" "a.wav" "hello.wav" "uploads/audio/a.wav" 1000
                      "audio/wav" None 50.

Definition bob_recording : Speech.AudioFile.t string :=
  Speech.AudioFile.mk 2 "u2" "b.mp3" "talk.mp3" "uploads/audio/b.mp3" 2000
                      "audio/mpeg" None 60.

Definition bob_analysis : Speech.SpeechAnalysis.t string :=
  Speech.mock_analysis py 70 "u2" 2 1.

Definition db : Speech.Database string :=
  Speech.mkDatabase Sample.db
    (Speech.mkSpeechTables [alice_recording; bob_recording] [bob_analysis]
                           [] 3 2 1).

Definition files : Speech.Disk := [].

Definition voice_memo : Speech.UploadFile :=
  Speech.mkUploadFile (Some "../../etc/memo.final.m4a") (Some "audio/m4a")
                      (Speech.mkBytes 4096 (fun _ => "000"%char)).

(** A file system that takes every write but one to a file whose name
    is longer than 255 characters. *)
Definition os : Speech.FileSystem :=
  Speech.mkFileSystem (fun _ _ => None)
    (fun disk path _ =>
       if Nat.ltb 255 (String.length (Speech.basename path))
       then Some (OSError 36 "File name too long", disk)
       else None).

Definition slides : Speech.UploadFile :=
  Speech.mkUploadFile (Some "slides.pdf") (Some "application/pdf")
                      (Speech.mkBytes 10 (fun _ => "000"%char)).

(** A file name with a NUL in its extension. *)
Definition poisoned : Speech.UploadFile :=
  Speech.mkUploadFile
    (Some (String.append "memo.m4a" (String "000"%char "x")))
    (Some "audio/m4a") (Speech.mkBytes 4096 (fun _ => "000"%char)).

End SpeechSample.

(* ================================================================= *)
(** ** Rows and keys *)

Section Keys.

Context {A K : Type} (eqb : K -> K -> bool).
Hypothesis eqb_spec : forall x y, eqb x y = true <-> x = y.
Variable key : A -> K.

Lemma eqb_false_iff x y : eqb x y = false <-> x <> y.
Proof.
  destruct (eqb x y) eqn:E.
  - apply eqb_spec in E. split; [discriminate | contradiction].
  - split; [|reflexivity]. intros _ H. apply eqb_spec in H. congruence.
Qed.

Lemma eqb_same x : eqb x x = true.
Proof. apply eqb_spec. reflexivity. Qed.

Lemma existsb_key_false k (l : list A) :
  existsb (fun y => eqb (key y) k) l = false <->
  (forall x, In x l -> key x <> k).
Proof.
  induction l as [|a l IH]; simpl.
  - split; [intros _ x [] | reflexivity].
  - rewrite orb_false_iff, IH, eqb_false_iff. split.
    + intros [Ha Hl] x [<- | Hx]; auto.
    + intros H. split; [apply H; left; reflexivity|].
      intros x Hx. apply H. right. exact Hx.
Qed.

Lemma existsb_key_true k (l : list A) :
  existsb (fun y => eqb (key y) k) l = true <->
  (exists x, In x l /\ key x = k).
Proof.
  rewrite existsb_exists. split; intros [x [Hx E]]; exists x; split; auto;
    apply eqb_spec; exact E.
Qed.

Lemma existsb_in_keys k (l : list A) :
  existsb (eqb k) (map key l) = existsb (fun y => eqb (key y) k) l.
Proof.
  induction l as [|a l IH]; simpl; [reflexivity|].
  rewrite IH. f_equal.
  destruct (eqb k (key a)) eqn:E1, (eqb (key a) k) eqn:E2; try reflexivity.
  - apply eqb_spec in E1. apply eqb_false_iff in E2. congruence.
  - apply eqb_spec in E2. apply eqb_false_iff in E1. congruence.
Qed.

Lemma filter_key_none k (l : list A) :
  (forall x, In x l -> key x <> k) ->
  filter (fun y => eqb (key y) k) l = [].
Proof.
  induction l as [|a l IH]; simpl; intros H; [reflexivity|].
  assert (Ha : eqb (key a) k = false)
    by (apply eqb_false_iff, H; left; reflexivity).
  rewrite Ha. apply IH. intros x Hx. apply H. right. exact Hx.
Qed.

Lemma filter_key_unique k (l : list A) x :
  distinct eqb (map key l) = true -> In x l -> key x = k ->
  filter (fun y => eqb (key y) k) l = [x].
Proof.
  induction l as [|a l IH]; simpl; intros D Hin Hk; [contradiction|].
  apply andb_true_iff in D. destruct D as [Dn D].
  apply negb_true_iff in Dn. rewrite existsb_in_keys in Dn.
  destruct Hin as [-> | Hin].
  - rewrite (proj2 (eqb_spec _ _) Hk). f_equal.
    apply filter_key_none. subst k.
    apply (proj1 (existsb_key_false _ _) Dn).
  - assert (Ha : eqb (key a) k = false).
    { apply eqb_false_iff. intros E.
      apply (proj1 (existsb_key_false _ _) Dn x Hin). congruence. }
    rewrite Ha. apply IH; assumption.
Qed.

(** A lookup by a unique key sees no row or one row. *)
Lemma filter_key_cases k (l : list A) :
  distinct eqb (map key l) = true ->
  filter (fun y => eqb (key y) k) l = [] /\
    (forall x, In x l -> key x <> k)
  \/ exists x, filter (fun y => eqb (key y) k) l = [x] /\ In x l /\ key x = k.
Proof.
  intros D.
  destruct (existsb (fun y => eqb (key y) k) l) eqn:E.
  - right. apply existsb_key_true in E. destruct E as [x [Hx Hk]].
    exists x. split; [apply filter_key_unique; assumption | auto].
  - left. pose proof (proj1 (existsb_key_false _ _) E) as H.
    split; [apply filter_key_none|]; exact H.
Qed.

Lemma filter_key_and k q (l : list A) :
  filter (fun y => eqb (key y) k && q y) l =
  filter q (filter (fun y => eqb (key y) k) l).
Proof.
  induction l as [|a l IH]; simpl; [reflexivity|].
  destruct (eqb (key a) k); simpl; [|exact IH].
  destruct (q a); rewrite IH; reflexivity.
Qed.

Lemma distinct_filter p (l : list A) :
  distinct eqb (map key l) = true ->
  distinct eqb (map key (filter p l)) = true.
Proof.
  induction l as [|a l IH]; simpl; intros D; [reflexivity|].
  apply andb_true_iff in D. destruct D as [Dn D].
  destruct (p a); simpl; [|apply IH; exact D].
  rewrite (IH D), andb_true_r.
  apply negb_true_iff in Dn. apply negb_true_iff.
  rewrite existsb_in_keys in *.
  apply existsb_key_false. intros x Hx.
  apply filter_In in Hx. destruct Hx as [Hx _].
  apply (proj1 (existsb_key_false _ _) Dn x Hx).
Qed.

Lemma distinct_map_same f (l : list A) :
  (forall x, key (f x) = key x) ->
  distinct eqb (map key (map f l)) = distinct eqb (map key l).
Proof.
  intros H. f_equal. rewrite map_map. apply map_ext. exact H.
Qed.

Lemma eqb_sym x y : eqb x y = eqb y x.
Proof.
  destruct (eqb x y) eqn:E1, (eqb y x) eqn:E2; try reflexivity.
  - apply eqb_spec in E1. apply eqb_false_iff in E2. congruence.
  - apply eqb_spec in E2. apply eqb_false_iff in E1. congruence.
Qed.

Lemma distinct_snoc (l : list A) x :
  distinct eqb (map key (l ++ [x])) =
  distinct eqb (map key l) && negb (existsb (fun y => eqb (key y) (key x)) l).
Proof.
  induction l as [|a l IH]; simpl; [reflexivity|].
  rewrite IH, !existsb_in_keys, existsb_app. simpl.
  rewrite orb_false_r, (eqb_sym (key x) (key a)).
  destruct (existsb (fun y => eqb (key y) (key a)) l),
           (distinct eqb (map key l)),
           (eqb (key a) (key x)),
           (existsb (fun y => eqb (key y) (key x)) l); reflexivity.
Qed.

End Keys.

Lemma nat_eqb_spec (x y : nat) : Nat.eqb x y = true <-> x = y.
Proof. apply Nat.eqb_eq. Qed.

Lemma string_eqb_spec (x y : string) : (x =? y) = true <-> x = y.
Proof. apply String.eqb_eq. Qed.

(* ================================================================= *)
(** ** Consequences of the schema constraints *)

Lemma constraints_ok_iff (t : Tables) :
  constraints_ok t = true <->
  distinct String.eqb (map User.id (users t)) = true
  /\ distinct String.eqb (map User.email (users t)) = true
  /\ distinct String.eqb (map AuthToken.id (auth_tokens t)) = true
  /\ distinct String.eqb (map AuthToken.token (auth_tokens t)) = true
  /\ forallb (fun a => references_user (users t) (AuthToken.user_id a))
             (auth_tokens t) = true
  /\ distinct Nat.eqb (map PasswordResetToken.id (password_reset_tokens t))
     = true
  /\ distinct String.eqb
       (map PasswordResetToken.token (password_reset_tokens t)) = true
  /\ forallb (fun r => references_user (users t) (PasswordResetToken.user_id r))
             (password_reset_tokens t) = true.
Proof. unfold constraints_ok. rewrite !andb_true_iff. tauto. Qed.

Lemma references_user_iff (us : list User.t) (uid : string) :
  references_user us uid = true <-> exists u, In u us /\ User.id u = uid.
Proof. apply (existsb_key_true String.eqb string_eqb_spec). Qed.

Lemma user_by_email (t : Tables) (u : User.t) :
  constraints_ok t = true -> In u (users t) ->
  filter (fun x => User.email x =? User.email u) (users t) = [u].
Proof.
  intros C Hin. apply constraints_ok_iff in C.
  apply (filter_key_unique String.eqb string_eqb_spec); tauto.
Qed.

Lemma user_by_id (t : Tables) (u : User.t) :
  constraints_ok t = true -> In u (users t) ->
  filter (fun x => User.id x =? User.id u) (users t) = [u].
Proof.
  intros C Hin. apply constraints_ok_iff in C.
  apply (filter_key_unique String.eqb string_eqb_spec); tauto.
Qed.

Lemma no_user_with_email (t : Tables) (e : string) :
  (forall u, In u (users t) -> User.email u <> e) ->
  filter (fun x => User.email x =? e) (users t) = [].
Proof. apply (filter_key_none String.eqb string_eqb_spec). Qed.

Lemma email_lookup (t : Tables) (e : string) :
  constraints_ok t = true ->
  (filter (fun x => User.email x =? e) (users t) = []
   /\ forall u, In u (users t) -> User.email u <> e)
  \/ exists u, filter (fun x => User.email x =? e) (users t) = [u]
               /\ In u (users t) /\ User.email u = e.
Proof.
  intros C. apply constraints_ok_iff in C.
  apply (filter_key_cases String.eqb string_eqb_spec). tauto.
Qed.

Lemma no_user_with_id (t : Tables) (uid : string) :
  (forall u, In u (users t) -> User.id u <> uid) ->
  filter (fun x => User.id x =? uid) (users t) = [].
Proof. apply (filter_key_none String.eqb string_eqb_spec). Qed.

Lemma auth_token_by_token (t : Tables) (a : AuthToken.t) :
  constraints_ok t = true -> In a (auth_tokens t) ->
  filter (fun x => AuthToken.token x =? AuthToken.token a) (auth_tokens t)
  = [a].
Proof.
  intros C Hin. apply constraints_ok_iff in C.
  apply (filter_key_unique String.eqb string_eqb_spec); tauto.
Qed.

Lemma reset_token_by_token (t : Tables) (r : PasswordResetToken.t) :
  constraints_ok t = true -> In r (password_reset_tokens t) ->
  filter (unused_with_token (PasswordResetToken.token r))
         (password_reset_tokens t)
  = if PasswordResetToken.used r then [] else [r].
Proof.
  intros C Hin. apply constraints_ok_iff in C. unfold unused_with_token.
  rewrite (filter_key_and String.eqb PasswordResetToken.token).
  rewrite (filter_key_unique String.eqb string_eqb_spec
             PasswordResetToken.token _ _ r); try tauto.
  simpl. destruct (PasswordResetToken.used r); reflexivity.
Qed.

Lemma auth_token_owner (t : Tables) (a : AuthToken.t) :
  constraints_ok t = true -> In a (auth_tokens t) ->
  exists u, In u (users t) /\ User.id u = AuthToken.user_id a.
Proof.
  intros C Hin. apply constraints_ok_iff in C.
  destruct C as (_ & _ & _ & _ & F & _).
  rewrite forallb_forall in F. apply references_user_iff, F, Hin.
Qed.

Lemma reset_token_owner (t : Tables) (r : PasswordResetToken.t) :
  constraints_ok t = true -> In r (password_reset_tokens t) ->
  exists u, In u (users t) /\ User.id u = PasswordResetToken.user_id r.
Proof.
  intros C Hin. apply constraints_ok_iff in C.
  destruct C as (_ & _ & _ & _ & _ & _ & _ & F).
  rewrite forallb_forall in F. apply references_user_iff, F, Hin.
Qed.

(** What a one-row answer of a lookup says about the row. *)
Lemma filter_singleton {A : Type} (p : A -> bool) (l : list A) (x : A) :
  filter p l = [x] -> In x l /\ p x = true.
Proof.
  intros H. apply filter_In. rewrite H. left. reflexivity.
Qed.

(** *** Writes that keep the constraints *)

Lemma forallb_filter {A : Type} (p q : A -> bool) (l : list A) :
  forallb p l = true -> forallb p (filter q l) = true.
Proof.
  rewrite !forallb_forall. intros H x Hx. apply filter_In in Hx.
  apply H, Hx.
Qed.

Lemma delete_auth_tokens_ok (t : Tables) (q : AuthToken.t -> bool) :
  constraints_ok t = true ->
  constraints_ok (set_auth_tokens (filter q) t) = true.
Proof.
  rewrite !constraints_ok_iff. simpl.
  intros (H1 & H2 & H3 & H4 & H5 & H6 & H7 & H8).
  repeat split; auto using forallb_filter.
  - apply (distinct_filter String.eqb string_eqb_spec); exact H3.
  - apply (distinct_filter String.eqb string_eqb_spec); exact H4.
Qed.

Lemma delete_reset_tokens_ok (t : Tables) (q : PasswordResetToken.t -> bool) :
  constraints_ok t = true ->
  constraints_ok (set_password_reset_tokens (filter q) t) = true.
Proof.
  rewrite !constraints_ok_iff. simpl.
  intros (H1 & H2 & H3 & H4 & H5 & H6 & H7 & H8).
  repeat split; auto using forallb_filter.
  - apply (distinct_filter Nat.eqb nat_eqb_spec); exact H6.
  - apply (distinct_filter String.eqb string_eqb_spec); exact H7.
Qed.

Lemma references_user_map (f : User.t -> User.t) (us : list User.t) uid :
  (forall x, User.id (f x) = User.id x) ->
  references_user (map f us) uid = references_user us uid.
Proof.
  intros H. unfold references_user. induction us as [|a l IH]; simpl;
    [reflexivity|]. rewrite H, IH. reflexivity.
Qed.

Lemma update_users_ok (t : Tables) (f : User.t -> User.t) :
  (forall x, User.id (f x) = User.id x) ->
  (forall x, User.email (f x) = User.email x) ->
  constraints_ok t = true ->
  constraints_ok (set_users (map f) t) = true.
Proof.
  intros Hid Hemail. rewrite !constraints_ok_iff. simpl.
  intros (H1 & H2 & H3 & H4 & H5 & H6 & H7 & H8).
  rewrite !distinct_map_same by assumption.
  rewrite forallb_forall in H5, H8.
  repeat split; auto; apply forallb_forall; intros x Hx;
    rewrite references_user_map by exact Hid.
  - apply H5, Hx.
  - apply H8, Hx.
Qed.

Lemma update_reset_tokens_ok (t : Tables)
    (f : PasswordResetToken.t -> PasswordResetToken.t) :
  (forall x, PasswordResetToken.id (f x) = PasswordResetToken.id x) ->
  (forall x, PasswordResetToken.token (f x) = PasswordResetToken.token x) ->
  (forall x, PasswordResetToken.user_id (f x) = PasswordResetToken.user_id x) ->
  constraints_ok t = true ->
  constraints_ok (set_password_reset_tokens (map f) t) = true.
Proof.
  intros Hid Htok Huid. rewrite !constraints_ok_iff. simpl.
  intros (H1 & H2 & H3 & H4 & H5 & H6 & H7 & H8).
  rewrite !distinct_map_same by assumption.
  repeat split; auto.
  rewrite forallb_forall in *. intros x Hx.
  apply in_map_iff in Hx. destruct Hx as [y [<- Hy]].
  rewrite Huid. apply H8, Hy.
Qed.

Lemma references_user_snoc (us : list User.t) (u : User.t) uid :
  references_user us uid = true -> references_user (us ++ [u]) uid = true.
Proof.
  unfold references_user. rewrite existsb_app. intros ->. reflexivity.
Qed.

Lemma forallb_snoc {A : Type} (p : A -> bool) (l : list A) (x : A) :
  forallb p (l ++ [x]) = forallb p l && p x.
Proof. rewrite forallb_app. simpl. rewrite andb_true_r. reflexivity. Qed.

Lemma fresh_key {A : Type} (key : A -> string) (k : string) (l : list A) :
  (forall x, In x l -> key x <> k) ->
  negb (existsb (fun y => key y =? k) l) = true.
Proof.
  intros H. apply negb_true_iff.
  apply (existsb_key_false String.eqb string_eqb_spec). exact H.
Qed.

Lemma add_user_ok (t : Tables) (u : User.t) :
  constraints_ok t = true ->
  (forall x, In x (users t) -> User.id x <> User.id u) ->
  (forall x, In x (users t) -> User.email x <> User.email u) ->
  constraints_ok (set_users (fun l => l ++ [u]) t) = true.
Proof.
  rewrite !constraints_ok_iff. simpl.
  intros (H1 & H2 & H3 & H4 & H5 & H6 & H7 & H8) Fid Femail.
  rewrite !(distinct_snoc String.eqb string_eqb_spec), H1, H2.
  rewrite !fresh_key by assumption.
  rewrite forallb_forall in H5, H8.
  repeat split; auto; apply forallb_forall; intros x Hx;
    apply references_user_snoc; auto.
Qed.

Lemma add_auth_token_ok (t : Tables) (a : AuthToken.t) :
  constraints_ok t = true ->
  (forall x, In x (auth_tokens t) -> AuthToken.id x <> AuthToken.id a) ->
  (forall x, In x (auth_tokens t) -> AuthToken.token x <> AuthToken.token a) ->
  (exists u, In u (users t) /\ User.id u = AuthToken.user_id a) ->
  constraints_ok (set_auth_tokens (fun l => l ++ [a]) t) = true.
Proof.
  rewrite !constraints_ok_iff. simpl.
  intros (H1 & H2 & H3 & H4 & H5 & H6 & H7 & H8) Fid Ftok Fu.
  rewrite !(distinct_snoc String.eqb string_eqb_spec), H3, H4.
  rewrite !fresh_key by assumption.
  rewrite forallb_snoc, H5.
  apply references_user_iff in Fu. rewrite Fu.
  repeat split; auto.
Qed.

Lemma seq_is_fresh (t : Tables) :
  seq_ahead t = true ->
  existsb (fun y => Nat.eqb (PasswordResetToken.id y)
                            (password_reset_tokens_id_seq t))
          (password_reset_tokens t) = false.
Proof.
  unfold seq_ahead. rewrite forallb_forall. intros H.
  apply (existsb_key_false Nat.eqb nat_eqb_spec). intros x Hx E.
  specialize (H x Hx). apply Nat.ltb_lt in H. lia.
Qed.

Lemma add_reset_token_ok (t : Tables) (uid tok : string) (e : Z) :
  constraints_ok t = true -> seq_ahead t = true ->
  (forall x, In x (password_reset_tokens t) ->
             PasswordResetToken.token x <> tok) ->
  (exists u, In u (users t) /\ User.id u = uid) ->
  constraints_ok (insert_PasswordResetToken uid tok e t) = true.
Proof.
  rewrite !constraints_ok_iff. simpl.
  intros (H1 & H2 & H3 & H4 & H5 & H6 & H7 & H8) Hseq Ftok Fu.
  rewrite (distinct_snoc Nat.eqb nat_eqb_spec), H6.
  rewrite (distinct_snoc String.eqb string_eqb_spec), H7. simpl.
  rewrite seq_is_fresh by assumption.
  rewrite fresh_key by assumption.
  rewrite forallb_snoc, H8. simpl.
  apply references_user_iff in Fu. rewrite Fu.
  repeat split; auto.
Qed.

(* ================================================================= *)
(** ** The dependencies *)

(** The next [commit] of the goal checks tables convertible to those of
    [C : constraints_ok T = true]. *)
Ltac commit_with C :=
  match type of C with
  | constraints_ok ?T = _ =>
      match goal with
      | |- context [constraints_ok ?X] => change X with T; rewrite C; cbn
      end
  end.

(** Split on the innermost scrutinee of a computation in [H]. *)
Ltac case_match H :=
  match type of H with
  | context [match ?x with _ => _ end] =>
      lazymatch x with
      | context [match _ with _ => _ end] => fail
      | _ => destruct x eqn:?
      end
  end; simpl in H; try discriminate H.

Section Dependencies.

Context (lib : Library) (environ : Environ).

(** [get_current_user] only reads. *)
Lemma get_current_user_reads utcnow credentials s r s' :
  get_current_user lib environ utcnow credentials s = (r, s') -> s' = s.
Proof.
  unfold get_current_user, bind, lift, execute_select, scalar_one_or_none,
    ret, raise.
  intros H. repeat case_match H; inversion H; subst; reflexivity.
Qed.

Lemma get_current_user_ok utcnow credentials s u s' :
  get_current_user lib environ utcnow credentials s = (Ok u, s') ->
  exists payload,
    jwt_decode lib credentials (SECRET_KEY environ) ALGORITHM utcnow
      = Ok payload
    /\ sub payload = Some (User.id u)
    /\ filter (fun x => User.id x =? User.id u) (users (pending s)) = [u].
Proof.
  unfold get_current_user, bind, lift, execute_select, scalar_one_or_none,
    ret, raise, verify_token.
  intros H.
  destruct (jwt_decode lib credentials (SECRET_KEY environ) ALGORITHM utcnow)
    as [payload|e] eqn:D; [|destruct e; discriminate H].
  destruct (sub payload) as [uid|] eqn:S; [|discriminate H].
  destruct (filter (fun x => User.id x =? uid) (users (pending s)))
    as [|u0 [|u1 l]] eqn:F; try discriminate H.
  inversion H; subst u0 s'; clear H.
  destruct (filter_singleton _ _ _ F) as [_ E].
  apply String.eqb_eq in E. subst uid.
  exists payload. auto.
Qed.

(** The subject names no user: rejected as unauthenticated. *)
Lemma get_current_user_no_user utcnow credentials s payload uid :
  jwt_decode lib credentials (SECRET_KEY environ) ALGORITHM utcnow
    = Ok payload ->
  sub payload = Some uid ->
  (forall u, In u (users (pending s)) -> User.id u <> uid) ->
  get_current_user lib environ utcnow credentials s
  = (Raise (HTTPException 401 "Could not validate credentials"), s).
Proof.
  intros D S N.
  unfold get_current_user, bind, lift, execute_select, verify_token.
  rewrite D, S, (no_user_with_id _ _ N). reflexivity.
Qed.

(** A successful [get_refresh_token_user] found one row for the cookie,
    not expired, and its one owner; it wrote nothing. *)
Lemma get_refresh_token_user_ok utcnow refresh_token s u s' :
  get_refresh_token_user utcnow refresh_token s = (Ok u, s') ->
  s' = s /\
  exists t a,
    refresh_token = Some t /\ t <> ""
    /\ filter (fun x => AuthToken.token x =? t) (auth_tokens (pending s)) = [a]
    /\ (AuthToken.expires_at a <? utcnow)%Z = false
    /\ filter (fun x => User.id x =? AuthToken.user_id a) (users (pending s))
       = [u].
Proof.
  unfold get_refresh_token_user, bind, execute_select, scalar_one_or_none,
    ret, raise, delete_AuthToken, execute_delete_AuthToken, modify, commit.
  intros H.
  destruct refresh_token as [[|c t]|]; try discriminate H.
  destruct (filter (fun x => AuthToken.token x =? String c t)
                   (auth_tokens (pending s))) as [|a [|a' l]] eqn:F;
    try discriminate H.
  destruct (AuthToken.expires_at a <? utcnow)%Z eqn:E.
  - simpl in H. case_match H.
  - destruct (filter (fun x => User.id x =? AuthToken.user_id a)
                     (users (pending s))) as [|u0 [|u1 l]] eqn:Fu;
      try discriminate H.
    inversion H; subst. split; [reflexivity|].
    exists (String c t), a. repeat split; auto. discriminate.
Qed.

Lemma get_refresh_token_user_unknown utcnow t s :
  (forall a, In a (auth_tokens (pending s)) -> AuthToken.token a <> t) ->
  exists detail,
    get_refresh_token_user utcnow (Some t) s
    = (Raise (HTTPException 401 detail), s)
    /\ (t <> "" -> detail = "Invalid refresh token").
Proof.
  intros N. destruct t as [|c t].
  - exists "Refresh token not provided". split; [reflexivity|congruence].
  - exists "Invalid refresh token". split; [|reflexivity].
    unfold get_refresh_token_user, bind, execute_select.
    rewrite (filter_key_none String.eqb string_eqb_spec AuthToken.token _ _ N).
    reflexivity.
Qed.

(** The expired row is deleted, the deletion committed, and only then is
    the request rejected. *)
Lemma get_refresh_token_user_expired utcnow t s a :
  t <> "" ->
  filter (fun x => AuthToken.token x =? t) (auth_tokens (pending s)) = [a] ->
  (AuthToken.expires_at a <? utcnow)%Z = true ->
  constraints_ok (pending s) = true ->
  let remaining := without_auth_token a (pending s) in
  get_refresh_token_user utcnow (Some t) s
  = (Raise (HTTPException 401 "Refresh token expired"),
     mkSession remaining remaining).
Proof.
  intros Ht F E C. destruct t as [|c t]; [congruence|].
  unfold get_refresh_token_user, bind, execute_select.
  rewrite F. simpl. rewrite E.
  unfold delete_AuthToken, execute_delete_AuthToken, modify, commit. simpl.
  rewrite delete_auth_tokens_ok by exact C. reflexivity.
Qed.

(** Whatever [get_refresh_token_user] raises, the session is as it was,
    or one expired row lighter (and that committed, if the constraints
    allow). *)
Lemma get_refresh_token_user_raise utcnow refresh_token s e s' :
  get_refresh_token_user utcnow refresh_token s = (Raise e, s') ->
  s' = s
  \/ exists a,
       In a (auth_tokens (pending s))
       /\ (AuthToken.expires_at a <? utcnow)%Z = true
       /\ let remaining := without_auth_token a (pending s) in
          (e = HTTPException 401 "Refresh token expired"
           /\ s' = mkSession remaining remaining)
          \/ (e = IntegrityError
              /\ s' = mkSession (committed s) (committed s)).
Proof.
  unfold get_refresh_token_user, bind, execute_select, scalar_one_or_none,
    ret, raise, delete_AuthToken, execute_delete_AuthToken, modify, commit.
  intros H.
  destruct refresh_token as [[|c t]|];
    try (inversion H; left; reflexivity).
  destruct (filter (fun x => AuthToken.token x =? String c t)
                   (auth_tokens (pending s))) as [|a [|a' l]] eqn:F;
    try (inversion H; left; reflexivity).
  destruct (AuthToken.expires_at a <? utcnow)%Z eqn:E.
  - right. exists a. destruct (filter_singleton _ _ _ F) as [Hin _].
    split; [exact Hin|]. split; [exact E|]. cbn in H |- *.
    case_match H; inversion H; subst; auto.
  - left.
    destruct (filter (fun x => User.id x =? AuthToken.user_id a)
                     (users (pending s))) as [|u0 [|u1 l]] eqn:Fu;
      inversion H; reflexivity.
Qed.

End Dependencies.

(* ================================================================= *)
(** ** Logout and refresh *)

Section LogoutRefresh.

Context (lib : Library) (environ : Environ).

Lemma logout_user_ok utcnow credentials refresh_token db r db' :
  get_db (logout_user lib environ utcnow credentials refresh_token) db
    = (Ok r, db') ->
  exists current_user refresh_token_user,
    get_current_user lib environ utcnow credentials (mkSession db db)
      = (Ok current_user, mkSession db db)
    /\ get_refresh_token_user utcnow refresh_token (mkSession db db)
      = (Ok refresh_token_user, mkSession db db)
    /\ db' = without_sessions_of (User.id current_user) db
    /\ constraints_ok db' = true.
Proof.
  unfold get_db, logout_user, bind. intros H.
  destruct (get_current_user lib environ utcnow credentials (mkSession db db))
    as [[cu|e] s1] eqn:G1; [|discriminate H].
  pose proof (get_current_user_reads _ _ _ _ _ _ _ G1) as ->.
  destruct (get_refresh_token_user utcnow refresh_token (mkSession db db))
    as [[ru|e] s2] eqn:G2; [|discriminate H].
  destruct (get_refresh_token_user_ok _ _ _ _ _ G2) as [-> _].
  exists cu, ru. split; [reflexivity|]. split; [reflexivity|].
  unfold execute_delete_AuthToken, modify, commit, ret in H. cbn in H.
  fold (without_sessions_of (User.id cu) db) in H.
  destruct (constraints_ok (without_sessions_of (User.id cu) db)) eqn:C;
    cbn in H; [|discriminate H].
  rewrite C in H. cbn in H. inversion H. auto.
Qed.

(** Logout goes through whenever both dependencies do. *)
Lemma logout_user_succeeds utcnow credentials refresh_token db cu ru :
  constraints_ok db = true ->
  get_current_user lib environ utcnow credentials (mkSession db db)
    = (Ok cu, mkSession db db) ->
  get_refresh_token_user utcnow refresh_token (mkSession db db)
    = (Ok ru, mkSession db db) ->
  get_db (logout_user lib environ utcnow credentials refresh_token) db
  = (Ok "Logout successful", without_sessions_of (User.id cu) db).
Proof.
  intros C G1 G2. unfold get_db, logout_user, bind. rewrite G1, G2.
  unfold execute_delete_AuthToken, modify, commit, ret. cbn.
  fold (without_sessions_of (User.id cu) db).
  assert (C' : constraints_ok (without_sessions_of (User.id cu) db) = true)
    by (apply delete_auth_tokens_ok, C).
  rewrite C'. cbn. rewrite C'. reflexivity.
Qed.

Lemma refresh_access_token_ok utcnow refresh_token db r db' :
  get_db (refresh_access_token lib environ utcnow refresh_token) db
    = (Ok r, db') ->
  db' = db
  /\ exists user,
       get_refresh_token_user utcnow refresh_token (mkSession db db)
         = (Ok user, mkSession db db)
       /\ r = mkRefreshTokenResponse
                (create_access_token lib environ utcnow
                   (mkClaims (Some (User.id user)) None) None)
                "Token refreshed successfully".
Proof.
  unfold get_db, refresh_access_token, bind. intros H.
  destruct (get_refresh_token_user utcnow refresh_token (mkSession db db))
    as [[u|e] s2] eqn:G2; [|discriminate H].
  destruct (get_refresh_token_user_ok _ _ _ _ _ G2) as [-> _].
  unfold ret, commit in H. cbn in H.
  destruct (constraints_ok db); inversion H; subst.
  split; [reflexivity|]. exists u. auto.
Qed.

Lemma refresh_access_token_rejects utcnow refresh_token db e s :
  get_refresh_token_user utcnow refresh_token (mkSession db db)
    = (Raise e, s) ->
  get_db (refresh_access_token lib environ utcnow refresh_token) db
  = (Raise e, committed s).
Proof.
  intros G. unfold get_db, refresh_access_token, bind. rewrite G.
  reflexivity.
Qed.

End LogoutRefresh.

(* ================================================================= *)
(** ** Login *)

Section Login.

Context (lib : Library) (environ : Environ).

Lemma model_validate_fields (u : User.t) (v : UserResponse) :
  UserResponse_model_validate u = Ok v ->
  resp_id v = User.id u /\ resp_email v = User.email u
  /\ User.first_name u = Some (resp_first_name v)
  /\ User.last_name u = Some (resp_last_name v).
Proof.
  unfold UserResponse_model_validate.
  destruct (User.first_name u); [destruct (User.last_name u)|];
    intros H; inversion H; auto.
Qed.

Lemma login_user_ok utcnow rnd user_credentials db r db' :
  get_db (login_user lib environ utcnow rnd user_credentials) db
    = (Ok r, db') ->
  exists user,
    filter (fun u => User.email u =? login_email user_credentials) (users db)
      = [user]
    /\ verify_password lib (login_password user_credentials)
                       (User.password user) = Ok true
    /\ db' = with_auth_token
               (refresh_record (uuid4_first rnd) (User.id user)
                               (token_urlsafe rnd) utcnow) db
    /\ constraints_ok db' = true
    /\ exists validated,
         UserResponse_model_validate user = Ok validated
         /\ r = login_response lib environ utcnow rnd validated.
Proof.
  unfold get_db, login_user, bind, execute_select, scalar_one_or_none, lift,
    ret, raise, add_AuthToken, modify, commit.
  cbn. intros H.
  destruct (filter (fun u => User.email u =? login_email user_credentials)
                   (users db)) as [|user [|u1 l]] eqn:F; try discriminate H.
  destruct (verify_password lib (login_password user_credentials)
                            (User.password user)) as [[|]|e] eqn:V;
    cbn in H; try discriminate H.
  fold (with_auth_token
          (refresh_record (uuid4_first rnd) (User.id user)
                          (create_refresh_token rnd) utcnow) db) in H.
  unfold create_refresh_token in H.
  destruct (constraints_ok _) eqn:C in H; cbn in H; [|discriminate H].
  unfold UserResponse_model_validate in H.
  destruct (User.first_name user) as [first_name|] eqn:Hf;
    [destruct (User.last_name user) as [last_name|] eqn:Hl|];
    cbn in H; try discriminate H.
  rewrite ?C in H. inversion H; subst.
  exists user. repeat split; auto.
  unfold UserResponse_model_validate. rewrite Hf, Hl.
  eexists. split; reflexivity.
Qed.

(** Every way a login can fail.  Before the commit nothing is written:
    the email names no user, the password is not verified, passlib raises,
    or the commit is refused.  After the commit the refresh token stays:
    the user's row has a NULL name and the response model refuses it. *)
Lemma login_user_raise utcnow rnd user_credentials db e db' :
  constraints_ok db = true ->
  get_db (login_user lib environ utcnow rnd user_credentials) db
    = (Raise e, db') ->
  (db' = db
   /\ ((e = invalid_credentials
        /\ ((forall u, In u (users db) ->
                       User.email u <> login_email user_credentials)
            \/ exists user,
                 In user (users db)
                 /\ User.email user = login_email user_credentials
                 /\ verify_password lib (login_password user_credentials)
                                    (User.password user) = Ok false))
       \/ (exists user,
             In user (users db)
             /\ User.email user = login_email user_credentials
             /\ (verify_password lib (login_password user_credentials)
                                 (User.password user) = Raise e
                 \/ (verify_password lib (login_password user_credentials)
                                     (User.password user) = Ok true
                     /\ e = IntegrityError)))))
  \/ (e = ValidationError
      /\ exists user,
           In user (users db)
           /\ User.email user = login_email user_credentials
           /\ verify_password lib (login_password user_credentials)
                              (User.password user) = Ok true
           /\ UserResponse_model_validate user = Raise ValidationError
           /\ db' = with_auth_token
                      (refresh_record (uuid4_first rnd) (User.id user)
                                      (token_urlsafe rnd) utcnow) db
           /\ constraints_ok db' = true).
Proof.
  intros C0.
  unfold get_db, login_user, bind, execute_select, scalar_one_or_none, lift,
    ret, raise, add_AuthToken, modify, commit.
  cbn. intros H.
  destruct (email_lookup _ (login_email user_credentials) C0)
    as [[F N] | [user [F [Hin E]]]]; rewrite F in H; cbn in H.
  { inversion H; subst. left. split; [reflexivity|]. left.
    split; [reflexivity|]. left. exact N. }
  destruct (verify_password lib (login_password user_credentials)
                            (User.password user)) as [[|]|e0] eqn:V;
    cbn in H.
  - fold (with_auth_token
            (refresh_record (uuid4_first rnd) (User.id user)
                            (create_refresh_token rnd) utcnow) db) in H.
    unfold create_refresh_token in H.
    destruct (constraints_ok _) eqn:C in H; cbn in H.
    + unfold UserResponse_model_validate in *.
      destruct (User.first_name user) as [first_name|] eqn:Hf;
        [destruct (User.last_name user) as [last_name|] eqn:Hl|];
        cbn in H; try (rewrite C in H; discriminate H);
        inversion H; subst; right; (split; [reflexivity|]);
        exists user; rewrite ?Hf, ?Hl; repeat split; auto.
    + inversion H; subst. left. split; [reflexivity|]. right.
      exists user. repeat split; auto.
  - inversion H; subst. left. split; [reflexivity|]. left.
    split; [reflexivity|]. right. exists user. auto.
  - inversion H; subst. left. split; [reflexivity|]. right.
    exists user. repeat split; auto.
Qed.

(** What a failed login leaves in the database. *)
Lemma login_user_raise_db utcnow rnd user_credentials db e db' :
  get_db (login_user lib environ utcnow rnd user_credentials) db
    = (Raise e, db') ->
  db' = db
  \/ exists user,
       In user (users db)
       /\ User.email user = login_email user_credentials
       /\ (User.first_name user = None \/ User.last_name user = None)
       /\ e = ValidationError
       /\ db' = with_auth_token
                  (refresh_record (uuid4_first rnd) (User.id user)
                                  (token_urlsafe rnd) utcnow) db.
Proof.
  unfold get_db, login_user, bind, execute_select, scalar_one_or_none, lift,
    ret, raise, add_AuthToken, modify, commit.
  cbn. intros H.
  destruct (filter (fun u => User.email u =? login_email user_credentials)
                   (users db)) as [|user [|u1 l]] eqn:F; cbn in H;
    try (inversion H; left; reflexivity).
  destruct (filter_singleton _ _ _ F) as [Hin E]. apply String.eqb_eq in E.
  destruct (verify_password lib (login_password user_credentials)
                            (User.password user)) as [[|]|e0] eqn:V;
    cbn in H; try (inversion H; left; reflexivity).
  fold (with_auth_token
          (refresh_record (uuid4_first rnd) (User.id user)
                          (create_refresh_token rnd) utcnow) db) in H.
  unfold create_refresh_token in H.
  destruct (constraints_ok _) eqn:C in H; cbn in H;
    [|inversion H; left; reflexivity].
  unfold UserResponse_model_validate in H.
  destruct (User.first_name user) as [first_name|] eqn:Hf;
    [destruct (User.last_name user) as [last_name|] eqn:Hl|];
    cbn in H; try (rewrite ?C in H; discriminate H);
    inversion H; subst; right; exists user; repeat split; auto.
Qed.

Lemma login_user_unknown_email utcnow rnd user_credentials db :
  (forall u, In u (users db) -> User.email u <> login_email user_credentials) ->
  get_db (login_user lib environ utcnow rnd user_credentials) db
  = (Raise (HTTPException 401 "Invalid email or password"), db).
Proof.
  intros N. unfold get_db, login_user, bind, execute_select. cbn.
  rewrite (no_user_with_email _ _ N). reflexivity.
Qed.

Lemma login_user_wrong_password utcnow rnd user_credentials db user :
  constraints_ok db = true ->
  In user (users db) ->
  User.email user = login_email user_credentials ->
  verify_password lib (login_password user_credentials) (User.password user)
    = Ok false ->
  get_db (login_user lib environ utcnow rnd user_credentials) db
  = (Raise (HTTPException 401 "Invalid email or password"), db).
Proof.
  intros C Hin E V. unfold get_db, login_user, bind, execute_select, lift.
  cbn. rewrite <- E, (user_by_email _ _ C Hin). cbn.
  rewrite V. reflexivity.
Qed.

Lemma login_user_succeeds utcnow rnd user_credentials db user :
  constraints_ok db = true ->
  In user (users db) ->
  User.email user = login_email user_credentials ->
  verify_password lib (login_password user_credentials) (User.password user)
    = Ok true ->
  (forall a, In a (auth_tokens db) -> AuthToken.id a <> uuid4_first rnd) ->
  (forall a, In a (auth_tokens db) -> AuthToken.token a <> token_urlsafe rnd) ->
  forall validated,
  UserResponse_model_validate user = Ok validated ->
  get_db (login_user lib environ utcnow rnd user_credentials) db
  = (Ok (login_response lib environ utcnow rnd validated),
     with_auth_token
       (refresh_record (uuid4_first rnd) (User.id user) (token_urlsafe rnd)
                       utcnow) db).
Proof.
  intros C Hin E V Fid Ftok validated Hv.
  assert (Hid : resp_id validated = User.id user).
  { unfold UserResponse_model_validate in Hv.
    destruct (User.first_name user); [destruct (User.last_name user)|];
      inversion Hv; reflexivity. }
  unfold get_db, login_user, bind, execute_select, lift, add_AuthToken,
    modify, commit, ret, login_response.
  cbn. rewrite <- E, (user_by_email _ _ C Hin). cbn.
  rewrite V, Hid. cbn. rewrite Hv.
  assert (C' : constraints_ok
                 (with_auth_token
                    (refresh_record (uuid4_first rnd) (User.id user)
                                    (token_urlsafe rnd) utcnow) db) = true).
  { apply add_auth_token_ok; auto. exists user. auto. }
  do 2 commit_with C'. reflexivity.
Qed.

(** The password is right and the row has a NULL name: the refresh token
    is committed and the response model refuses the user. *)
Lemma login_user_null_name utcnow rnd user_credentials db user :
  constraints_ok db = true ->
  In user (users db) ->
  User.email user = login_email user_credentials ->
  verify_password lib (login_password user_credentials) (User.password user)
    = Ok true ->
  (forall a, In a (auth_tokens db) -> AuthToken.id a <> uuid4_first rnd) ->
  (forall a, In a (auth_tokens db) -> AuthToken.token a <> token_urlsafe rnd) ->
  User.first_name user = None \/ User.last_name user = None ->
  get_db (login_user lib environ utcnow rnd user_credentials) db
  = (Raise ValidationError,
     with_auth_token
       (refresh_record (uuid4_first rnd) (User.id user) (token_urlsafe rnd)
                       utcnow) db).
Proof.
  intros C Hin E V Fid Ftok Hnull.
  assert (Hv : UserResponse_model_validate user = Raise ValidationError).
  { unfold UserResponse_model_validate.
    destruct Hnull as [-> | ->]; [reflexivity|].
    destruct (User.first_name user); reflexivity. }
  unfold get_db, login_user, bind, execute_select, lift, add_AuthToken,
    modify, commit, ret.
  cbn. rewrite <- E, (user_by_email _ _ C Hin). cbn.
  rewrite V. cbn. rewrite Hv.
  assert (C' : constraints_ok
                 (with_auth_token
                    (refresh_record (uuid4_first rnd) (User.id user)
                                    (token_urlsafe rnd) utcnow) db) = true).
  { apply add_auth_token_ok; auto. exists user. auto. }
  commit_with C'. reflexivity.
Qed.

End Login.

(* ================================================================= *)
(** ** Forgot-password *)

Lemma seq_ahead_filter (q : PasswordResetToken.t -> bool) (t : Tables) :
  seq_ahead t = true ->
  seq_ahead (set_password_reset_tokens (filter q) t) = true.
Proof. unfold seq_ahead. simpl. apply forallb_filter. Qed.

Lemma filter_none_of {A : Type} (p : A -> bool) (l : list A) :
  filter p (filter (fun x => negb (p x)) l) = [].
Proof.
  induction l as [|a l IH]; simpl; [reflexivity|].
  destruct (p a) eqn:E; simpl; [exact IH|]. rewrite E. exact IH.
Qed.

Lemma filter_comm {A : Type} (p q : A -> bool) (l : list A) :
  filter p (filter q l) = filter q (filter p l).
Proof.
  induction l as [|a l IH]; simpl; [reflexivity|].
  destruct (p a) eqn:P, (q a) eqn:Q; simpl; rewrite ?P, ?Q, IH; reflexivity.
Qed.

Section Forgot.

Context (lib : Library) (environ : Environ).

Lemma forgot_password_ok utcnow rnd email db r db' :
  get_db (forgot_password environ utcnow rnd email) db = (Ok r, db') ->
  (filter (fun u => User.email u =? email) (users db) = []
   /\ db' = db
   /\ r = mkForgotPasswordResponse
            "If this email exists, a password reset link has been sent" None)
  \/ exists user,
       filter (fun u => User.email u =? email) (users db) = [user]
       /\ db' = after_forgot utcnow rnd user db
       /\ constraints_ok db' = true
       /\ r = forgot_response environ rnd.
Proof.
  unfold get_db, forgot_password, bind, execute_select, scalar_one_or_none,
    ret, raise, execute_delete_PasswordResetToken, add_PasswordResetToken,
    modify, commit.
  cbn. intros H.
  destruct (filter (fun u => User.email u =? email) (users db))
    as [|user [|u1 l]] eqn:F; try discriminate H; cbn in H.
  - left. destruct (constraints_ok db); inversion H; subst; auto.
  - right. exists user. split; [reflexivity|].
    destruct (constraints_ok _) eqn:C in H; cbn in H; [|discriminate H].
    rewrite C in H. inversion H; subst. auto.
Qed.

Lemma forgot_password_raise utcnow rnd email db e db' :
  get_db (forgot_password environ utcnow rnd email) db = (Raise e, db') ->
  db' = db.
Proof.
  unfold get_db, forgot_password, bind, execute_select, scalar_one_or_none,
    ret, raise, execute_delete_PasswordResetToken, add_PasswordResetToken,
    modify, commit.
  cbn. intros H.
  repeat case_match H; try congruence; inversion H; reflexivity.
Qed.

Lemma forgot_password_unknown_email utcnow rnd email db :
  constraints_ok db = true ->
  (forall u, In u (users db) -> User.email u <> email) ->
  get_db (forgot_password environ utcnow rnd email) db
  = (Ok (mkForgotPasswordResponse
           "If this email exists, a password reset link has been sent" None),
     db).
Proof.
  intros C N. unfold get_db, forgot_password, bind, execute_select, commit.
  cbn. rewrite (no_user_with_email _ _ N). cbn. rewrite C. reflexivity.
Qed.

Lemma forgot_password_succeeds utcnow rnd db user :
  wf db ->
  In user (users db) ->
  (forall r, In r (password_reset_tokens db) ->
             PasswordResetToken.user_id r <> User.id user ->
             PasswordResetToken.token r <> token_urlsafe rnd) ->
  get_db (forgot_password environ utcnow rnd (User.email user)) db
  = (Ok (forgot_response environ rnd), after_forgot utcnow rnd user db).
Proof.
  intros [C Sq] Hin Fresh.
  unfold get_db, forgot_password, bind, execute_select,
    execute_delete_PasswordResetToken, add_PasswordResetToken, modify,
    commit, ret.
  cbn. rewrite (user_by_email _ _ C Hin). cbn.
  assert (C' : constraints_ok (after_forgot utcnow rnd user db) = true).
  { apply add_reset_token_ok.
    - apply delete_reset_tokens_ok, C.
    - apply seq_ahead_filter, Sq.
    - simpl. intros r Hr. apply filter_In in Hr. destruct Hr as [Hr Hu].
      apply Fresh; [exact Hr|].
      apply negb_true_iff, String.eqb_neq in Hu. exact Hu.
    - exists user. auto. }
  do 2 commit_with C'. reflexivity.
Qed.

(** After forgot-password the user holds the new reset token and no
    other. *)
Lemma after_forgot_single utcnow rnd user db :
  filter (fun r => PasswordResetToken.user_id r =? User.id user)
         (password_reset_tokens (after_forgot utcnow rnd user db))
  = [PasswordResetToken.mk (password_reset_tokens_id_seq db) (User.id user)
       (token_urlsafe rnd) (utcnow + 3600)%Z false].
Proof.
  unfold after_forgot, insert_PasswordResetToken, without_reset_tokens_of.
  simpl. rewrite filter_app, filter_none_of. simpl.
  rewrite String.eqb_refl. unfold timedelta_minutes.
  replace (60 * 60)%Z with 3600%Z by reflexivity. reflexivity.
Qed.

End Forgot.

(* ================================================================= *)
(** ** Register *)

Section Register.

Context (lib : Library) (environ : Environ).

(** Every way a registration can end: nothing written; the user row
    written and the second commit refused; or both rows written. *)
Lemma register_user_cases utcnow rnd user_data db r db' :
  get_db (register_user lib environ utcnow rnd user_data) db = (r, db') ->
  let user := registered_user lib rnd user_data in
  let session :=
    refresh_record (uuid4_second rnd) (uuid4_first rnd) (token_urlsafe rnd)
                   utcnow in
  (db' = db /\ exists e, r = Raise e)
  \/ (db' = with_user user db /\ r = Raise IntegrityError
      /\ constraints_ok (with_user user db) = true
      /\ constraints_ok (with_auth_token session (with_user user db)) = false)
  \/ (db' = with_auth_token session (with_user user db)
      /\ r = Ok (register_response lib environ utcnow rnd user_data)
      /\ constraints_ok db' = true
      /\ filter (fun u => User.email u =? reg_email user_data) (users db) = []).
Proof.
  unfold get_db, register_user, bind, execute_select, scalar_one_or_none,
    ret, raise, add_User, add_AuthToken, refresh, modify, commit.
  cbn. intros H.
  destruct (filter (fun u => User.email u =? reg_email user_data) (users db))
    as [|u0 [|u1 l]] eqn:F; cbn in H;
    try (inversion H; left; split; [reflexivity|eexists; reflexivity]).
  destruct (constraints_ok _) eqn:C1 in H; cbn in H;
    [|inversion H; left; split; [reflexivity|eexists; reflexivity]].
  destruct (constraints_ok _) eqn:C2 in H; cbn in H.
  - right. right. rewrite C2 in H. inversion H; subst. auto.
  - right. left. inversion H; subst. auto.
Qed.

Lemma register_user_duplicate_email utcnow rnd user_data db user :
  constraints_ok db = true ->
  In user (users db) ->
  User.email user = reg_email user_data ->
  get_db (register_user lib environ utcnow rnd user_data) db
  = (Raise (HTTPException 400 "Email address already registered"), db).
Proof.
  intros C Hin E. unfold get_db, register_user, bind, execute_select.
  cbn. rewrite <- E, (user_by_email _ _ C Hin). reflexivity.
Qed.

Lemma register_user_succeeds utcnow rnd user_data db :
  constraints_ok db = true ->
  (forall u, In u (users db) -> User.email u <> reg_email user_data) ->
  (forall u, In u (users db) -> User.id u <> uuid4_first rnd) ->
  (forall a, In a (auth_tokens db) -> AuthToken.id a <> uuid4_second rnd) ->
  (forall a, In a (auth_tokens db) -> AuthToken.token a <> token_urlsafe rnd) ->
  get_db (register_user lib environ utcnow rnd user_data) db
  = (Ok (register_response lib environ utcnow rnd user_data),
     with_auth_token
       (refresh_record (uuid4_second rnd) (uuid4_first rnd) (token_urlsafe rnd)
                       utcnow)
       (with_user (registered_user lib rnd user_data) db)).
Proof.
  intros C Femail Fid Ftid Ftok.
  unfold get_db, register_user, bind, execute_select, add_User,
    add_AuthToken, refresh, modify, commit, ret.
  cbn. rewrite (no_user_with_email _ _ Femail). cbn.
  assert (C1 : constraints_ok
                 (with_user (registered_user lib rnd user_data) db) = true)
    by (apply add_user_ok; assumption).
  assert (C2 : constraints_ok
                 (with_auth_token
                    (refresh_record (uuid4_second rnd) (uuid4_first rnd)
                                    (token_urlsafe rnd) utcnow)
                    (with_user (registered_user lib rnd user_data) db))
               = true).
  { apply add_auth_token_ok; auto.
    exists (registered_user lib rnd user_data). split; [|reflexivity].
    simpl. apply in_or_app. right. left. reflexivity. }
  commit_with C1. do 2 commit_with C2. reflexivity.
Qed.

End Register.

(* ================================================================= *)
(** ** Reset-password and verify-reset-token *)

Section Reset.

Context (lib : Library) (environ : Environ).

Lemma reset_password_ok utcnow rnd reset_data db r db' :
  get_db (reset_password lib utcnow rnd reset_data) db = (Ok r, db') ->
  exists reset_token user,
    filter (unused_with_token (reset_token_ reset_data))
           (password_reset_tokens db) = [reset_token]
    /\ (PasswordResetToken.expires_at reset_token <? utcnow)%Z = false
    /\ filter (fun u => User.id u =? PasswordResetToken.user_id reset_token)
              (users db) = [user]
    /\ db' = after_reset
               (hash_password lib (salt rnd) (reset_password_ reset_data))
               user reset_token db
    /\ constraints_ok db' = true
    /\ r = reset_ok_message.
Proof.
  unfold get_db, reset_password, bind, execute_select, scalar_one_or_none,
    ret, raise, delete_PasswordResetToken, execute_delete_PasswordResetToken,
    update_User, update_PasswordResetToken, execute_delete_AuthToken,
    modify, commit.
  cbn. intros H.
  destruct (filter (unused_with_token (reset_token_ reset_data))
                   (password_reset_tokens db))
    as [|reset_token [|r1 l]] eqn:F; cbn in H; try discriminate H.
  destruct (PasswordResetToken.expires_at reset_token <? utcnow)%Z eqn:E;
    cbn in H.
  { destruct (constraints_ok _) in H; discriminate H. }
  destruct (filter (fun u => User.id u
                             =? PasswordResetToken.user_id reset_token)
                   (users db))
    as [|user [|u1 l]] eqn:Fu; cbn in H; try discriminate H.
  destruct (constraints_ok _) eqn:C in H; cbn in H; [|discriminate H].
  rewrite C in H. inversion H; subst.
  exists reset_token, user. auto 7.
Qed.

(** A reset that is rejected changed nothing, or deleted the expired
    token it was given. *)
Lemma reset_password_raise utcnow rnd reset_data db e db' :
  get_db (reset_password lib utcnow rnd reset_data) db = (Raise e, db') ->
  db' = db
  \/ exists reset_token,
       filter (unused_with_token (reset_token_ reset_data))
              (password_reset_tokens db) = [reset_token]
       /\ (PasswordResetToken.expires_at reset_token <? utcnow)%Z = true
       /\ e = HTTPException 400 "Reset token has expired"
       /\ db' = without_reset_token reset_token db.
Proof.
  unfold get_db, reset_password, bind, execute_select, scalar_one_or_none,
    ret, raise, delete_PasswordResetToken, execute_delete_PasswordResetToken,
    update_User, update_PasswordResetToken, execute_delete_AuthToken,
    modify, commit.
  cbn. intros H.
  destruct (filter (unused_with_token (reset_token_ reset_data))
                   (password_reset_tokens db))
    as [|reset_token [|r1 l]] eqn:F; cbn in H;
    try (inversion H; left; reflexivity).
  destruct (PasswordResetToken.expires_at reset_token <? utcnow)%Z eqn:E;
    cbn in H.
  { destruct (constraints_ok _) in H; cbn in H; inversion H; subst.
    - right. exists reset_token. auto.
    - left. reflexivity. }
  left.
  destruct (filter (fun u => User.id u
                             =? PasswordResetToken.user_id reset_token)
                   (users db))
    as [|user [|u1 l]] eqn:Fu; cbn in H; try (inversion H; reflexivity).
  destruct (constraints_ok _) eqn:C in H; cbn in H.
  - rewrite C in H. discriminate H.
  - inversion H. reflexivity.
Qed.

End Reset.

Section ResetForward.

Context (lib : Library) (environ : Environ).

Lemma after_reset_ok new_hash user reset_token db :
  constraints_ok db = true ->
  constraints_ok (after_reset new_hash user reset_token db) = true.
Proof.
  intros C. unfold after_reset, without_sessions_of.
  apply delete_auth_tokens_ok, update_reset_tokens_ok;
    try (intros x;
         destruct (Nat.eqb (PasswordResetToken.id x)
                           (PasswordResetToken.id reset_token));
         reflexivity).
  apply update_users_ok; try exact C;
    intros x; destruct (User.id x =? User.id user); reflexivity.
Qed.

Lemma reset_password_unknown_token utcnow rnd reset_data db :
  filter (unused_with_token (reset_token_ reset_data))
         (password_reset_tokens db) = [] ->
  get_db (reset_password lib utcnow rnd reset_data) db
  = (Raise (HTTPException 400 "Invalid or expired reset token"), db).
Proof.
  intros F. unfold get_db, reset_password, bind, execute_select. cbn.
  rewrite F. reflexivity.
Qed.

Lemma reset_password_used_token utcnow rnd reset_data db reset_token :
  constraints_ok db = true ->
  In reset_token (password_reset_tokens db) ->
  PasswordResetToken.token reset_token = reset_token_ reset_data ->
  PasswordResetToken.used reset_token = true ->
  get_db (reset_password lib utcnow rnd reset_data) db
  = (Raise (HTTPException 400 "Invalid or expired reset token"), db).
Proof.
  intros C Hin Ht Hu. apply reset_password_unknown_token.
  rewrite <- Ht, (reset_token_by_token _ _ C Hin), Hu. reflexivity.
Qed.

Lemma reset_password_expired_token utcnow rnd reset_data db reset_token :
  constraints_ok db = true ->
  In reset_token (password_reset_tokens db) ->
  PasswordResetToken.token reset_token = reset_token_ reset_data ->
  PasswordResetToken.used reset_token = false ->
  (PasswordResetToken.expires_at reset_token <? utcnow)%Z = true ->
  get_db (reset_password lib utcnow rnd reset_data) db
  = (Raise (HTTPException 400 "Reset token has expired"),
     without_reset_token reset_token db).
Proof.
  intros C Hin Ht Hu E.
  unfold get_db, reset_password, bind, execute_select,
    delete_PasswordResetToken, execute_delete_PasswordResetToken, modify,
    commit, raise.
  cbn. rewrite <- Ht, (reset_token_by_token _ _ C Hin), Hu. cbn.
  rewrite E. cbn.
  assert (C' : constraints_ok (without_reset_token reset_token db) = true)
    by (apply delete_reset_tokens_ok, C).
  commit_with C'. reflexivity.
Qed.

Lemma reset_password_succeeds utcnow rnd reset_data db reset_token :
  constraints_ok db = true ->
  In reset_token (password_reset_tokens db) ->
  PasswordResetToken.token reset_token = reset_token_ reset_data ->
  PasswordResetToken.used reset_token = false ->
  (PasswordResetToken.expires_at reset_token <? utcnow)%Z = false ->
  exists user,
    In user (users db)
    /\ User.id user = PasswordResetToken.user_id reset_token
    /\ get_db (reset_password lib utcnow rnd reset_data) db
       = (Ok reset_ok_message,
          after_reset
            (hash_password lib (salt rnd) (reset_password_ reset_data))
            user reset_token db).
Proof.
  intros C Hin Ht Hu E.
  destruct (reset_token_owner _ _ C Hin) as [user [Huser Hid]].
  exists user. split; [exact Huser|]. split; [exact Hid|].
  unfold get_db, reset_password, bind, execute_select, update_User,
    update_PasswordResetToken, execute_delete_AuthToken, modify, commit, ret.
  cbn. rewrite <- Ht, (reset_token_by_token _ _ C Hin), Hu. cbn.
  rewrite E. cbn.
  rewrite <- Hid, (user_by_id _ _ C Huser). cbn.
  pose proof (after_reset_ok
                (hash_password lib (salt rnd) (reset_password_ reset_data))
                user reset_token db C) as C'.
  do 2 commit_with C'. reflexivity.
Qed.

(** The rows after a successful reset. *)
Lemma after_reset_password new_hash user reset_token db u :
  In u (users (after_reset new_hash user reset_token db)) ->
  User.id u = User.id user ->
  User.password u = new_hash.
Proof.
  unfold after_reset. simpl. intros Hin Hid.
  apply in_map_iff in Hin. destruct Hin as [x [Hx _]].
  destruct (User.id x =? User.id user) eqn:E; subst u.
  - reflexivity.
  - simpl in Hid. apply String.eqb_neq in E. contradiction.
Qed.

Lemma after_reset_user_kept new_hash user reset_token db :
  In user (users db) ->
  In (User.set_password user new_hash)
     (users (after_reset new_hash user reset_token db)).
Proof.
  unfold after_reset. simpl. intros Hin.
  apply in_map_iff. exists user. rewrite String.eqb_refl. auto.
Qed.

Lemma after_reset_token_used new_hash user reset_token db :
  In reset_token (password_reset_tokens db) ->
  In (PasswordResetToken.set_used reset_token true)
     (password_reset_tokens (after_reset new_hash user reset_token db)).
Proof.
  unfold after_reset. simpl. intros Hin.
  apply in_map_iff. exists reset_token. rewrite Nat.eqb_refl. auto.
Qed.

Lemma after_reset_no_sessions new_hash user reset_token db a :
  In a (auth_tokens (after_reset new_hash user reset_token db)) ->
  In a (auth_tokens db) /\ AuthToken.user_id a <> User.id user.
Proof.
  unfold after_reset. simpl. intros Hin.
  apply filter_In in Hin. destruct Hin as [Hin E].
  apply negb_true_iff, String.eqb_neq in E. auto.
Qed.

(** [verify_reset_token] only reads. *)
Lemma verify_reset_token_reads utcnow token db r db' :
  get_db (verify_reset_token utcnow token) db = (r, db') -> db' = db.
Proof.
  unfold get_db, verify_reset_token, bind, execute_select,
    scalar_one_or_none, ret, raise, commit.
  cbn. intros H.
  repeat case_match H; try congruence; inversion H; reflexivity.
Qed.

Lemma verify_reset_token_expired utcnow db reset_token :
  constraints_ok db = true ->
  In reset_token (password_reset_tokens db) ->
  PasswordResetToken.used reset_token = false ->
  (PasswordResetToken.expires_at reset_token <? utcnow)%Z = true ->
  get_db (verify_reset_token utcnow (PasswordResetToken.token reset_token)) db
  = (Ok (mkTokenVerificationResponse false "Token is invalid or expired"), db).
Proof.
  intros C Hin Hu E.
  unfold get_db, verify_reset_token, bind, execute_select, commit, ret.
  cbn. rewrite (reset_token_by_token _ _ C Hin), Hu. cbn.
  rewrite E. cbn. rewrite C. reflexivity.
Qed.

Lemma verify_reset_token_valid utcnow db reset_token :
  constraints_ok db = true ->
  In reset_token (password_reset_tokens db) ->
  PasswordResetToken.used reset_token = false ->
  (PasswordResetToken.expires_at reset_token <? utcnow)%Z = false ->
  get_db (verify_reset_token utcnow (PasswordResetToken.token reset_token)) db
  = (Ok (mkTokenVerificationResponse true "Token is valid"), db).
Proof.
  intros C Hin Hu E.
  unfold get_db, verify_reset_token, bind, execute_select, commit, ret.
  cbn. rewrite (reset_token_by_token _ _ C Hin), Hu. cbn.
  rewrite E. cbn. rewrite C. reflexivity.
Qed.

End ResetForward.

(* ================================================================= *)
(** ** Every request keeps the schema constraints *)

Lemma preserves_ret {A : Type} (a : A) : preserves (ret a).
Proof. intros s r s' I H. inversion H; subst. exact I. Qed.

Lemma preserves_raise {A : Type} (e : Exception) : preserves (@raise A e).
Proof. intros s r s' I H. inversion H; subst. exact I. Qed.

Lemma preserves_lift {A : Type} (x : Result A) : preserves (lift x).
Proof. intros s r s' I H. inversion H; subst. exact I. Qed.

Lemma preserves_bind {A B : Type} (m : M A) (k : A -> M B) :
  preserves m -> (forall a, preserves (k a)) -> preserves (bind m k).
Proof.
  intros Hm Hk s r s' I H. unfold bind in H.
  destruct (m s) as [[a|e] s1] eqn:E.
  - apply (Hk a s1 r s'); [apply (Hm s (Ok a) s1 I E) | exact H].
  - inversion H; subst. apply (Hm s (Raise e) s' I E).
Qed.

Lemma preserves_execute_select {R : Type} (table : Tables -> list R) where_ :
  preserves (execute_select table where_).
Proof. intros s r s' I H. inversion H; subst. exact I. Qed.

Lemma preserves_scalar_one_or_none {R : Type} (rows : list R) :
  preserves (scalar_one_or_none rows).
Proof.
  destruct rows as [|x [|y l]]; simpl;
    auto using preserves_ret, preserves_raise.
Qed.

Lemma preserves_modify (f : Tables -> Tables) :
  (forall t, seq_ahead t = true -> seq_ahead (f t) = true) ->
  preserves (modify f).
Proof.
  intros Hf s r s' [W Sq] H. inversion H; subst.
  split; [exact W | apply Hf, Sq].
Qed.

Lemma preserves_commit : preserves commit.
Proof.
  intros s r s' [W Sq] H. unfold commit in H.
  destruct (constraints_ok (pending s)) eqn:C; inversion H; subst.
  - split; [split|]; assumption.
  - split; [exact W | apply W].
Qed.

Lemma seq_ahead_set_users f t :
  seq_ahead t = true -> seq_ahead (set_users f t) = true.
Proof. intros H. exact H. Qed.

Lemma seq_ahead_set_auth_tokens f t :
  seq_ahead t = true -> seq_ahead (set_auth_tokens f t) = true.
Proof. intros H. exact H. Qed.

Lemma seq_ahead_update f :
  (forall x, PasswordResetToken.id (f x) = PasswordResetToken.id x) ->
  forall t,
    seq_ahead t = true ->
    seq_ahead (set_password_reset_tokens (map f) t) = true.
Proof.
  unfold seq_ahead. simpl. intros Hid t H.
  rewrite forallb_forall in *. intros x Hx.
  apply in_map_iff in Hx. destruct Hx as [y [<- Hy]].
  rewrite Hid. apply H, Hy.
Qed.

Lemma seq_ahead_insert uid tok e t :
  seq_ahead t = true ->
  seq_ahead (insert_PasswordResetToken uid tok e t) = true.
Proof.
  unfold seq_ahead. simpl. intros H.
  rewrite forallb_snoc. simpl.
  rewrite (proj2 (Nat.ltb_lt _ _) (Nat.lt_succ_diag_r _)), andb_true_r.
  rewrite forallb_forall in *. intros x Hx.
  specialize (H x Hx). apply Nat.ltb_lt in H. apply Nat.ltb_lt. lia.
Qed.

(** One step of the proof that a flow preserves the invariant. *)
Ltac preserve_step :=
  first
    [ apply preserves_ret
    | apply preserves_raise
    | apply preserves_lift
    | apply preserves_execute_select
    | apply preserves_scalar_one_or_none
    | apply preserves_commit
    | apply preserves_modify;
        first [ apply seq_ahead_set_users
              | apply seq_ahead_set_auth_tokens
              | apply seq_ahead_filter
              | apply seq_ahead_insert
              | apply seq_ahead_update; intros x; cbv beta;
                  match goal with
                  | |- context [if ?b then _ else _] => destruct b
                  end; reflexivity ]
    | apply preserves_bind; [|intros ?]
    | match goal with
      | |- preserves (match ?x with _ => _ end) => destruct x
      end ].

Section Invariant.

Context (lib : Library) (environ : Environ).

Lemma preserves_get_current_user utcnow credentials :
  preserves (get_current_user lib environ utcnow credentials).
Proof. unfold get_current_user. repeat preserve_step. Qed.

Lemma preserves_get_refresh_token_user utcnow refresh_token :
  preserves (get_refresh_token_user utcnow refresh_token).
Proof.
  unfold get_refresh_token_user, delete_AuthToken, execute_delete_AuthToken.
  repeat preserve_step.
Qed.

Lemma preserves_register_user utcnow rnd user_data :
  preserves (register_user lib environ utcnow rnd user_data).
Proof.
  unfold register_user, add_User, add_AuthToken, refresh.
  repeat preserve_step.
Qed.

Lemma preserves_login_user utcnow rnd user_credentials :
  preserves (login_user lib environ utcnow rnd user_credentials).
Proof. unfold login_user, add_AuthToken. repeat preserve_step. Qed.

Lemma preserves_logout_user utcnow credentials refresh_token :
  preserves (logout_user lib environ utcnow credentials refresh_token).
Proof.
  unfold logout_user, execute_delete_AuthToken.
  repeat first [ apply preserves_get_current_user
               | apply preserves_get_refresh_token_user
               | preserve_step ].
Qed.

Lemma preserves_refresh_access_token utcnow refresh_token :
  preserves (refresh_access_token lib environ utcnow refresh_token).
Proof.
  unfold refresh_access_token.
  repeat first [ apply preserves_get_refresh_token_user | preserve_step ].
Qed.

Lemma preserves_forgot_password utcnow rnd email :
  preserves (forgot_password environ utcnow rnd email).
Proof.
  unfold forgot_password, execute_delete_PasswordResetToken,
    add_PasswordResetToken.
  repeat preserve_step.
Qed.

Lemma preserves_reset_password utcnow rnd reset_data :
  preserves (reset_password lib utcnow rnd reset_data).
Proof.
  unfold reset_password, delete_PasswordResetToken,
    execute_delete_PasswordResetToken, update_User,
    update_PasswordResetToken, execute_delete_AuthToken.
  repeat preserve_step.
Qed.

Lemma preserves_verify_reset_token utcnow token :
  preserves (verify_reset_token utcnow token).
Proof. unfold verify_reset_token. repeat preserve_step. Qed.

End Invariant.

(** A request served through [get_db] takes a database that satisfies
    the schema to one that does, whatever the endpoint answers. *)
Theorem get_db_keeps_wf {A : Type} (endpoint : M A) (db : Tables)
    (r : Result A) (db' : Tables) :
  preserves endpoint -> wf db -> get_db endpoint db = (r, db') -> wf db'.
Proof.
  intros P W H. unfold get_db in H.
  assert (I0 : session_inv (mkSession db db)) by (split; [exact W|apply W]).
  destruct (endpoint (mkSession db db)) as [[a|e] s] eqn:E.
  - pose proof (P _ _ _ I0 E) as I.
    destruct (commit s) as [[u|e] s1] eqn:Ec.
    + inversion H; subst. apply (preserves_commit _ _ _ I Ec).
    + inversion H; subst. apply (preserves_commit _ _ _ I Ec).
  - inversion H; subst. apply (P _ _ _ I0 E).
Qed.

(* ================================================================= *)
(** ** Passwords *)

(** C5, as the code has it.  [verify_password] hands the two strings to
    passlib and returns what comes back, exceptions included: a hash string
    that carries no bcrypt identifier raises [UnknownHashError]; one that
    carries an identifier gets the answer of the bcrypt handler, a boolean
    or an exception of its own.  [login_user], its one caller, has no
    handler either: the exception reaches the client of the login. *)
Theorem C5_verify_password_propagates (lib : Library) (plain hashed : string) :
  (bcrypt_identify hashed = false ->
   verify_password lib plain hashed = Raise UnknownHashError)
  /\ (bcrypt_identify hashed = true ->
      verify_password lib plain hashed = bcrypt_verify lib plain hashed)
  /\ (forall environ utcnow rnd db user,
        constraints_ok db = true ->
        In user (users db) ->
        User.password user = hashed ->
        bcrypt_identify hashed = false ->
        get_db (login_user lib environ utcnow rnd
                  (mkUserLogin (User.email user) plain)) db
        = (Raise UnknownHashError, db)).
Proof.
  assert (U : bcrypt_identify hashed = false ->
              verify_password lib plain hashed = Raise UnknownHashError).
  { unfold verify_password, pwd_context_verify. intros ->. reflexivity. }
  split; [exact U|]. split.
  - unfold verify_password, pwd_context_verify. intros ->. reflexivity.
  - intros environ utcnow rnd db user C Hin Hp Hid.
    unfold get_db, login_user, bind, execute_select, lift.
    cbn. rewrite (user_by_email _ _ C Hin). cbn.
    rewrite Hp, (U Hid). reflexivity.
Qed.

Lemma C5_verify_password_propagates_witness :
  verify_password Sample.lib "carol-secret" "plain" = Raise UnknownHashError
  /\ verify_password Sample.lib "alice-secret" "$2b$12$alice-secret" = Ok true
  /\ get_db (login_user Sample.lib Sample.production 100%Z Sample.rnd
               (mkUserLogin "carol@example.com" "carol-secret")) Sample.db
     = (Raise UnknownHashError, Sample.db).
Proof.
  split; [|split].
  - apply (proj1 (C5_verify_password_propagates Sample.lib "carol-secret"
                    "plain")). reflexivity.
  - rewrite (proj1 (proj2 (C5_verify_password_propagates Sample.lib
                             "alice-secret" "$2b$12$alice-secret")));
      reflexivity.
  - apply (proj2 (proj2 (C5_verify_password_propagates Sample.lib
                           "carol-secret" "plain"))
             Sample.production 100%Z Sample.rnd Sample.db Sample.carol).
    + reflexivity.
    + right. right. left. reflexivity.
    + reflexivity.
    + reflexivity.
Defined.

(** C5 as stated fails: a stored string that is not a bcrypt hash makes
    [verify_password] raise, not return false. *)
Lemma C5_verify_password_raises :
  verify_password Sample.lib "carol-secret" "plain" = Raise UnknownHashError
  /\ ~ (forall plain hashed,
          exists b, verify_password Sample.lib plain hashed = Ok b).
Proof.
  split; [reflexivity|].
  intros H. destruct (H "carol-secret" "plain") as [b Hb]. discriminate Hb.
Qed.

(* ================================================================= *)
(** ** Access tokens *)

(** C6.  [get_current_user] returns a user only when the token decodes
    (signature and expiry pass), its subject is that user's id, and the
    user is in the store; a decoded subject that names no user in the store
    is rejected with 401. *)
Theorem C6_access_token_needs_existing_user
    (lib : Library) (environ : Environ) (utcnow : Z) (credentials : string)
    (s : Session) :
  (forall u s',
     get_current_user lib environ utcnow credentials s = (Ok u, s') ->
     exists payload,
       jwt_decode lib credentials (SECRET_KEY environ) ALGORITHM utcnow
         = Ok payload
       /\ sub payload = Some (User.id u)
       /\ In u (users (pending s)))
  /\ (forall payload uid,
        jwt_decode lib credentials (SECRET_KEY environ) ALGORITHM utcnow
          = Ok payload ->
        sub payload = Some uid ->
        (forall u, In u (users (pending s)) -> User.id u <> uid) ->
        get_current_user lib environ utcnow credentials s
        = (Raise (HTTPException 401 "Could not validate credentials"), s))
  /\ (jwt_decode lib credentials (SECRET_KEY environ) ALGORITHM utcnow
        = Raise JWTError ->
      get_current_user lib environ utcnow credentials s
      = (Raise (HTTPException 401 "Could not validate credentials"), s)).
Proof.
  split; [|split].
  - intros u s' H.
    destruct (get_current_user_ok _ _ _ _ _ _ _ H) as [payload [D [S F]]].
    exists payload. split; [exact D|]. split; [exact S|].
    apply (filter_singleton _ _ _ F).
  - apply get_current_user_no_user.
  - intros D. unfold get_current_user, bind, lift, verify_token.
    rewrite D. reflexivity.
Qed.

Lemma C6_access_token_needs_existing_user_witness :
  (exists payload,
     jwt_decode Sample.lib "jwt:u1" "k" "HS256" 100%Z = Ok payload
     /\ sub payload = Some "u1"
     /\ In Sample.alice (users Sample.db))
  /\ get_current_user Sample.lib Sample.production 100%Z "jwt:u9"
       (mkSession Sample.db Sample.db)
     = (Raise (HTTPException 401 "Could not validate credentials"),
        mkSession Sample.db Sample.db)
  /\ get_current_user Sample.lib Sample.production 100%Z "garbage"
       (mkSession Sample.db Sample.db)
     = (Raise (HTTPException 401 "Could not validate credentials"),
        mkSession Sample.db Sample.db).
Proof.
  split; [|split].
  - apply (proj1 (C6_access_token_needs_existing_user Sample.lib
                    Sample.production 100%Z "jwt:u1"
                    (mkSession Sample.db Sample.db))
             Sample.alice (mkSession Sample.db Sample.db)).
    reflexivity.
  - apply (proj1 (proj2 (C6_access_token_needs_existing_user Sample.lib
                           Sample.production 100%Z "jwt:u9"
                           (mkSession Sample.db Sample.db)))
             (mkClaims (Some "u9") None) "u9"); [reflexivity|reflexivity|].
    simpl. intros u [<-|[<-|[<-|[]]]]; discriminate.
  - apply (proj2 (proj2 (C6_access_token_needs_existing_user Sample.lib
                           Sample.production 100%Z "garbage"
                           (mkSession Sample.db Sample.db)))).
    reflexivity.
Defined.

(* ================================================================= *)
(** ** Login *)

(** C7, as the code has it.  A login with an unknown email and a login
    with a known email and a password that the stored hash does not verify
    get the same rejection, status 401 and detail "Invalid email or
    password", and neither writes.  These are not all the failing logins:
    every other failure belongs to a known email, and is what
    [verify_password] raised, the refusal of the commit, or, after the
    commit, the response model refusing a user with a NULL name. *)
Theorem C7_login_failure_is_uniform
    (lib : Library) (environ : Environ) (utcnow : Z) (rnd : Entropy)
    (user_credentials : UserLogin) (db : Tables) :
  constraints_ok db = true ->
  ((forall u, In u (users db) ->
              User.email u <> login_email user_credentials) ->
   get_db (login_user lib environ utcnow rnd user_credentials) db
   = (Raise (HTTPException 401 "Invalid email or password"), db))
  /\ (forall user,
        In user (users db) ->
        User.email user = login_email user_credentials ->
        verify_password lib (login_password user_credentials)
                        (User.password user) = Ok false ->
        get_db (login_user lib environ utcnow rnd user_credentials) db
        = (Raise (HTTPException 401 "Invalid email or password"), db))
  /\ (forall e db',
        get_db (login_user lib environ utcnow rnd user_credentials) db
          = (Raise e, db') ->
        (e = HTTPException 401 "Invalid email or password" /\ db' = db
         /\ ((forall u, In u (users db) ->
                        User.email u <> login_email user_credentials)
             \/ exists user,
                  In user (users db)
                  /\ User.email user = login_email user_credentials
                  /\ verify_password lib (login_password user_credentials)
                                     (User.password user) = Ok false))
        \/ exists user,
             In user (users db)
             /\ User.email user = login_email user_credentials
             /\ ((verify_password lib (login_password user_credentials)
                                  (User.password user) = Raise e
                  /\ db' = db)
                 \/ (verify_password lib (login_password user_credentials)
                                     (User.password user) = Ok true
                     /\ e = IntegrityError /\ db' = db)
                 \/ (verify_password lib (login_password user_credentials)
                                     (User.password user) = Ok true
                     /\ e = ValidationError
                     /\ (User.first_name user = None
                         \/ User.last_name user = None)
                     /\ db' = with_auth_token
                                (refresh_record (uuid4_first rnd)
                                   (User.id user) (token_urlsafe rnd) utcnow)
                                db))).
Proof.
  intros C. split; [|split].
  - apply login_user_unknown_email.
  - intros user. apply login_user_wrong_password. exact C.
  - intros e db' H.
    destruct (login_user_raise lib environ _ _ _ _ _ _ C H)
      as [[-> [[-> Hc] | [user [Hin [E [V | [V ->]]]]]]]
         | [-> [user [Hin [E [V [Hm [-> _]]]]]]]].
    + left. auto.
    + right. exists user. auto.
    + right. exists user. split; [exact Hin|]. split; [exact E|].
      right. left. auto.
    + right. exists user. split; [exact Hin|]. split; [exact E|].
      right. right. split; [exact V|]. split; [reflexivity|].
      split; [|reflexivity].
      unfold UserResponse_model_validate in Hm.
      destruct (User.first_name user); [|left; reflexivity].
      destruct (User.last_name user); [discriminate Hm|right; reflexivity].
Qed.

Lemma C7_login_failure_is_uniform_witness :
  get_db (login_user Sample.lib Sample.production 100%Z Sample.rnd
            (mkUserLogin "nobody@example.com" "alice-secret")) Sample.db
  = (Raise (HTTPException 401 "Invalid email or password"), Sample.db)
  /\ get_db (login_user Sample.lib Sample.production 100%Z Sample.rnd
               (mkUserLogin "alice@example.com" "wrong")) Sample.db
     = (Raise (HTTPException 401 "Invalid email or password"), Sample.db).
Proof.
  split.
  - apply (proj1 (C7_login_failure_is_uniform Sample.lib Sample.production
                    100%Z Sample.rnd
                    (mkUserLogin "nobody@example.com" "alice-secret")
                    Sample.db eq_refl)).
    simpl. intros u [<-|[<-|[<-|[]]]]; discriminate.
  - apply (proj1 (proj2 (C7_login_failure_is_uniform Sample.lib
                           Sample.production 100%Z Sample.rnd
                           (mkUserLogin "alice@example.com" "wrong")
                           Sample.db eq_refl)) Sample.alice).
    + left. reflexivity.
    + reflexivity.
    + reflexivity.
Defined.

(** C7 as stated fails: two logins fail, one for an email nobody has and
    one for the email of a user whose stored password is not a bcrypt
    hash, with a password that is not hers; the caller sees 401 for the
    first and the exception of passlib for the second. *)
Lemma C7_unidentified_hash_tells_known_email :
  let unknown :=
    get_db (login_user Sample.lib Sample.production 100%Z Sample.rnd
              (mkUserLogin "nobody@example.com" "guess")) Sample.db in
  let known :=
    get_db (login_user Sample.lib Sample.production 100%Z Sample.rnd
              (mkUserLogin "carol@example.com" "guess")) Sample.db in
  fst unknown = Raise (HTTPException 401 "Invalid email or password")
  /\ fst known = Raise UnknownHashError
  /\ fst known <> fst unknown
  /\ snd known = Sample.db /\ snd unknown = Sample.db.
Proof.
  cbv zeta. split; [reflexivity|]. split; [reflexivity|].
  split; [|split; reflexivity]. intros H. discriminate H.
Qed.

(** C9.  A successful login appends one refresh-token row, for the user
    who logged in, and changes no other row of any table; a successful
    refresh answers with a new access token and writes nothing. *)
Theorem C9_login_adds_one_refresh_keeps_all
    (lib : Library) (environ : Environ) (utcnow : Z) (rnd : Entropy)
    (db : Tables) :
  (forall user_credentials r db',
     get_db (login_user lib environ utcnow rnd user_credentials) db
       = (Ok r, db') ->
     exists user,
       In user (users db)
       /\ User.email user = login_email user_credentials
       /\ auth_tokens db'
          = auth_tokens db ++
              [AuthToken.mk (uuid4_first rnd) (User.id user)
                            (token_urlsafe rnd) "refresh"
                            (utcnow + 30 * 24 * 60 * 60)%Z]
       /\ users db' = users db
       /\ password_reset_tokens db' = password_reset_tokens db)
  /\ (forall refresh_token r db',
        get_db (refresh_access_token lib environ utcnow refresh_token) db
          = (Ok r, db') ->
        db' = db
        /\ exists user,
             In user (users db)
             /\ refresh_access_token_ r
                = create_access_token lib environ utcnow
                    (mkClaims (Some (User.id user)) None) None).
Proof.
  split.
  - intros user_credentials r db' H.
    destruct (login_user_ok _ _ _ _ _ _ _ _ H) as [user [F [_ [-> _]]]].
    destruct (filter_singleton _ _ _ F) as [Hin E].
    apply String.eqb_eq in E.
    exists user. repeat split; auto.
  - intros refresh_token r db' H.
    destruct (refresh_access_token_ok _ _ _ _ _ _ _ H) as [-> [user [G ->]]].
    split; [reflexivity|]. exists user. split; [|reflexivity].
    destruct (get_refresh_token_user_ok _ _ _ _ _ G)
      as [_ [t [a [_ [_ [_ [_ Fu]]]]]]].
    apply (filter_singleton _ _ _ Fu).
Qed.

Lemma C9_login_adds_one_refresh_keeps_all_witness :
  (exists user,
     In user (users Sample.db)
     /\ User.email user = "alice@example.com"
     /\ auth_tokens
          (snd (get_db (login_user Sample.lib Sample.production 100%Z Sample.rnd
                          (mkUserLogin "alice@example.com" "alice-secret"))
                       Sample.db))
        = auth_tokens Sample.db ++
            [AuthToken.mk "u4" (User.id user) "R4" "refresh" 2592100%Z]
     /\ users
          (snd (get_db (login_user Sample.lib Sample.production 100%Z Sample.rnd
                          (mkUserLogin "alice@example.com" "alice-secret"))
                       Sample.db))
        = users Sample.db
     /\ password_reset_tokens
          (snd (get_db (login_user Sample.lib Sample.production 100%Z Sample.rnd
                          (mkUserLogin "alice@example.com" "alice-secret"))
                       Sample.db))
        = password_reset_tokens Sample.db)
  /\ snd (get_db (refresh_access_token Sample.lib Sample.production 100%Z
                    (Some "R1")) Sample.db)
     = Sample.db.
Proof.
  split.
  - apply (proj1 (C9_login_adds_one_refresh_keeps_all Sample.lib
                    Sample.production 100%Z Sample.rnd Sample.db)
             (mkUserLogin "alice@example.com" "alice-secret")
             (fst (login_response Sample.lib Sample.production 100%Z Sample.rnd
                                  Sample.alice_response),
              snd (login_response Sample.lib Sample.production 100%Z Sample.rnd
                                  Sample.alice_response))).
    reflexivity.
  - apply (proj2 (C9_login_adds_one_refresh_keeps_all Sample.lib
                    Sample.production 100%Z Sample.rnd Sample.db)
             (Some "R1")
             (mkRefreshTokenResponse "jwt:u1" "Token refreshed successfully")).
    reflexivity.
Defined.

(* ================================================================= *)
(** ** Logout *)

Lemma get_refresh_token_user_no_row utcnow t s :
  t <> "" ->
  filter (fun x => AuthToken.token x =? t) (auth_tokens (pending s)) = [] ->
  get_refresh_token_user utcnow (Some t) s
  = (Raise (HTTPException 401 "Invalid refresh token"), s).
Proof.
  intros Ht F. destruct t as [|c t]; [congruence|].
  unfold get_refresh_token_user, bind, execute_select. rewrite F.
  reflexivity.
Qed.

(** C2.  A logout that succeeds had both dependencies succeed: the access
    token resolved to a user and the refresh cookie to a user.  Afterwards
    no refresh-token row of the access token's user is left, and every
    refresh token that resolved to that user before is rejected by the
    refresh flow, at any later time. *)
Theorem C2_logout_is_global
    (lib : Library) (environ : Environ) (utcnow : Z) (credentials : string)
    (refresh_token : option string) (db : Tables) (r : string) (db' : Tables) :
  get_db (logout_user lib environ utcnow credentials refresh_token) db
    = (Ok r, db') ->
  exists current_user refresh_token_user,
    get_current_user lib environ utcnow credentials (mkSession db db)
      = (Ok current_user, mkSession db db)
    /\ get_refresh_token_user utcnow refresh_token (mkSession db db)
       = (Ok refresh_token_user, mkSession db db)
    /\ (forall a, In a (auth_tokens db') ->
                  AuthToken.user_id a <> User.id current_user)
    /\ (forall earlier t u s,
          get_refresh_token_user earlier (Some t) (mkSession db db)
            = (Ok u, s) ->
          User.id u = User.id current_user ->
          forall later,
            get_db (refresh_access_token lib environ later (Some t)) db'
            = (Raise (HTTPException 401 "Invalid refresh token"), db')).
Proof.
  intros H.
  destruct (logout_user_ok _ _ _ _ _ _ _ _ H) as [cu [ru [G1 [G2 [-> C]]]]].
  exists cu, ru. split; [exact G1|]. split; [exact G2|]. split.
  - intros a Ha. unfold without_sessions_of in Ha. simpl in Ha.
    apply filter_In in Ha. destruct Ha as [_ E].
    apply negb_true_iff, String.eqb_neq in E. exact E.
  - intros earlier t u s G Hid later.
    destruct (get_refresh_token_user_ok _ _ _ _ _ G)
      as [_ [t' [a [Et [Ht [F [_ Fu]]]]]]].
    inversion Et; subst t'. simpl in F, Fu.
    destruct (filter_singleton _ _ _ Fu) as [_ Eu].
    apply String.eqb_eq in Eu.
    rewrite (refresh_access_token_rejects lib environ later (Some t) _
               (HTTPException 401 "Invalid refresh token")
               (mkSession (without_sessions_of (User.id cu) db)
                          (without_sessions_of (User.id cu) db)));
      [reflexivity|].
    apply get_refresh_token_user_no_row; [exact Ht|].
    unfold without_sessions_of. simpl.
    rewrite filter_comm, F. simpl.
    rewrite <- Eu, Hid, String.eqb_refl. reflexivity.
Qed.

Lemma C2_logout_is_global_witness :
  exists current_user refresh_token_user,
    get_current_user Sample.lib Sample.production 100%Z "jwt:u1"
      (mkSession Sample.db Sample.db)
      = (Ok current_user, mkSession Sample.db Sample.db)
    /\ get_refresh_token_user 100%Z (Some "R1") (mkSession Sample.db Sample.db)
       = (Ok refresh_token_user, mkSession Sample.db Sample.db)
    /\ (forall a, In a (auth_tokens (without_sessions_of "u1" Sample.db)) ->
                  AuthToken.user_id a <> User.id current_user)
    /\ (forall earlier t u s,
          get_refresh_token_user earlier (Some t)
            (mkSession Sample.db Sample.db) = (Ok u, s) ->
          User.id u = User.id current_user ->
          forall later,
            get_db (refresh_access_token Sample.lib Sample.production later
                      (Some t)) (without_sessions_of "u1" Sample.db)
            = (Raise (HTTPException 401 "Invalid refresh token"),
               without_sessions_of "u1" Sample.db)).
Proof.
  apply (C2_logout_is_global Sample.lib Sample.production 100%Z "jwt:u1"
           (Some "R1") Sample.db "Logout successful").
  reflexivity.
Defined.

(** C10.  Logout deletes the refresh-token rows of the access token's
    user and no other row.  When the cookie resolves to another user, that
    user's rows, the presented one among them, are all still there. *)
Theorem C10_logout_deletes_by_access_token_user
    (lib : Library) (environ : Environ) (utcnow : Z) (credentials : string)
    (refresh_token : option string) (db : Tables) (r : string) (db' : Tables) :
  get_db (logout_user lib environ utcnow credentials refresh_token) db
    = (Ok r, db') ->
  exists current_user refresh_token_user,
    get_current_user lib environ utcnow credentials (mkSession db db)
      = (Ok current_user, mkSession db db)
    /\ get_refresh_token_user utcnow refresh_token (mkSession db db)
       = (Ok refresh_token_user, mkSession db db)
    /\ (forall a, In a (auth_tokens db') <->
                  In a (auth_tokens db)
                  /\ AuthToken.user_id a <> User.id current_user)
    /\ users db' = users db
    /\ password_reset_tokens db' = password_reset_tokens db
    /\ (User.id refresh_token_user <> User.id current_user ->
        (forall a, In a (auth_tokens db) ->
                   AuthToken.user_id a = User.id refresh_token_user ->
                   In a (auth_tokens db'))
        /\ exists presented,
             refresh_token = Some (AuthToken.token presented)
             /\ AuthToken.user_id presented = User.id refresh_token_user
             /\ In presented (auth_tokens db')).
Proof.
  intros H.
  destruct (logout_user_ok _ _ _ _ _ _ _ _ H) as [cu [ru [G1 [G2 [-> C]]]]].
  exists cu, ru. split; [exact G1|]. split; [exact G2|].
  assert (Hiff : forall a,
            In a (auth_tokens (without_sessions_of (User.id cu) db)) <->
            In a (auth_tokens db) /\ AuthToken.user_id a <> User.id cu).
  { intros a. unfold without_sessions_of. simpl.
    rewrite filter_In, negb_true_iff, String.eqb_neq. reflexivity. }
  split; [exact Hiff|]. split; [reflexivity|]. split; [reflexivity|].
  intros Hne. split.
  - intros a Ha Hu. apply Hiff. split; [exact Ha|]. congruence.
  - destruct (get_refresh_token_user_ok _ _ _ _ _ G2)
      as [_ [t [a [Et [_ [F [_ Fu]]]]]]].
    simpl in F, Fu.
    destruct (filter_singleton _ _ _ F) as [Ha Etok].
    destruct (filter_singleton _ _ _ Fu) as [_ Eu].
    apply String.eqb_eq in Etok, Eu.
    exists a. split; [congruence|]. split; [congruence|].
    apply Hiff. split; [exact Ha|]. congruence.
Qed.

Lemma C10_logout_deletes_by_access_token_user_witness :
  get_db (logout_user Sample.lib Sample.production 100%Z "jwt:u1" (Some "R2"))
         Sample.db
  = (Ok "Logout successful",
     mkTables (users Sample.db) [Sample.bob_session]
              (password_reset_tokens Sample.db) 3)
  /\ exists current_user refresh_token_user,
       get_current_user Sample.lib Sample.production 100%Z "jwt:u1"
         (mkSession Sample.db Sample.db)
         = (Ok current_user, mkSession Sample.db Sample.db)
       /\ get_refresh_token_user 100%Z (Some "R2")
            (mkSession Sample.db Sample.db)
          = (Ok refresh_token_user, mkSession Sample.db Sample.db)
       /\ (forall a, In a (auth_tokens (without_sessions_of "u1" Sample.db)) <->
                     In a (auth_tokens Sample.db)
                     /\ AuthToken.user_id a <> User.id current_user)
       /\ users (without_sessions_of "u1" Sample.db) = users Sample.db
       /\ password_reset_tokens (without_sessions_of "u1" Sample.db)
          = password_reset_tokens Sample.db
       /\ (User.id refresh_token_user <> User.id current_user ->
           (forall a, In a (auth_tokens Sample.db) ->
                      AuthToken.user_id a = User.id refresh_token_user ->
                      In a (auth_tokens (without_sessions_of "u1" Sample.db)))
           /\ exists presented,
                Some "R2" = Some (AuthToken.token presented)
                /\ AuthToken.user_id presented = User.id refresh_token_user
                /\ In presented
                      (auth_tokens (without_sessions_of "u1" Sample.db))).
Proof.
  split; [reflexivity|].
  apply (C10_logout_deletes_by_access_token_user Sample.lib Sample.production
           100%Z "jwt:u1" (Some "R2") Sample.db "Logout successful").
  reflexivity.
Defined.

(* ================================================================= *)
(** ** Reset-password *)

(** C3.  For a reset token of the store: used or expired, the reset is
    rejected (400) and no user row changes; unused and unexpired, the reset
    succeeds, the owner's password is the hash of the new password, the
    token is marked used, the owner has no refresh-token row left, and any
    further reset with the same token is rejected. *)
Theorem C3_reset_password_once
    (lib : Library) (utcnow : Z) (rnd : Entropy) (reset_data : ResetPassword)
    (db : Tables) (reset_token : PasswordResetToken.t) :
  constraints_ok db = true ->
  In reset_token (password_reset_tokens db) ->
  PasswordResetToken.token reset_token = reset_token_ reset_data ->
  (PasswordResetToken.used reset_token = true
   \/ (PasswordResetToken.expires_at reset_token <? utcnow)%Z = true ->
   exists detail db',
     get_db (reset_password lib utcnow rnd reset_data) db
       = (Raise (HTTPException 400 detail), db')
     /\ users db' = users db)
  /\ (PasswordResetToken.used reset_token = false ->
      (PasswordResetToken.expires_at reset_token <? utcnow)%Z = false ->
      exists user db',
        In user (users db)
        /\ User.id user = PasswordResetToken.user_id reset_token
        /\ get_db (reset_password lib utcnow rnd reset_data) db
           = (Ok reset_ok_message, db')
        /\ In (User.set_password user
                 (hash_password lib (salt rnd) (reset_password_ reset_data)))
              (users db')
        /\ (forall u, In u (users db') -> User.id u = User.id user ->
                      User.password u
                      = hash_password lib (salt rnd)
                                      (reset_password_ reset_data))
        /\ In (PasswordResetToken.set_used reset_token true)
              (password_reset_tokens db')
        /\ (forall a, In a (auth_tokens db') ->
                      AuthToken.user_id a <> User.id user)
        /\ (forall utcnow2 rnd2 again,
              reset_token_ again = reset_token_ reset_data ->
              get_db (reset_password lib utcnow2 rnd2 again) db'
              = (Raise (HTTPException 400 "Invalid or expired reset token"),
                 db'))).
Proof.
  intros C Hin Ht. split.
  - intros Hcase.
    destruct (PasswordResetToken.used reset_token) eqn:Hu.
    + exists "Invalid or expired reset token", db. split; [|reflexivity].
      apply (reset_password_used_token lib utcnow rnd reset_data db
               reset_token); assumption.
    + destruct Hcase as [Hcase|E]; [discriminate Hcase|].
      exists "Reset token has expired", (without_reset_token reset_token db).
      split; [|reflexivity].
      apply reset_password_expired_token; assumption.
  - intros Hu E.
    destruct (reset_password_succeeds lib utcnow rnd reset_data db
                reset_token C Hin Ht Hu E) as [user [Huser [Hid R]]].
    set (h := hash_password lib (salt rnd) (reset_password_ reset_data)) in *.
    exists user, (after_reset h user reset_token db).
    split; [exact Huser|]. split; [exact Hid|]. split; [exact R|].
    split; [apply after_reset_user_kept, Huser|].
    split; [intros u; apply after_reset_password|].
    split; [apply after_reset_token_used, Hin|].
    split; [intros a Ha; apply (after_reset_no_sessions _ _ _ _ _ Ha)|].
    intros utcnow2 rnd2 again Ht2.
    apply (reset_password_used_token lib utcnow2 rnd2 again _
             (PasswordResetToken.set_used reset_token true)).
    + apply after_reset_ok, C.
    + apply after_reset_token_used, Hin.
    + simpl. congruence.
    + reflexivity.
Qed.

Lemma C3_reset_password_once_witness :
  (exists detail db',
     get_db (reset_password Sample.lib 100%Z Sample.rnd
               (mkResetPassword "P2" "new-secret" "new-secret")) Sample.db
       = (Raise (HTTPException 400 detail), db')
     /\ users db' = users Sample.db)
  /\ (exists user db',
        In user (users Sample.db)
        /\ User.id user = "u1"
        /\ get_db (reset_password Sample.lib 100%Z Sample.rnd
                     (mkResetPassword "P1" "new-secret" "new-secret"))
                  Sample.db
           = (Ok reset_ok_message, db')
        /\ In (User.set_password user "$2b$12$new-secret") (users db')
        /\ (forall u, In u (users db') -> User.id u = User.id user ->
                      User.password u = "$2b$12$new-secret")
        /\ In (PasswordResetToken.set_used Sample.alice_reset true)
              (password_reset_tokens db')
        /\ (forall a, In a (auth_tokens db') ->
                      AuthToken.user_id a <> User.id user)
        /\ (forall utcnow2 rnd2 again,
              reset_token_ again = "P1" ->
              get_db (reset_password Sample.lib utcnow2 rnd2 again) db'
              = (Raise (HTTPException 400 "Invalid or expired reset token"),
                 db'))).
Proof.
  split.
  - apply (proj1 (C3_reset_password_once Sample.lib 100%Z Sample.rnd
                    (mkResetPassword "P2" "new-secret" "new-secret")
                    Sample.db Sample.bob_reset eq_refl
                    (or_intror (or_introl eq_refl)) eq_refl)).
    right. reflexivity.
  - apply (proj2 (C3_reset_password_once Sample.lib 100%Z Sample.rnd
                    (mkResetPassword "P1" "new-secret" "new-secret")
                    Sample.db Sample.alice_reset eq_refl
                    (or_introl eq_refl) eq_refl)); reflexivity.
Defined.

(* ================================================================= *)
(** ** Expired tokens *)

(** C4 as stated fails: [verify_reset_token] reports an expired reset
    token invalid and leaves its row in the store. *)
Lemma C4_verify_keeps_expired_token :
  (PasswordResetToken.expires_at Sample.bob_reset <? 100)%Z = true
  /\ get_db (verify_reset_token 100%Z "P2") Sample.db
     = (Ok (mkTokenVerificationResponse false "Token is invalid or expired"),
        Sample.db)
  /\ In Sample.bob_reset
        (password_reset_tokens
           (snd (get_db (verify_reset_token 100%Z "P2") Sample.db))).
Proof.
  split; [reflexivity|]. split; [reflexivity|].
  right. left. reflexivity.
Qed.

Lemma without_auth_token_gone (a : AuthToken.t) (t : Tables) :
  ~ In a (auth_tokens (without_auth_token a t)).
Proof.
  unfold without_auth_token. simpl. intros H. apply filter_In in H.
  destruct H as [_ E]. rewrite String.eqb_refl in E. discriminate E.
Qed.

Lemma without_reset_token_gone (r : PasswordResetToken.t) (t : Tables) :
  ~ In r (password_reset_tokens (without_reset_token r t)).
Proof.
  unfold without_reset_token. simpl. intros H. apply filter_In in H.
  destruct H as [_ E]. rewrite Nat.eqb_refl in E. discriminate E.
Qed.

(** C4, as the code has it.  The refresh flow rejects an expired refresh
    token (401) and deletes its row; reset-password rejects an expired,
    unused reset token (400) and deletes its row; verify-reset-token
    answers "invalid" for such a token and writes nothing. *)
Theorem C4_expired_tokens
    (lib : Library) (environ : Environ) (utcnow : Z) (db : Tables) :
  constraints_ok db = true ->
  (forall a,
     In a (auth_tokens db) -> AuthToken.token a <> "" ->
     (AuthToken.expires_at a <? utcnow)%Z = true ->
     get_db (refresh_access_token lib environ utcnow
               (Some (AuthToken.token a))) db
       = (Raise (HTTPException 401 "Refresh token expired"),
          without_auth_token a db)
     /\ ~ In a (auth_tokens (without_auth_token a db)))
  /\ (forall r rnd reset_data,
        In r (password_reset_tokens db) ->
        PasswordResetToken.token r = reset_token_ reset_data ->
        PasswordResetToken.used r = false ->
        (PasswordResetToken.expires_at r <? utcnow)%Z = true ->
        get_db (reset_password lib utcnow rnd reset_data) db
          = (Raise (HTTPException 400 "Reset token has expired"),
             without_reset_token r db)
        /\ ~ In r (password_reset_tokens (without_reset_token r db)))
  /\ (forall r,
        In r (password_reset_tokens db) ->
        PasswordResetToken.used r = false ->
        (PasswordResetToken.expires_at r <? utcnow)%Z = true ->
        get_db (verify_reset_token utcnow (PasswordResetToken.token r)) db
        = (Ok (mkTokenVerificationResponse false
                 "Token is invalid or expired"), db)).
Proof.
  intros C. split; [|split].
  - intros a Hin Ht E. split; [|apply without_auth_token_gone].
    rewrite (refresh_access_token_rejects lib environ utcnow _ db
               (HTTPException 401 "Refresh token expired")
               (mkSession (without_auth_token a db)
                          (without_auth_token a db))); [reflexivity|].
    apply (get_refresh_token_user_expired utcnow (AuthToken.token a)
             (mkSession db db) a Ht); simpl; auto.
    apply auth_token_by_token; assumption.
  - intros r rnd reset_data Hin Ht Hu E.
    split; [|apply without_reset_token_gone].
    apply reset_password_expired_token; assumption.
  - intros r Hin Hu E. apply verify_reset_token_expired; assumption.
Qed.

Lemma C4_expired_tokens_witness :
  (get_db (refresh_access_token Sample.lib Sample.production 100%Z (Some "R3"))
          Sample.db
     = (Raise (HTTPException 401 "Refresh token expired"),
        without_auth_token Sample.alice_old_session Sample.db)
   /\ ~ In Sample.alice_old_session
           (auth_tokens (without_auth_token Sample.alice_old_session
                                            Sample.db)))
  /\ (get_db (reset_password Sample.lib 100%Z Sample.rnd
                (mkResetPassword "P2" "new-secret" "new-secret")) Sample.db
        = (Raise (HTTPException 400 "Reset token has expired"),
           without_reset_token Sample.bob_reset Sample.db)
      /\ ~ In Sample.bob_reset
              (password_reset_tokens
                 (without_reset_token Sample.bob_reset Sample.db)))
  /\ get_db (verify_reset_token 100%Z "P2") Sample.db
     = (Ok (mkTokenVerificationResponse false "Token is invalid or expired"),
        Sample.db).
Proof.
  split; [|split].
  - apply (proj1 (C4_expired_tokens Sample.lib Sample.production 100%Z
                    Sample.db eq_refl) Sample.alice_old_session).
    + right. right. left. reflexivity.
    + discriminate.
    + reflexivity.
  - apply (proj1 (proj2 (C4_expired_tokens Sample.lib Sample.production 100%Z
                           Sample.db eq_refl))
             Sample.bob_reset Sample.rnd
             (mkResetPassword "P2" "new-secret" "new-secret")).
    + right. left. reflexivity.
    + reflexivity.
    + reflexivity.
    + reflexivity.
  - apply (proj2 (proj2 (C4_expired_tokens Sample.lib Sample.production 100%Z
                           Sample.db eq_refl)) Sample.bob_reset).
    + right. left. reflexivity.
    + reflexivity.
    + reflexivity.
Defined.

(* ================================================================= *)
(** ** Forgot-password *)

Lemma getenv_is_true (v : option string) (expected : string) :
  getenv_is v expected = true -> v = Some expected.
Proof.
  destruct v as [s|]; simpl; [|discriminate].
  intros E. apply String.eqb_eq in E. congruence.
Qed.

(** C8.  Whatever forgot-password answers, the message is the same
    string, and a reset token is in the answer only under
    [NODE_ENV=development].  For an unknown email nothing is written.  For a
    known email the user's reset tokens are replaced by one new, unused
    token that expires an hour later; users and refresh tokens are as they
    were. *)
Theorem C8_forgot_password_is_generic
    (environ : Environ) (utcnow : Z) (rnd : Entropy) (email : string)
    (db : Tables) :
  wf db ->
  (forall r db',
     get_db (forgot_password environ utcnow rnd email) db = (Ok r, db') ->
     forgot_message r
       = "If this email exists, a password reset link has been sent"
     /\ (forall t, forgot_reset_token r = Some t ->
                   NODE_ENV environ = Some "development"))
  /\ ((forall u, In u (users db) -> User.email u <> email) ->
      get_db (forgot_password environ utcnow rnd email) db
      = (Ok (mkForgotPasswordResponse
               "If this email exists, a password reset link has been sent"
               None),
         db))
  /\ (forall user,
        In user (users db) -> User.email user = email ->
        (forall r, In r (password_reset_tokens db) ->
                   PasswordResetToken.user_id r <> User.id user ->
                   PasswordResetToken.token r <> token_urlsafe rnd) ->
        exists db',
          get_db (forgot_password environ utcnow rnd email) db
            = (Ok (mkForgotPasswordResponse
                     "If this email exists, a password reset link has been sent"
                     (if getenv_is (NODE_ENV environ) "development"
                      then Some (token_urlsafe rnd) else None)),
               db')
          /\ filter (fun r => PasswordResetToken.user_id r =? User.id user)
                    (password_reset_tokens db')
             = [PasswordResetToken.mk (password_reset_tokens_id_seq db)
                  (User.id user) (token_urlsafe rnd) (utcnow + 3600)%Z false]
          /\ users db' = users db
          /\ auth_tokens db' = auth_tokens db).
Proof.
  intros W. split; [|split].
  - intros r db' H.
    destruct (forgot_password_ok environ _ _ _ _ _ _ H)
      as [[_ [_ ->]] | [user [_ [_ [_ ->]]]]].
    + split; [reflexivity|]. intros t Ht. discriminate Ht.
    + split; [reflexivity|]. unfold forgot_response. simpl.
      intros t Ht.
      destruct (getenv_is (NODE_ENV environ) "development") eqn:E;
        [|discriminate Ht].
      apply getenv_is_true, E.
  - apply forgot_password_unknown_email, W.
  - intros user Hin <- Fresh.
    exists (after_forgot utcnow rnd user db).
    split; [apply (forgot_password_succeeds environ); assumption|].
    split; [apply after_forgot_single|].
    split; reflexivity.
Qed.

Lemma C8_forgot_password_is_generic_witness :
  get_db (forgot_password Sample.production 100%Z Sample.rnd
            "nobody@example.com") Sample.db
  = (Ok (mkForgotPasswordResponse
           "If this email exists, a password reset link has been sent" None),
     Sample.db)
  /\ exists db',
       get_db (forgot_password Sample.production 100%Z Sample.rnd
                 "alice@example.com") Sample.db
       = (Ok (mkForgotPasswordResponse
                "If this email exists, a password reset link has been sent"
                None),
          db')
       /\ filter (fun r => PasswordResetToken.user_id r =? "u1")
                 (password_reset_tokens db')
          = [PasswordResetToken.mk 3 "u1" "R4" 3700%Z false]
       /\ users db' = users Sample.db
       /\ auth_tokens db' = auth_tokens Sample.db.
Proof.
  assert (W : wf Sample.db) by (split; reflexivity).
  split.
  - apply (proj1 (proj2 (C8_forgot_password_is_generic Sample.production
                           100%Z Sample.rnd "nobody@example.com" Sample.db W))).
    simpl. intros u [<-|[<-|[<-|[]]]]; discriminate.
  - apply (proj2 (proj2 (C8_forgot_password_is_generic Sample.production
                           100%Z Sample.rnd "alice@example.com" Sample.db W))
             Sample.alice).
    + left. reflexivity.
    + reflexivity.
    + simpl. intros r [<-|[<-|[<-|[]]]] _; discriminate.
Defined.

(* ================================================================= *)
(** ** Commit points *)

Lemma logout_user_raise lib environ utcnow credentials refresh_token db e db' :
  get_db (logout_user lib environ utcnow credentials refresh_token) db
    = (Raise e, db') ->
  db' = db
  \/ exists a,
       In a (auth_tokens db)
       /\ (AuthToken.expires_at a <? utcnow)%Z = true
       /\ e = HTTPException 401 "Refresh token expired"
       /\ db' = without_auth_token a db.
Proof.
  unfold get_db, logout_user, bind. intros H.
  destruct (get_current_user lib environ utcnow credentials (mkSession db db))
    as [[cu|e1] s1] eqn:G1.
  2:{ pose proof (get_current_user_reads _ _ _ _ _ _ _ G1) as ->.
      inversion H. left. reflexivity. }
  pose proof (get_current_user_reads _ _ _ _ _ _ _ G1) as ->.
  destruct (get_refresh_token_user utcnow refresh_token (mkSession db db))
    as [[ru|e2] s2] eqn:G2.
  - destruct (get_refresh_token_user_ok _ _ _ _ _ G2) as [-> _].
    unfold execute_delete_AuthToken, modify, commit, ret in H. cbn in H.
    left. destruct (constraints_ok _) eqn:C in H; cbn in H.
    + rewrite C in H. discriminate H.
    + inversion H. reflexivity.
  - inversion H; subst e2 db'. clear H.
    destruct (get_refresh_token_user_raise _ _ _ _ _ G2)
      as [-> | [a [Hin [E [[-> ->] | [-> ->]]]]]].
    + left. reflexivity.
    + right. exists a. simpl in Hin. auto.
    + left. reflexivity.
Qed.

(** C1, as the code has it.  Forgot-password, reset-password and logout
    commit their writes once: when one of them fails the database is as it
    was, but for the committed deletion of the expired token that a
    rejection for an expired reset or refresh token comes with; a successful
    reset applies its three writes together.  Login commits its refresh
    token before it builds the response: when it fails the database is as
    it was, or the user has a NULL name, the response model refused it and
    the new refresh token is persisted.  Register commits twice: it ends
    with nothing written, or with the User row written and the request
    failed at the second commit, or with both rows written. *)
Theorem C1_commit_points
    (lib : Library) (environ : Environ) (utcnow : Z) (rnd : Entropy)
    (db : Tables) :
  (forall user_data r db',
     get_db (register_user lib environ utcnow rnd user_data) db = (r, db') ->
     let user := registered_user lib rnd user_data in
     let session :=
       refresh_record (uuid4_second rnd) (uuid4_first rnd) (token_urlsafe rnd)
                      utcnow in
     (db' = db /\ exists e, r = Raise e)
     \/ (db' = with_user user db /\ r = Raise IntegrityError)
     \/ (db' = with_auth_token session (with_user user db)
         /\ r = Ok (register_response lib environ utcnow rnd user_data)))
  /\ (forall user_credentials e db',
        get_db (login_user lib environ utcnow rnd user_credentials) db
          = (Raise e, db') ->
        db' = db
        \/ exists user,
             In user (users db)
             /\ User.email user = login_email user_credentials
             /\ (User.first_name user = None \/ User.last_name user = None)
             /\ e = ValidationError
             /\ db' = with_auth_token
                        (refresh_record (uuid4_first rnd) (User.id user)
                                        (token_urlsafe rnd) utcnow) db)
  /\ (forall email e db',
        get_db (forgot_password environ utcnow rnd email) db
          = (Raise e, db') ->
        db' = db)
  /\ (forall reset_data e db',
        get_db (reset_password lib utcnow rnd reset_data) db
          = (Raise e, db') ->
        db' = db
        \/ exists reset_token,
             In reset_token (password_reset_tokens db)
             /\ (PasswordResetToken.expires_at reset_token <? utcnow)%Z = true
             /\ e = HTTPException 400 "Reset token has expired"
             /\ db' = without_reset_token reset_token db)
  /\ (forall reset_data r db',
        get_db (reset_password lib utcnow rnd reset_data) db = (Ok r, db') ->
        exists reset_token user,
          In reset_token (password_reset_tokens db)
          /\ In user (users db)
          /\ db' = after_reset
                     (hash_password lib (salt rnd) (reset_password_ reset_data))
                     user reset_token db)
  /\ (forall credentials refresh_token e db',
        get_db (logout_user lib environ utcnow credentials refresh_token) db
          = (Raise e, db') ->
        db' = db
        \/ exists a,
             In a (auth_tokens db)
             /\ (AuthToken.expires_at a <? utcnow)%Z = true
             /\ e = HTTPException 401 "Refresh token expired"
             /\ db' = without_auth_token a db).
Proof.
  repeat split.
  - intros user_data r db' H.
    destruct (register_user_cases lib environ _ _ _ _ _ _ H)
      as [H1 | [[H1 [H2 _]] | [H1 [H2 _]]]]; auto.
  - intros user_credentials e db'. apply login_user_raise_db.
  - intros email e db'. apply forgot_password_raise.
  - intros reset_data e db' H.
    destruct (reset_password_raise _ _ _ _ _ _ _ H)
      as [-> | [reset_token [F [E [-> ->]]]]]; [left; reflexivity|].
    right. exists reset_token.
    destruct (filter_singleton _ _ _ F) as [Hin _]. auto.
  - intros reset_data r db' H.
    destruct (reset_password_ok _ _ _ _ _ _ _ H)
      as [reset_token [user [F [_ [Fu [-> _]]]]]].
    exists reset_token, user.
    destruct (filter_singleton _ _ _ F) as [Hin _].
    destruct (filter_singleton _ _ _ Fu) as [Hu _]. auto.
  - intros credentials refresh_token e db'. apply logout_user_raise.
Qed.

Lemma C1_commit_points_witness :
  (let rnd := mkEntropy "s" "u4" "t4" "R1" in
   let user_data :=
     mkUserRegister "dave@example.com" "dave-secret" "dave-secret"
                    "Dave" "D" "patient" in
   let user := registered_user Sample.lib rnd user_data in
   let session := refresh_record "t4" "u4" "R1" 100%Z in
   (with_user user Sample.db = Sample.db
    /\ exists e, @Raise AuthResponse IntegrityError = Raise e)
   \/ (with_user user Sample.db = with_user user Sample.db
       /\ @Raise AuthResponse IntegrityError = Raise IntegrityError)
   \/ (with_user user Sample.db
       = with_auth_token session (with_user user Sample.db)
       /\ Raise IntegrityError
          = Ok (register_response Sample.lib Sample.production 100%Z rnd
                                  user_data)))
  /\ (without_reset_token Sample.bob_reset Sample.db = Sample.db
      \/ exists reset_token,
           In reset_token (password_reset_tokens Sample.db)
           /\ (PasswordResetToken.expires_at reset_token <? 100)%Z = true
           /\ HTTPException 400 "Reset token has expired"
              = HTTPException 400 "Reset token has expired"
           /\ without_reset_token Sample.bob_reset Sample.db
              = without_reset_token reset_token Sample.db)
  /\ (with_auth_token (refresh_record "u4" "u9" "R4" 100%Z) Sample.legacy_db
      = Sample.legacy_db
      \/ exists user,
           In user (users Sample.legacy_db)
           /\ User.email user = "erin@example.com"
           /\ (User.first_name user = None \/ User.last_name user = None)
           /\ ValidationError = ValidationError
           /\ with_auth_token (refresh_record "u4" "u9" "R4" 100%Z)
                              Sample.legacy_db
              = with_auth_token
                  (refresh_record "u4" (User.id user) "R4" 100%Z)
                  Sample.legacy_db).
Proof.
  split; [|split].
  - apply (proj1 (C1_commit_points Sample.lib Sample.production 100%Z
                    (mkEntropy "s" "u4" "t4" "R1") Sample.db)
             (mkUserRegister "dave@example.com" "dave-secret" "dave-secret"
                             "Dave" "D" "patient")).
    reflexivity.
  - apply (proj1 (proj2 (proj2 (proj2
             (C1_commit_points Sample.lib Sample.production 100%Z Sample.rnd
                               Sample.db))))
             (mkResetPassword "P2" "new-secret" "new-secret")).
    reflexivity.
  - apply (proj1 (proj2
             (C1_commit_points Sample.lib Sample.production 100%Z Sample.rnd
                               Sample.legacy_db))
             (mkUserLogin "erin@example.com" "erin-secret")).
    reflexivity.
Defined.

(** C1 as stated fails: a registration whose refresh-token row is refused
    at the second commit ends in an error with the new User row persisted
    and no AuthToken row for it. *)
Lemma C1_register_keeps_user_on_late_failure :
  let rnd := mkEntropy "s" "u4" "t4" "R1" in
  let user_data :=
    mkUserRegister "dave@example.com" "dave-secret" "dave-secret"
                   "Dave" "D" "patient" in
  let dave := registered_user Sample.lib rnd user_data in
  let outcome :=
    get_db (register_user Sample.lib Sample.production 100%Z rnd user_data)
           Sample.db in
  filter (fun u => User.email u =? "dave@example.com") (users Sample.db) = []
  /\ fst outcome = Raise IntegrityError
  /\ ~ In dave (users Sample.db)
  /\ In dave (users (snd outcome))
  /\ filter (fun a => AuthToken.user_id a =? "u4") (auth_tokens (snd outcome))
     = [].
Proof.
  cbv zeta. split; [reflexivity|]. split; [reflexivity|]. split.
  - simpl. intros [H|[H|[H|[]]]]; discriminate H.
  - split; [|reflexivity].
    right. right. right. left. reflexivity.
Qed.

(** Login is the second flow that fails with a write persisted: a user
    whose name columns are NULL gives the right password, the refresh
    token is committed, and the response model then refuses the user. *)
Lemma login_keeps_token_on_late_failure :
  let outcome :=
    get_db (login_user Sample.lib Sample.production 100%Z Sample.rnd
              (mkUserLogin "erin@example.com" "erin-secret"))
           Sample.legacy_db in
  fst outcome = Raise ValidationError
  /\ auth_tokens Sample.legacy_db = []
  /\ auth_tokens (snd outcome) = [refresh_record "u4" "u9" "R4" 100%Z].
Proof. cbv zeta. repeat split. Qed.

(* ================================================================= *)
(** ** Register, then log in *)

(** With a bcrypt that verifies what it hashed, a registration that goes
    through is followed by a successful login with the same credentials. *)
Lemma register_then_login
    (lib : Library) (environ : Environ) (t1 t2 : Z) (rnd1 rnd2 : Entropy)
    (user_data : UserRegister) (db : Tables) :
  let hashed := bcrypt_hash lib (salt rnd1) (reg_password user_data) in
  let session1 :=
    refresh_record (uuid4_second rnd1) (uuid4_first rnd1) (token_urlsafe rnd1)
                   t1 in
  let user := registered_user lib rnd1 user_data in
  let db1 := with_auth_token session1 (with_user user db) in
  bcrypt_identify hashed = true ->
  bcrypt_verify lib (reg_password user_data) hashed = Ok true ->
  constraints_ok db = true ->
  (forall u, In u (users db) -> User.email u <> reg_email user_data) ->
  (forall u, In u (users db) -> User.id u <> uuid4_first rnd1) ->
  (forall a, In a (auth_tokens db) -> AuthToken.id a <> uuid4_second rnd1) ->
  (forall a, In a (auth_tokens db) ->
             AuthToken.token a <> token_urlsafe rnd1) ->
  (forall a, In a (auth_tokens db1) -> AuthToken.id a <> uuid4_first rnd2) ->
  (forall a, In a (auth_tokens db1) ->
             AuthToken.token a <> token_urlsafe rnd2) ->
  get_db (register_user lib environ t1 rnd1 user_data) db
    = (Ok (register_response lib environ t1 rnd1 user_data), db1)
  /\ get_db (login_user lib environ t2 rnd2
               (mkUserLogin (reg_email user_data) (reg_password user_data)))
            db1
     = (Ok (login_response lib environ t2 rnd2
              (auth_user (register_response lib environ t1 rnd1 user_data))),
        with_auth_token
          (refresh_record (uuid4_first rnd2) (uuid4_first rnd1)
                          (token_urlsafe rnd2) t2) db1).
Proof.
  intros hashed session1 user db1 Hid Hv C Femail Fuid Ftid Ftok Ftid2 Ftok2.
  pose proof (register_user_succeeds lib environ t1 rnd1 user_data db
                C Femail Fuid Ftid Ftok) as R.
  split; [exact R|].
  apply (login_user_succeeds lib environ t2 rnd2
           (mkUserLogin (reg_email user_data) (reg_password user_data))
           db1 user); auto.
  - destruct (register_user_cases lib environ _ _ _ _ _ _ R)
      as [[_ [e He]] | [[_ [He _]] | [_ [_ [C1 _]]]]];
      try discriminate He. exact C1.
  - simpl. apply in_or_app. right. left. reflexivity.
  - simpl. unfold verify_password, pwd_context_verify, hash_password,
      pwd_context_hash. fold hashed. rewrite Hid. exact Hv.
Qed.

(* ================================================================= *)
(** ** The flows, one after another *)

Lemma get_current_user_succeeds lib environ utcnow credentials s payload u :
  jwt_decode lib credentials (SECRET_KEY environ) ALGORITHM utcnow
    = Ok payload ->
  sub payload = Some (User.id u) ->
  constraints_ok (pending s) = true ->
  In u (users (pending s)) ->
  get_current_user lib environ utcnow credentials s = (Ok u, s).
Proof.
  intros D S C Hin.
  unfold get_current_user, bind, lift, execute_select, verify_token.
  rewrite D, S, (user_by_id _ _ C Hin). reflexivity.
Qed.

Lemma get_refresh_token_user_succeeds utcnow s a u :
  AuthToken.token a <> "" ->
  constraints_ok (pending s) = true ->
  In a (auth_tokens (pending s)) ->
  (AuthToken.expires_at a <? utcnow)%Z = false ->
  In u (users (pending s)) ->
  User.id u = AuthToken.user_id a ->
  get_refresh_token_user utcnow (Some (AuthToken.token a)) s = (Ok u, s).
Proof.
  intros Ht C Ha E Hu Hid.
  destruct (AuthToken.token a) as [|c t] eqn:Et; [congruence|].
  unfold get_refresh_token_user, bind, execute_select.
  rewrite <- Et, (auth_token_by_token _ _ C Ha). simpl. rewrite E.
  rewrite <- Hid, (user_by_id _ _ C Hu). reflexivity.
Qed.

Lemma refresh_access_token_succeeds lib environ utcnow db a u :
  AuthToken.token a <> "" ->
  constraints_ok db = true ->
  In a (auth_tokens db) ->
  (AuthToken.expires_at a <? utcnow)%Z = false ->
  In u (users db) ->
  User.id u = AuthToken.user_id a ->
  get_db (refresh_access_token lib environ utcnow
            (Some (AuthToken.token a))) db
  = (Ok (mkRefreshTokenResponse
           (create_access_token lib environ utcnow
              (mkClaims (Some (User.id u)) None) None)
           "Token refreshed successfully"),
     db).
Proof.
  intros Ht C Ha E Hu Hid.
  unfold get_db, refresh_access_token, bind.
  rewrite (get_refresh_token_user_succeeds utcnow (mkSession db db) a u);
    auto.
  unfold ret, commit. cbn. rewrite C. reflexivity.
Qed.

Lemma refresh_access_token_raise lib environ utcnow refresh_token db e db' :
  get_db (refresh_access_token lib environ utcnow refresh_token) db
    = (Raise e, db') ->
  db' = db
  \/ exists a, In a (auth_tokens db) /\ db' = without_auth_token a db.
Proof.
  unfold get_db, refresh_access_token, bind. intros H.
  destruct (get_refresh_token_user utcnow refresh_token (mkSession db db))
    as [[ru|e2] s2] eqn:G2.
  - destruct (get_refresh_token_user_ok _ _ _ _ _ G2) as [-> _].
    unfold commit, ret in H. cbn in H.
    left. destruct (constraints_ok db); inversion H; reflexivity.
  - inversion H; subst e2 db'. clear H.
    destruct (get_refresh_token_user_raise _ _ _ _ _ G2)
      as [-> | [a [Hin [E [[-> ->] | [-> ->]]]]]].
    + left. reflexivity.
    + right. exists a. simpl in Hin. auto.
    + left. reflexivity.
Qed.

(** No authentication endpoint removes an account or changes whom it
    belongs to.  Whatever the request and however it ends, the users
    table afterwards is the one before, with two exceptions: a
    registration for an email that was free may have appended the new
    user, and a successful reset-password has replaced the password of
    the token's owner, in that row and in no other. *)
Theorem auth_endpoints_keep_accounts
    (lib : Library) (environ : Environ) (utcnow : Z) (rnd : Entropy)
    (db : Tables) :
  (forall user_data r db',
     get_db (register_user lib environ utcnow rnd user_data) db = (r, db') ->
     users db' = users db
     \/ (users db' = users db ++ [registered_user lib rnd user_data]
         /\ forall u, In u (users db) -> User.email u <> reg_email user_data))
  /\ (forall user_credentials r db',
        get_db (login_user lib environ utcnow rnd user_credentials) db
          = (r, db') -> users db' = users db)
  /\ (forall credentials refresh_token r db',
        get_db (logout_user lib environ utcnow credentials refresh_token) db
          = (r, db') -> users db' = users db)
  /\ (forall refresh_token r db',
        get_db (refresh_access_token lib environ utcnow refresh_token) db
          = (r, db') -> users db' = users db)
  /\ (forall email r db',
        get_db (forgot_password environ utcnow rnd email) db = (r, db') ->
        users db' = users db)
  /\ (forall token r db',
        get_db (verify_reset_token utcnow token) db = (r, db') ->
        users db' = users db)
  /\ (forall reset_data r db',
        get_db (reset_password lib utcnow rnd reset_data) db = (r, db') ->
        users db' = users db
        \/ (r = Ok reset_ok_message
            /\ exists reset_token user,
                 In reset_token (password_reset_tokens db)
                 /\ PasswordResetToken.token reset_token
                    = reset_token_ reset_data
                 /\ In user (users db)
                 /\ User.id user = PasswordResetToken.user_id reset_token
                 /\ users db'
                    = map (fun x =>
                             if User.id x =? User.id user
                             then User.set_password x
                                    (hash_password lib (salt rnd)
                                       (reset_password_ reset_data))
                             else x)
                          (users db))).
Proof.
  repeat split.
  - intros user_data r db' H.
    destruct (register_user_cases lib environ _ _ _ _ _ _ H)
      as [[-> _] | [[-> [Hr [C1 _]]] | [-> [_ [_ F]]]]].
    + left. reflexivity.
    + right. split; [reflexivity|].
      destruct r as [a|e]; [discriminate Hr|].
      intros u Hu E.
      unfold get_db, register_user, bind, execute_select in H. cbn in H.
      destruct (filter (fun u => User.email u =? reg_email user_data)
                       (users db)) as [|u0 l] eqn:F.
      * assert (Hin : In u (filter (fun u => User.email u
                                             =? reg_email user_data)
                                   (users db))).
        { apply filter_In. split; [exact Hu|]. apply String.eqb_eq, E. }
        rewrite F in Hin. exact Hin.
      * destruct l; cbn in H; inversion H as [[He Hd]];
          apply (f_equal users) in Hd; simpl in Hd;
          apply (f_equal (@List.length User.t)) in Hd;
          rewrite length_app in Hd; simpl in Hd; lia.
    + right. split; [reflexivity|].
      intros u Hu E.
      assert (Hin : In u (filter (fun u => User.email u
                                           =? reg_email user_data)
                                 (users db))).
      { apply filter_In. split; [exact Hu|]. apply String.eqb_eq, E. }
      rewrite F in Hin. exact Hin.
  - intros user_credentials [a|e] db' H.
    + destruct (login_user_ok _ _ _ _ _ _ _ _ H) as [user [_ [_ [-> _]]]].
      reflexivity.
    + destruct (login_user_raise_db _ _ _ _ _ _ _ _ H)
        as [-> | [user [_ [_ [_ [_ ->]]]]]]; reflexivity.
  - intros credentials refresh_token [a|e] db' H.
    + destruct (logout_user_ok _ _ _ _ _ _ _ _ H)
        as [cu [ru [_ [_ [-> _]]]]]. reflexivity.
    + destruct (logout_user_raise _ _ _ _ _ _ _ _ H)
        as [-> | [a [_ [_ [_ ->]]]]]; reflexivity.
  - intros refresh_token [a|e] db' H.
    + destruct (refresh_access_token_ok _ _ _ _ _ _ _ H) as [-> _].
      reflexivity.
    + destruct (refresh_access_token_raise _ _ _ _ _ _ _ H)
        as [-> | [a [_ ->]]]; reflexivity.
  - intros email [a|e] db' H.
    + destruct (forgot_password_ok _ _ _ _ _ _ _ H)
        as [[_ [-> _]] | [user [_ [-> _]]]]; reflexivity.
    + rewrite (forgot_password_raise _ _ _ _ _ _ _ H). reflexivity.
  - intros token r db' H.
    rewrite (verify_reset_token_reads _ _ _ _ _ H). reflexivity.
  - intros reset_data [a|e] db' H.
    + destruct (reset_password_ok _ _ _ _ _ _ _ H)
        as [reset_token [user [F [_ [Fu [-> [_ ->]]]]]]].
      destruct (filter_singleton _ _ _ F) as [Hin Ht].
      destruct (filter_singleton _ _ _ Fu) as [Hu Hid].
      apply String.eqb_eq in Hid.
      right. split; [reflexivity|]. exists reset_token, user.
      repeat split; auto.
      unfold unused_with_token in Ht. apply andb_true_iff in Ht.
      destruct Ht as [Ht _]. apply String.eqb_eq in Ht. exact Ht.
    + left.
      destruct (reset_password_raise _ _ _ _ _ _ _ H)
        as [-> | [reset_token [_ [_ [_ ->]]]]]; reflexivity.
Qed.

Lemma auth_endpoints_keep_accounts_witness :
  (users (with_auth_token (refresh_record "t4" "u4" "R4" 100%Z)
            (with_user
               (registered_user Sample.lib Sample.rnd
                  (mkUserRegister "dave@example.com" "dave-secret"
                                  "dave-secret" "Dave" "D" "patient"))
               Sample.db))
   = users Sample.db
   \/ (users (with_auth_token (refresh_record "t4" "u4" "R4" 100%Z)
                (with_user
                   (registered_user Sample.lib Sample.rnd
                      (mkUserRegister "dave@example.com" "dave-secret"
                                      "dave-secret" "Dave" "D" "patient"))
                   Sample.db))
       = users Sample.db
         ++ [registered_user Sample.lib Sample.rnd
               (mkUserRegister "dave@example.com" "dave-secret"
                               "dave-secret" "Dave" "D" "patient")]
       /\ forall u, In u (users Sample.db) ->
                    User.email u <> "dave@example.com"))
  /\ users (without_sessions_of "u1" Sample.db) = users Sample.db.
Proof.
  split.
  - apply (proj1 (auth_endpoints_keep_accounts Sample.lib Sample.production
                    100%Z Sample.rnd Sample.db)
             (mkUserRegister "dave@example.com" "dave-secret" "dave-secret"
                             "Dave" "D" "patient")
             (Ok (register_response Sample.lib Sample.production 100%Z
                    Sample.rnd
                    (mkUserRegister "dave@example.com" "dave-secret"
                                    "dave-secret" "Dave" "D" "patient")))).
    reflexivity.
  - apply (proj1 (proj2 (proj2
             (auth_endpoints_keep_accounts Sample.lib Sample.production
                100%Z Sample.rnd Sample.db)))
             "jwt:u1" (Some "R2") (Ok "Logout successful")).
    reflexivity.
Defined.

(** After a registration that went through, a second registration with
    the same email is refused with 400 and writes nothing: no second user
    row for that email. *)
Theorem register_twice_is_refused
    (lib : Library) (environ : Environ) (t1 t2 : Z) (rnd1 rnd2 : Entropy)
    (first second : UserRegister) (db : Tables) (r : AuthResponse)
    (db1 : Tables) :
  get_db (register_user lib environ t1 rnd1 first) db = (Ok r, db1) ->
  reg_email second = reg_email first ->
  get_db (register_user lib environ t2 rnd2 second) db1
  = (Raise (HTTPException 400 "Email address already registered"), db1).
Proof.
  intros H E.
  destruct (register_user_cases lib environ _ _ _ _ _ _ H)
    as [[_ [e He]] | [[_ [He _]] | [-> [_ [C _]]]]]; try discriminate He.
  apply (register_user_duplicate_email lib environ t2 rnd2 second _
           (registered_user lib rnd1 first) C).
  - simpl. apply in_or_app. right. left. reflexivity.
  - simpl. congruence.
Qed.

Lemma register_twice_is_refused_witness :
  let dave :=
    mkUserRegister "dave@example.com" "dave-secret" "dave-secret"
                   "Dave" "D" "patient" in
  let db1 :=
    with_auth_token (refresh_record "t4" "u4" "R4" 100%Z)
      (with_user (registered_user Sample.lib Sample.rnd dave) Sample.db) in
  get_db (register_user Sample.lib Sample.production 200%Z
            (mkEntropy "s" "u5" "t5" "R5")
            (mkUserRegister "dave@example.com" "another-secret"
                            "another-secret" "David" "D" "therapist")) db1
  = (Raise (HTTPException 400 "Email address already registered"), db1).
Proof.
  apply (register_twice_is_refused Sample.lib Sample.production 100%Z 200%Z
           Sample.rnd (mkEntropy "s" "u5" "t5" "R5")
           (mkUserRegister "dave@example.com" "dave-secret" "dave-secret"
                           "Dave" "D" "patient")
           (mkUserRegister "dave@example.com" "another-secret"
                           "another-secret" "David" "D" "therapist")
           Sample.db
           (register_response Sample.lib Sample.production 100%Z Sample.rnd
              (mkUserRegister "dave@example.com" "dave-secret" "dave-secret"
                              "Dave" "D" "patient"))).
  - reflexivity.
  - reflexivity.
Defined.

(** A registration that goes through is followed by a successful login
    with the same credentials, whenever bcrypt verifies what it hashed. *)
Theorem registered_user_can_log_in
    (lib : Library) (environ : Environ) (t1 t2 : Z) (rnd1 rnd2 : Entropy)
    (user_data : UserRegister) (db : Tables) (r : AuthResponse)
    (db1 : Tables) :
  get_db (register_user lib environ t1 rnd1 user_data) db = (Ok r, db1) ->
  bcrypt_identify (bcrypt_hash lib (salt rnd1) (reg_password user_data))
    = true ->
  bcrypt_verify lib (reg_password user_data)
                (bcrypt_hash lib (salt rnd1) (reg_password user_data))
    = Ok true ->
  (forall a, In a (auth_tokens db1) -> AuthToken.id a <> uuid4_first rnd2) ->
  (forall a, In a (auth_tokens db1) ->
             AuthToken.token a <> token_urlsafe rnd2) ->
  exists response db2,
    get_db (login_user lib environ t2 rnd2
              (mkUserLogin (reg_email user_data) (reg_password user_data)))
           db1
      = (Ok response, db2)
    /\ resp_email (auth_user (fst response)) = reg_email user_data
    /\ resp_id (auth_user (fst response)) = resp_id (auth_user r).
Proof.
  intros H Hid Hv Ftid Ftok.
  destruct (register_user_cases lib environ _ _ _ _ _ _ H)
    as [[_ [e He]] | [[_ [He _]] | [-> [Hr [C _]]]]]; try discriminate He.
  inversion Hr; subst r.
  eexists. eexists. split.
  - apply (login_user_succeeds lib environ t2 rnd2
             (mkUserLogin (reg_email user_data) (reg_password user_data))
             _ (registered_user lib rnd1 user_data)); auto.
    + simpl. apply in_or_app. right. left. reflexivity.
    + simpl. unfold verify_password, pwd_context_verify, hash_password,
        pwd_context_hash. rewrite Hid. exact Hv.
    + reflexivity.
  - split; reflexivity.
Qed.

Lemma registered_user_can_log_in_witness :
  let dave :=
    mkUserRegister "dave@example.com" "dave-secret" "dave-secret"
                   "Dave" "D" "patient" in
  let db1 :=
    with_auth_token (refresh_record "t4" "u4" "R4" 100%Z)
      (with_user (registered_user Sample.lib Sample.rnd dave) Sample.db) in
  exists response db2,
    get_db (login_user Sample.lib Sample.production 200%Z
              (mkEntropy "s" "t5" "t6" "R5")
              (mkUserLogin "dave@example.com" "dave-secret")) db1
      = (Ok response, db2)
    /\ resp_email (auth_user (fst response)) = "dave@example.com"
    /\ resp_id (auth_user (fst response)) = "u4".
Proof.
  apply (registered_user_can_log_in Sample.lib Sample.production 100%Z 200%Z
           Sample.rnd (mkEntropy "s" "t5" "t6" "R5")
           (mkUserRegister "dave@example.com" "dave-secret" "dave-secret"
                           "Dave" "D" "patient")
           Sample.db
           (register_response Sample.lib Sample.production 100%Z Sample.rnd
              (mkUserRegister "dave@example.com" "dave-secret" "dave-secret"
                              "Dave" "D" "patient"))).
  - reflexivity.
  - reflexivity.
  - reflexivity.
  - simpl. intros a [<-|[<-|[<-|[<-|[]]]]]; discriminate.
  - simpl. intros a [<-|[<-|[<-|[<-|[]]]]]; discriminate.
Defined.

(** The refresh token a login hands out in its cookie is good for thirty
    days, the last second included: until then [/refresh] answers with an
    access token for the user who logged in and writes nothing; after that
    it answers 401 "Refresh token expired" and deletes the row. *)
Theorem login_cookie_refreshes_for_thirty_days
    (lib : Library) (environ : Environ) (utcnow : Z) (rnd : Entropy)
    (user_credentials : UserLogin) (db : Tables)
    (response : AuthResponse * Cookie) (db1 : Tables) :
  get_db (login_user lib environ utcnow rnd user_credentials) db
    = (Ok response, db1) ->
  token_urlsafe rnd <> "" ->
  cookie_value (snd response) = token_urlsafe rnd
  /\ max_age (snd response) = (30 * 24 * 60 * 60)%Z
  /\ exists user session,
       In user (users db)
       /\ User.email user = login_email user_credentials
       /\ In session (auth_tokens db1)
       /\ AuthToken.token session = cookie_value (snd response)
       /\ (forall later,
             (later <= utcnow + max_age (snd response))%Z ->
             get_db (refresh_access_token lib environ later
                       (Some (cookie_value (snd response)))) db1
             = (Ok (mkRefreshTokenResponse
                      (create_access_token lib environ later
                         (mkClaims (Some (User.id user)) None) None)
                      "Token refreshed successfully"),
                db1))
       /\ (forall later,
             (utcnow + max_age (snd response) < later)%Z ->
             get_db (refresh_access_token lib environ later
                       (Some (cookie_value (snd response)))) db1
             = (Raise (HTTPException 401 "Refresh token expired"),
                without_auth_token session db1)).
Proof.
  intros H Ht.
  destruct (login_user_ok _ _ _ _ _ _ _ _ H)
    as [user [F [_ [-> [C [validated [Hval ->]]]]]]].
  destruct (model_validate_fields _ _ Hval) as [Hrid _].
  destruct (filter_singleton _ _ _ F) as [Hin E]. apply String.eqb_eq in E.
  split; [reflexivity|]. split; [reflexivity|].
  set (session := refresh_record (uuid4_first rnd) (User.id user)
                                 (token_urlsafe rnd) utcnow).
  assert (Hs : In session (auth_tokens (with_auth_token session db))).
  { simpl. apply in_or_app. right. left. reflexivity. }
  exists user, session.
  split; [exact Hin|]. split; [exact E|]. split; [exact Hs|].
  split; [reflexivity|]. split.
  - intros later Hl.
    apply (refresh_access_token_succeeds lib environ later _ session user);
      auto.
    apply Z.ltb_ge. unfold session, refresh_record, timedelta_minutes.
    simpl AuthToken.expires_at. simpl in Hl. lia.
  - intros later Hl.
    rewrite (refresh_access_token_rejects lib environ later _ _
               (HTTPException 401 "Refresh token expired")
               (mkSession (without_auth_token session
                                              (with_auth_token session db))
                          (without_auth_token session
                                              (with_auth_token session db))));
      [reflexivity|].
    apply (get_refresh_token_user_expired later (token_urlsafe rnd)
             (mkSession (with_auth_token session db)
                        (with_auth_token session db)) session Ht).
    + apply (auth_token_by_token _ session C Hs).
    + apply Z.ltb_lt. unfold session, refresh_record, timedelta_minutes.
      simpl AuthToken.expires_at. simpl in Hl. lia.
    + exact C.
Qed.

Lemma login_cookie_refreshes_for_thirty_days_witness :
  let db1 :=
    with_auth_token (refresh_record "u4" "u1" "R4" 100%Z) Sample.db in
  let response :=
    login_response Sample.lib Sample.production 100%Z Sample.rnd
                   Sample.alice_response in
  cookie_value (snd response) = "R4"
  /\ max_age (snd response) = (30 * 24 * 60 * 60)%Z
  /\ exists user session,
       In user (users Sample.db)
       /\ User.email user = "alice@example.com"
       /\ In session (auth_tokens db1)
       /\ AuthToken.token session = cookie_value (snd response)
       /\ (forall later,
             (later <= 100 + max_age (snd response))%Z ->
             get_db (refresh_access_token Sample.lib Sample.production later
                       (Some (cookie_value (snd response)))) db1
             = (Ok (mkRefreshTokenResponse
                      (create_access_token Sample.lib Sample.production later
                         (mkClaims (Some (User.id user)) None) None)
                      "Token refreshed successfully"),
                db1))
       /\ (forall later,
             (100 + max_age (snd response) < later)%Z ->
             get_db (refresh_access_token Sample.lib Sample.production later
                       (Some (cookie_value (snd response)))) db1
             = (Raise (HTTPException 401 "Refresh token expired"),
                without_auth_token session db1)).
Proof.
  apply (login_cookie_refreshes_for_thirty_days Sample.lib Sample.production
           100%Z Sample.rnd (mkUserLogin "alice@example.com" "alice-secret")
           Sample.db).
  - reflexivity.
  - discriminate.
Defined.

Lemma same_id_same_user (t : Tables) (u u' : User.t) :
  constraints_ok t = true -> In u (users t) -> In u' (users t) ->
  User.id u' = User.id u -> u' = u.
Proof.
  intros C Hu Hu' E.
  assert (H : In u' (filter (fun x => User.id x =? User.id u) (users t))).
  { apply filter_In. split; [exact Hu'|]. apply String.eqb_eq, E. }
  rewrite (user_by_id _ _ C Hu) in H. destruct H as [H|[]]. congruence.
Qed.

Lemma same_email_same_user (t : Tables) (u u' : User.t) :
  constraints_ok t = true -> In u (users t) -> In u' (users t) ->
  User.email u' = User.email u -> u' = u.
Proof.
  intros C Hu Hu' E.
  assert (H : In u' (filter (fun x => User.email x =? User.email u)
                            (users t))).
  { apply filter_In. split; [exact Hu'|]. apply String.eqb_eq, E. }
  rewrite (user_by_email _ _ C Hu) in H. destruct H as [H|[]]. congruence.
Qed.

Lemma same_token_same_reset_token (t : Tables) (r r' : PasswordResetToken.t) :
  constraints_ok t = true ->
  In r (password_reset_tokens t) -> In r' (password_reset_tokens t) ->
  PasswordResetToken.token r' = PasswordResetToken.token r -> r' = r.
Proof.
  intros C Hr Hr' E. apply constraints_ok_iff in C.
  destruct C as (_ & _ & _ & _ & _ & _ & D & _).
  assert (H : In r' (filter (fun x => PasswordResetToken.token x
                                      =? PasswordResetToken.token r)
                            (password_reset_tokens t))).
  { apply filter_In. split; [exact Hr'|]. apply String.eqb_eq, E. }
  rewrite (filter_key_unique String.eqb string_eqb_spec
             PasswordResetToken.token _ _ r D Hr eq_refl) in H.
  destruct H as [H|[]]. congruence.
Qed.

Lemma no_unused_reset_token (t : Tables) (token : string) :
  (forall r, In r (password_reset_tokens t) ->
             PasswordResetToken.token r <> token) ->
  filter (unused_with_token token) (password_reset_tokens t) = [].
Proof.
  intros N. unfold unused_with_token.
  rewrite (filter_key_and String.eqb PasswordResetToken.token).
  rewrite (filter_key_none String.eqb string_eqb_spec
             PasswordResetToken.token _ _ N). reflexivity.
Qed.

Lemma verify_reset_token_unknown utcnow token db :
  constraints_ok db = true ->
  filter (unused_with_token token) (password_reset_tokens db) = [] ->
  get_db (verify_reset_token utcnow token) db
  = (Ok (mkTokenVerificationResponse false "Token is invalid or expired"), db).
Proof.
  intros C F.
  unfold get_db, verify_reset_token, bind, execute_select, commit, ret.
  cbn. rewrite F. cbn. rewrite C. reflexivity.
Qed.

(** The row forgot-password inserts. *)
Lemma after_forgot_row utcnow rnd user db :
  In (PasswordResetToken.mk (password_reset_tokens_id_seq db) (User.id user)
        (token_urlsafe rnd) (utcnow + 3600)%Z false)
     (password_reset_tokens (after_forgot utcnow rnd user db)).
Proof.
  unfold after_forgot, insert_PasswordResetToken, without_reset_tokens_of.
  simpl. apply in_or_app. right. left.
  unfold timedelta_minutes. reflexivity.
Qed.

Lemma forgot_password_known utcnow rnd environ db user r db1 :
  constraints_ok db = true ->
  In user (users db) ->
  get_db (forgot_password environ utcnow rnd (User.email user)) db
    = (Ok r, db1) ->
  db1 = after_forgot utcnow rnd user db /\ constraints_ok db1 = true.
Proof.
  intros C Hin H.
  destruct (forgot_password_ok environ _ _ _ _ _ _ H)
    as [[F _] | [user0 [F [-> [C1 _]]]]];
    rewrite (user_by_email _ _ C Hin) in F; [discriminate F|].
  inversion F; subst user0. auto.
Qed.

(** The reset token forgot-password issues is good for one hour, the last
    second included: until then verify-reset-token answers "valid" and
    reset-password sets the owner's password; after that the first answers
    "invalid" and the second 400 "Reset token has expired". *)
Theorem reset_token_is_good_for_an_hour
    (lib : Library) (environ : Environ) (utcnow : Z) (rnd : Entropy)
    (db : Tables) (user : User.t) :
  wf db ->
  In user (users db) ->
  (forall r, In r (password_reset_tokens db) ->
             PasswordResetToken.user_id r <> User.id user ->
             PasswordResetToken.token r <> token_urlsafe rnd) ->
  exists db1 issued,
    get_db (forgot_password environ utcnow rnd (User.email user)) db
      = (Ok (forgot_response environ rnd), db1)
    /\ In issued (password_reset_tokens db1)
    /\ PasswordResetToken.token issued = token_urlsafe rnd
    /\ (forall later,
          (later <= utcnow + 3600)%Z ->
          get_db (verify_reset_token later (token_urlsafe rnd)) db1
            = (Ok (mkTokenVerificationResponse true "Token is valid"), db1)
          /\ forall rnd2 reset_data,
               reset_token_ reset_data = token_urlsafe rnd ->
               exists db2,
                 get_db (reset_password lib later rnd2 reset_data) db1
                   = (Ok reset_ok_message, db2)
                 /\ In (User.set_password user
                          (hash_password lib (salt rnd2)
                                         (reset_password_ reset_data)))
                       (users db2))
    /\ (forall later,
          (utcnow + 3600 < later)%Z ->
          get_db (verify_reset_token later (token_urlsafe rnd)) db1
            = (Ok (mkTokenVerificationResponse false
                     "Token is invalid or expired"), db1)
          /\ forall rnd2 reset_data,
               reset_token_ reset_data = token_urlsafe rnd ->
               get_db (reset_password lib later rnd2 reset_data) db1
               = (Raise (HTTPException 400 "Reset token has expired"),
                  without_reset_token issued db1)).
Proof.
  intros W Hin Fresh.
  pose proof (forgot_password_succeeds environ utcnow rnd db user W Hin Fresh)
    as F.
  destruct (forgot_password_known _ _ _ _ _ _ _ (proj1 W) Hin F) as [_ C1].
  set (db1 := after_forgot utcnow rnd user db) in *.
  set (issued := PasswordResetToken.mk (password_reset_tokens_id_seq db)
                   (User.id user) (token_urlsafe rnd) (utcnow + 3600)%Z false).
  assert (Hi : In issued (password_reset_tokens db1))
    by apply after_forgot_row.
  exists db1, issued.
  split; [exact F|]. split; [exact Hi|]. split; [reflexivity|]. split.
  - intros later Hl.
    assert (E : (PasswordResetToken.expires_at issued <? later)%Z = false)
      by (apply Z.ltb_ge; simpl; lia).
    split.
    + apply (verify_reset_token_valid later db1 issued C1 Hi eq_refl E).
    + intros rnd2 reset_data Ht.
      destruct (reset_password_succeeds lib later rnd2 reset_data db1 issued
                  C1 Hi (eq_sym Ht) eq_refl E) as [owner [Ho [Hid R]]].
      assert (owner = user).
      { apply (same_id_same_user db); auto. apply W. }
      subst owner. eexists. split; [exact R|].
      apply after_reset_user_kept. exact Hin.
  - intros later Hl.
    assert (E : (PasswordResetToken.expires_at issued <? later)%Z = true)
      by (apply Z.ltb_lt; simpl; lia).
    split.
    + apply (verify_reset_token_expired later db1 issued C1 Hi eq_refl E).
    + intros rnd2 reset_data Ht.
      apply reset_password_expired_token; auto.
Qed.

Lemma reset_token_is_good_for_an_hour_witness :
  exists db1 issued,
    get_db (forgot_password Sample.production 100%Z Sample.rnd
              "alice@example.com") Sample.db
      = (Ok (forgot_response Sample.production Sample.rnd), db1)
    /\ In issued (password_reset_tokens db1)
    /\ PasswordResetToken.token issued = "R4"
    /\ (forall later,
          (later <= 100 + 3600)%Z ->
          get_db (verify_reset_token later "R4") db1
            = (Ok (mkTokenVerificationResponse true "Token is valid"), db1)
          /\ forall rnd2 reset_data,
               reset_token_ reset_data = "R4" ->
               exists db2,
                 get_db (reset_password Sample.lib later rnd2 reset_data) db1
                   = (Ok reset_ok_message, db2)
                 /\ In (User.set_password Sample.alice
                          (hash_password Sample.lib (salt rnd2)
                                         (reset_password_ reset_data)))
                       (users db2))
    /\ (forall later,
          (100 + 3600 < later)%Z ->
          get_db (verify_reset_token later "R4") db1
            = (Ok (mkTokenVerificationResponse false
                     "Token is invalid or expired"), db1)
          /\ forall rnd2 reset_data,
               reset_token_ reset_data = "R4" ->
               get_db (reset_password Sample.lib later rnd2 reset_data) db1
               = (Raise (HTTPException 400 "Reset token has expired"),
                  without_reset_token issued db1)).
Proof.
  apply (reset_token_is_good_for_an_hour Sample.lib Sample.production 100%Z
           Sample.rnd Sample.db Sample.alice).
  - split; reflexivity.
  - left. reflexivity.
  - simpl. intros r [<-|[<-|[<-|[]]]] _; discriminate.
Defined.

(** A second forgot-password request for the same user retires the token
    of the first: with the older token reset-password answers 400 and
    verify-reset-token "invalid", at any time, and nothing is written. *)
Theorem newer_reset_token_retires_older
    (lib : Library) (environ : Environ) (t1 t2 : Z) (rnd1 rnd2 : Entropy)
    (db : Tables) (user : User.t)
    (r1 r2 : ForgotPasswordResponse) (db1 db2 : Tables) :
  constraints_ok db = true ->
  In user (users db) ->
  get_db (forgot_password environ t1 rnd1 (User.email user)) db
    = (Ok r1, db1) ->
  get_db (forgot_password environ t2 rnd2 (User.email user)) db1
    = (Ok r2, db2) ->
  token_urlsafe rnd1 <> token_urlsafe rnd2 ->
  forall t3 rnd3 reset_data,
    reset_token_ reset_data = token_urlsafe rnd1 ->
    get_db (reset_password lib t3 rnd3 reset_data) db2
      = (Raise (HTTPException 400 "Invalid or expired reset token"), db2)
    /\ get_db (verify_reset_token t3 (token_urlsafe rnd1)) db2
       = (Ok (mkTokenVerificationResponse false "Token is invalid or expired"),
          db2).
Proof.
  intros C Hin H1 H2 Hne t3 rnd3 reset_data Ht.
  destruct (forgot_password_known _ _ _ _ _ _ _ C Hin H1) as [-> C1].
  assert (Hin1 : In user (users (after_forgot t1 rnd1 user db))) by exact Hin.
  destruct (forgot_password_known _ _ _ _ _ _ _ C1 Hin1 H2) as [-> C2].
  set (db1 := after_forgot t1 rnd1 user db) in *.
  assert (N : forall r,
            In r (password_reset_tokens (after_forgot t2 rnd2 user db1)) ->
            PasswordResetToken.token r <> token_urlsafe rnd1).
  { intros r Hr. unfold after_forgot, insert_PasswordResetToken,
      without_reset_tokens_of in Hr. simpl in Hr.
    apply in_app_or in Hr. destruct Hr as [Hr | [<- | []]].
    - apply filter_In in Hr. destruct Hr as [Hr Hu].
      apply negb_true_iff, String.eqb_neq in Hu. intros E.
      pose proof (after_forgot_row t1 rnd1 user db) as Hrow.
      pose proof (same_token_same_reset_token db1 _ r C1 Hrow Hr E) as ->.
      simpl in Hu. congruence.
    - simpl. congruence. }
  pose proof (no_unused_reset_token _ _ N) as F.
  split.
  - apply reset_password_unknown_token. rewrite Ht. exact F.
  - apply verify_reset_token_unknown; assumption.
Qed.

Lemma newer_reset_token_retires_older_witness :
  let db1 := after_forgot 100%Z Sample.rnd Sample.alice Sample.db in
  let db2 :=
    after_forgot 200%Z (mkEntropy "s" "u5" "t5" "R5") Sample.alice db1 in
  get_db (reset_password Sample.lib 300%Z Sample.rnd
            (mkResetPassword "R4" "new-secret" "new-secret")) db2
    = (Raise (HTTPException 400 "Invalid or expired reset token"), db2)
  /\ get_db (verify_reset_token 300%Z "R4") db2
     = (Ok (mkTokenVerificationResponse false "Token is invalid or expired"),
        db2).
Proof.
  intros db1 db2.
  refine (newer_reset_token_retires_older Sample.lib Sample.production
           100%Z 200%Z Sample.rnd (mkEntropy "s" "u5" "t5" "R5")
           Sample.db Sample.alice
           (forgot_response Sample.production Sample.rnd)
           (forgot_response Sample.production
                            (mkEntropy "s" "u5" "t5" "R5"))
           (after_forgot 100%Z Sample.rnd Sample.alice Sample.db)
           (after_forgot 200%Z (mkEntropy "s" "u5" "t5" "R5") Sample.alice
              (after_forgot 100%Z Sample.rnd Sample.alice Sample.db))
           _ _ _ _ _ 300%Z Sample.rnd
           (mkResetPassword "R4" "new-secret" "new-secret") _).
  - reflexivity.
  - left. reflexivity.
  - reflexivity.
  - reflexivity.
  - discriminate.
  - reflexivity.
Defined.

(** On a database that satisfies the schema, verify-reset-token never
    raises, and it answers "valid" exactly for the tokens reset-password
    would accept at that moment. *)
Theorem verify_agrees_with_reset
    (lib : Library) (utcnow : Z) (rnd : Entropy) (reset_data : ResetPassword)
    (db : Tables) :
  constraints_ok db = true ->
  exists answer,
    get_db (verify_reset_token utcnow (reset_token_ reset_data)) db
      = (Ok answer, db)
    /\ (valid answer = true <->
        exists db',
          get_db (reset_password lib utcnow rnd reset_data) db
          = (Ok reset_ok_message, db')).
Proof.
  intros C.
  pose proof C as C0. apply constraints_ok_iff in C0.
  destruct C0 as (_ & _ & _ & _ & _ & _ & D & _).
  destruct (filter_key_cases String.eqb string_eqb_spec
              PasswordResetToken.token (reset_token_ reset_data) _ D)
    as [[_ N] | [x [_ [Hx Ht]]]].
  - pose proof (no_unused_reset_token _ _ N) as F.
    eexists. split; [apply verify_reset_token_unknown; assumption|].
    simpl. split; [discriminate|]. intros [db' R].
    rewrite (reset_password_unknown_token lib utcnow rnd reset_data db F) in R.
    discriminate R.
  - destruct (PasswordResetToken.used x) eqn:Hu.
    + assert (F : filter (unused_with_token (reset_token_ reset_data))
                         (password_reset_tokens db) = []).
      { rewrite <- Ht, (reset_token_by_token _ _ C Hx), Hu. reflexivity. }
      eexists. split; [apply verify_reset_token_unknown; assumption|].
      simpl. split; [discriminate|]. intros [db' R].
      rewrite (reset_password_unknown_token lib utcnow rnd reset_data db F)
        in R.
      discriminate R.
    + destruct (PasswordResetToken.expires_at x <? utcnow)%Z eqn:E.
      * eexists. rewrite <- Ht.
        split; [apply verify_reset_token_expired; assumption|].
        simpl. split; [discriminate|]. intros [db' R].
        rewrite (reset_password_expired_token lib utcnow rnd reset_data db x
                   C Hx Ht Hu E) in R.
        discriminate R.
      * eexists. rewrite <- Ht at 1.
        split; [apply verify_reset_token_valid; assumption|].
        simpl. split; [|reflexivity]. intros _.
        destruct (reset_password_succeeds lib utcnow rnd reset_data db x
                    C Hx Ht Hu E) as [user [_ [_ R]]].
        eexists. exact R.
Qed.

Lemma verify_agrees_with_reset_witness :
  exists answer,
    get_db (verify_reset_token 100%Z "P1") Sample.db = (Ok answer, Sample.db)
    /\ (valid answer = true <->
        exists db',
          get_db (reset_password Sample.lib 100%Z Sample.rnd
                    (mkResetPassword "P1" "new-secret" "new-secret"))
                 Sample.db
          = (Ok reset_ok_message, db')).
Proof.
  apply (verify_agrees_with_reset Sample.lib 100%Z Sample.rnd
           (mkResetPassword "P1" "new-secret" "new-secret") Sample.db).
  reflexivity.
Defined.

(** After a successful reset the owner's new password is the one login
    accepts, whenever bcrypt verifies what it hashed: an owner whose name
    columns are set is logged in; for an owner with a NULL name the
    refresh token is stored and the request then fails on the response
    model. *)
Theorem new_password_logs_in_after_reset
    (lib : Library) (environ : Environ) (utcnow : Z) (rnd : Entropy)
    (reset_data : ResetPassword) (db : Tables)
    (reset_token : PasswordResetToken.t) :
  constraints_ok db = true ->
  In reset_token (password_reset_tokens db) ->
  PasswordResetToken.token reset_token = reset_token_ reset_data ->
  PasswordResetToken.used reset_token = false ->
  (PasswordResetToken.expires_at reset_token <? utcnow)%Z = false ->
  bcrypt_identify (bcrypt_hash lib (salt rnd) (reset_password_ reset_data))
    = true ->
  bcrypt_verify lib (reset_password_ reset_data)
                (bcrypt_hash lib (salt rnd) (reset_password_ reset_data))
    = Ok true ->
  exists user db1,
    In user (users db)
    /\ User.id user = PasswordResetToken.user_id reset_token
    /\ get_db (reset_password lib utcnow rnd reset_data) db
       = (Ok reset_ok_message, db1)
    /\ forall later rnd2,
         (forall a, In a (auth_tokens db1) ->
                    AuthToken.id a <> uuid4_first rnd2) ->
         (forall a, In a (auth_tokens db1) ->
                    AuthToken.token a <> token_urlsafe rnd2) ->
         (User.first_name user <> None -> User.last_name user <> None ->
          exists response db2,
            get_db (login_user lib environ later rnd2
                      (mkUserLogin (User.email user)
                                   (reset_password_ reset_data))) db1
              = (Ok response, db2)
            /\ resp_id (auth_user (fst response)) = User.id user)
         /\ (User.first_name user = None \/ User.last_name user = None ->
             get_db (login_user lib environ later rnd2
                       (mkUserLogin (User.email user)
                                    (reset_password_ reset_data))) db1
             = (Raise ValidationError,
                with_auth_token
                  (refresh_record (uuid4_first rnd2) (User.id user)
                                  (token_urlsafe rnd2) later) db1)).
Proof.
  intros C Hin Ht Hu E Hid Hv.
  destruct (reset_password_succeeds lib utcnow rnd reset_data db reset_token
              C Hin Ht Hu E) as [user [Huser [Hi R]]].
  set (h := hash_password lib (salt rnd) (reset_password_ reset_data)) in *.
  exists user, (after_reset h user reset_token db).
  split; [exact Huser|]. split; [exact Hi|]. split; [exact R|].
  intros later rnd2 Fid Ftok.
  assert (V : verify_password lib (reset_password_ reset_data)
                (User.password (User.set_password user h)) = Ok true).
  { simpl. unfold verify_password, pwd_context_verify, h, hash_password,
      pwd_context_hash. rewrite Hid. exact Hv. }
  split.
  - intros Hf Hl.
    destruct (User.first_name user) as [first_name|] eqn:Ef; [|congruence].
    destruct (User.last_name user) as [last_name|] eqn:El; [|congruence].
    eexists. eexists. split.
    + apply (login_user_succeeds lib environ later rnd2
               (mkUserLogin (User.email user) (reset_password_ reset_data))
               _ (User.set_password user h)); auto.
      * apply after_reset_ok, C.
      * apply after_reset_user_kept, Huser.
      * unfold UserResponse_model_validate. simpl. rewrite Ef, El.
        reflexivity.
    + reflexivity.
  - intros Hnull.
    apply (login_user_null_name lib environ later rnd2
             (mkUserLogin (User.email user) (reset_password_ reset_data))
             _ (User.set_password user h)); auto.
    + apply after_reset_ok, C.
    + apply after_reset_user_kept, Huser.
Qed.

Lemma new_password_logs_in_after_reset_witness :
  exists user db1,
    In user (users Sample.db)
    /\ User.id user = "u1"
    /\ get_db (reset_password Sample.lib 100%Z Sample.rnd
                 (mkResetPassword "P1" "new-secret" "new-secret")) Sample.db
       = (Ok reset_ok_message, db1)
    /\ forall later rnd2,
         (forall a, In a (auth_tokens db1) ->
                    AuthToken.id a <> uuid4_first rnd2) ->
         (forall a, In a (auth_tokens db1) ->
                    AuthToken.token a <> token_urlsafe rnd2) ->
         (User.first_name user <> None -> User.last_name user <> None ->
          exists response db2,
            get_db (login_user Sample.lib Sample.production later rnd2
                      (mkUserLogin (User.email user) "new-secret")) db1
              = (Ok response, db2)
            /\ resp_id (auth_user (fst response)) = User.id user)
         /\ (User.first_name user = None \/ User.last_name user = None ->
             get_db (login_user Sample.lib Sample.production later rnd2
                       (mkUserLogin (User.email user) "new-secret")) db1
             = (Raise ValidationError,
                with_auth_token
                  (refresh_record (uuid4_first rnd2) (User.id user)
                                  (token_urlsafe rnd2) later) db1)).
Proof.
  apply (new_password_logs_in_after_reset Sample.lib Sample.production 100%Z
           Sample.rnd (mkResetPassword "P1" "new-secret" "new-secret")
           Sample.db Sample.alice_reset); try reflexivity.
  left. reflexivity.
Defined.

(** The access token a login answers with authenticates later requests
    as the user who logged in, as long as the library decodes it to its
    subject. *)
Theorem login_access_token_authenticates
    (lib : Library) (environ : Environ) (utcnow : Z) (rnd : Entropy)
    (user_credentials : UserLogin) (db : Tables)
    (response : AuthResponse * Cookie) (db1 : Tables)
    (later : Z) (payload : Claims) :
  get_db (login_user lib environ utcnow rnd user_credentials) db
    = (Ok response, db1) ->
  jwt_decode lib (auth_access_token (fst response)) (SECRET_KEY environ)
             ALGORITHM later = Ok payload ->
  sub payload = Some (resp_id (auth_user (fst response))) ->
  exists user,
    In user (users db1)
    /\ User.email user = login_email user_credentials
    /\ get_current_user lib environ later (auth_access_token (fst response))
         (mkSession db1 db1)
       = (Ok user, mkSession db1 db1).
Proof.
  intros H D S.
  destruct (login_user_ok _ _ _ _ _ _ _ _ H)
    as [user [F [_ [-> [C [validated [Hval ->]]]]]]].
  destruct (model_validate_fields _ _ Hval) as [Hrid _].
  destruct (filter_singleton _ _ _ F) as [Hin E]. apply String.eqb_eq in E.
  exists user. split; [exact Hin|]. split; [exact E|].
  simpl in S. rewrite Hrid in S.
  apply (get_current_user_succeeds lib environ later _ _ payload user);
    auto.
Qed.

Lemma login_access_token_authenticates_witness :
  exists user,
    In user (users (with_auth_token (refresh_record "u4" "u1" "R4" 100%Z)
                                    Sample.db))
    /\ User.email user = "alice@example.com"
    /\ get_current_user Sample.lib Sample.production 5000%Z "jwt:u1"
         (mkSession (with_auth_token (refresh_record "u4" "u1" "R4" 100%Z)
                                     Sample.db)
                    (with_auth_token (refresh_record "u4" "u1" "R4" 100%Z)
                                     Sample.db))
       = (Ok user,
          mkSession (with_auth_token (refresh_record "u4" "u1" "R4" 100%Z)
                                     Sample.db)
                    (with_auth_token (refresh_record "u4" "u1" "R4" 100%Z)
                                     Sample.db)).
Proof.
  apply (login_access_token_authenticates Sample.lib Sample.production 100%Z
           Sample.rnd (mkUserLogin "alice@example.com" "alice-secret")
           Sample.db
           (login_response Sample.lib Sample.production 100%Z Sample.rnd
                           Sample.alice_response)
           _ 5000%Z (mkClaims (Some "u1") None)); reflexivity.
Defined.

(** Logout goes through whenever the access token decodes to a user of
    the store and the cookie names an unexpired refresh-token row, whoever
    owns that row; all refresh tokens of the access token's user are then
    gone. *)
Theorem logout_succeeds_with_both_tokens
    (lib : Library) (environ : Environ) (utcnow : Z) (credentials : string)
    (db : Tables) (payload : Claims) (current_user : User.t)
    (presented : AuthToken.t) :
  constraints_ok db = true ->
  jwt_decode lib credentials (SECRET_KEY environ) ALGORITHM utcnow
    = Ok payload ->
  sub payload = Some (User.id current_user) ->
  In current_user (users db) ->
  In presented (auth_tokens db) ->
  AuthToken.token presented <> "" ->
  (AuthToken.expires_at presented <? utcnow)%Z = false ->
  get_db (logout_user lib environ utcnow credentials
            (Some (AuthToken.token presented))) db
  = (Ok "Logout successful",
     without_sessions_of (User.id current_user) db).
Proof.
  intros C D S Hu Ha Ht E.
  destruct (auth_token_owner _ _ C Ha) as [owner [Ho Hid]].
  apply (logout_user_succeeds lib environ utcnow credentials _ db
           current_user owner C).
  - apply (get_current_user_succeeds lib environ utcnow credentials
             (mkSession db db) payload current_user); assumption.
  - apply (get_refresh_token_user_succeeds utcnow (mkSession db db)
             presented owner); assumption.
Qed.

Lemma logout_succeeds_with_both_tokens_witness :
  get_db (logout_user Sample.lib Sample.production 100%Z "jwt:u2" (Some "R1"))
         Sample.db
  = (Ok "Logout successful", without_sessions_of "u2" Sample.db).
Proof.
  apply (logout_succeeds_with_both_tokens Sample.lib Sample.production 100%Z
           "jwt:u2" Sample.db (mkClaims (Some "u2") None) Sample.bob
           Sample.alice_session); try reflexivity.
  - right. left. reflexivity.
  - left. reflexivity.
  - discriminate.
Defined.

(* ================================================================= *)
(** ** The optional dependency *)



(* ================================================================= *)
(** ** Request validation *)

(** The two password validators together: a password shorter than eight
    characters is the only error reported, even when the confirmation
    differs (the confirmation is then not compared); an acceptable password
    with a different confirmation is reported as a mismatch; there is no
    error exactly when the password has eight characters or more and the
    confirmation equals it. *)
Theorem password_fields_validation (password confirm_password : string) :
  (String.length password < 8 ->
   password_fields_errors password confirm_password
   = [("password", "Password must be at least 8 characters long")])
  /\ (8 <= String.length password -> confirm_password <> password ->
      password_fields_errors password confirm_password
      = [("confirm_password", "Passwords do not match")])
  /\ (password_fields_errors password confirm_password = [] <->
      8 <= String.length password /\ confirm_password = password).
Proof.
  unfold password_fields_errors, validate_field, validate_password,
    passwords_match.
  destruct (Nat.ltb (String.length password) 8) eqn:L; simpl.
  - apply Nat.ltb_lt in L. split; [reflexivity|].
    split; [lia|]. split; [discriminate|]. lia.
  - apply Nat.ltb_ge in L.
    destruct (confirm_password =? password) eqn:E; simpl.
    + apply String.eqb_eq in E. split; [lia|]. split; [congruence|].
      split; auto.
    + apply String.eqb_neq in E. split; [lia|]. split; [reflexivity|].
      split; [discriminate|]. intros [_ H]. contradiction.
Qed.

Lemma password_fields_validation_witness :
  password_fields_errors "short" "different"
  = [("password", "Password must be at least 8 characters long")]
  /\ password_fields_errors "long-enough" "different"
     = [("confirm_password", "Passwords do not match")]
  /\ password_fields_errors "long-enough" "long-enough" = [].
Proof.
  split; [|split].
  - apply (proj1 (password_fields_validation "short" "different")).
    simpl. lia.
  - apply (proj1 (proj2 (password_fields_validation "long-enough"
                           "different"))).
    + simpl. lia.
    + discriminate.
  - apply (proj2 (proj2 (password_fields_validation "long-enough"
                           "long-enough"))).
    split; [simpl; lia | reflexivity].
Defined.

(* ================================================================= *)
(** ** Strings *)

Lemma append_assoc (a b c : string) :
  String.append (String.append a b) c = String.append a (String.append b c).
Proof. induction a as [|x a IH]; simpl; [reflexivity|]. rewrite IH. reflexivity. Qed.

Lemma append_empty_r (a : string) : String.append a "" = a.
Proof. induction a as [|x a IH]; simpl; [reflexivity|]. rewrite IH. reflexivity. Qed.

Lemma str_has_char_app c (a b : string) :
  str_has_char c (String.append a b) = str_has_char c a || str_has_char c b.
Proof.
  induction a as [|x a IH]; simpl; [reflexivity|].
  rewrite IH, orb_assoc. reflexivity.
Qed.

Lemma str_split_nonempty c s : str_split c s <> [].
Proof.
  destruct s as [|x s]; simpl; [discriminate|].
  destruct (Ascii.eqb x c); [discriminate|].
  destruct (str_split c s); discriminate.
Qed.

Lemma str_split_no_sep c s :
  str_has_char c s = false -> str_split c s = [s].
Proof.
  induction s as [|x s IH]; simpl; intros H; [reflexivity|].
  apply orb_false_iff in H. destruct H as [Hx Hs].
  rewrite Hx, (IH Hs). reflexivity.
Qed.

Lemma str_split_app_sep c (a b : string) :
  str_has_char c a = false ->
  str_split c (String.append a (String c b)) = a :: str_split c b.
Proof.
  induction a as [|x a IH]; simpl; intros H.
  - rewrite Ascii.eqb_refl. reflexivity.
  - apply orb_false_iff in H. destruct H as [Hx Ha].
    rewrite Hx, (IH Ha). reflexivity.
Qed.

(** The pieces of a split hold no separator, and no character the whole
    did not hold. *)
Lemma str_split_pieces c d s p :
  In p (str_split c s) ->
  str_has_char c p = false
  /\ (str_has_char d s = false -> str_has_char d p = false).
Proof.
  revert p. induction s as [|x s IH]; simpl; intros p Hp.
  - destruct Hp as [<-|[]]. auto.
  - destruct (Ascii.eqb x c) eqn:Ex.
    + destruct Hp as [<-|Hp]; [simpl; auto|].
      destruct (IH p Hp) as [H1 H2]. split; [exact H1|].
      intros H. apply orb_false_iff in H. apply H2, H.
    + destruct (str_split c s) as [|q qs] eqn:Es.
      * destruct Hp as [<-|[]]. simpl. rewrite Ex. simpl. split; auto.
        intros H. apply orb_false_iff in H. rewrite (proj1 H). reflexivity.
      * destruct Hp as [<-|Hp].
        -- destruct (IH q (or_introl eq_refl)) as [H1 H2].
           simpl. rewrite Ex, H1. split; [reflexivity|].
           intros H. apply orb_false_iff in H.
           rewrite (proj1 H), (H2 (proj2 H)). reflexivity.
        -- destruct (IH p (or_intror Hp)) as [H1 H2]. split; [exact H1|].
           intros H. apply orb_false_iff in H. apply H2, H.
Qed.

Lemma str_join_has_char d sep (l : list string) :
  str_has_char d sep = false ->
  (forall p, In p l -> str_has_char d p = false) ->
  str_has_char d (str_join sep l) = false.
Proof.
  intros Hsep. induction l as [|p [|q l] IH]; intros H.
  - reflexivity.
  - simpl. apply H. left. reflexivity.
  - change (str_join sep (p :: q :: l))
      with (String.append p (String.append sep (str_join sep (q :: l)))).
    rewrite !str_has_char_app, Hsep, (H p (or_introl eq_refl)), IH;
      [reflexivity|].
    intros r Hr. apply H. right. exact Hr.
Qed.

(** Splitting what was joined gives the pieces back. *)
Lemma str_split_join c (l : list string) :
  l <> [] ->
  (forall p, In p l -> str_has_char c p = false) ->
  str_split c (str_join (String c "") l) = l.
Proof.
  induction l as [|p [|q l] IH]; intros Hne H.
  - congruence.
  - simpl. apply str_split_no_sep, H. left. reflexivity.
  - change (str_join (String c "") (p :: q :: l))
      with (String.append p
              (String.append (String c "") (str_join (String c "") (q :: l)))).
    change (String.append (String c "") (str_join (String c "") (q :: l)))
      with (String c (str_join (String c "") (q :: l))).
    rewrite str_split_app_sep by (apply H; left; reflexivity).
    rewrite IH; [reflexivity|discriminate|].
    intros r Hr. apply H. right. exact Hr.
Qed.

Lemma prefix_app (p a b : string) :
  String.prefix p a = true -> String.prefix p (String.append a b) = true.
Proof.
  revert a. induction p as [|x p IH]; intros a H.
  { destruct (String.append a b); reflexivity. }
  destruct a as [|y a]; simpl in *; [discriminate|].
  destruct (ascii_dec x y); [apply IH, H | discriminate].
Qed.

Lemma str_contains_prefix (sub s : string) :
  String.prefix sub s = true -> str_contains sub s = true.
Proof. intros H. destruct s; cbn [str_contains]; rewrite H; reflexivity. Qed.

Lemma str_contains_app_l (sub a b : string) :
  str_contains sub a = true -> str_contains sub (String.append a b) = true.
Proof.
  induction a as [|x a IH]; cbn [str_contains String.append].
  - rewrite orb_false_r. intros H. apply str_contains_prefix.
    apply (prefix_app sub "" b H).
  - intros H. apply orb_true_iff in H. destruct H as [H|H].
    + pose proof (prefix_app sub (String x a) b H) as P.
      cbn [String.append] in P. rewrite P. reflexivity.
    + rewrite (IH H). apply orb_true_r.
Qed.

Lemma str_contains_app_r (sub a b : string) :
  str_contains sub b = true -> str_contains sub (String.append a b) = true.
Proof.
  intros H. induction a as [|x a IH]; cbn [str_contains String.append];
    [exact H|].
  rewrite IH. apply orb_true_r.
Qed.

(** A split cuts the string at its first separator. *)
Lemma str_split_decomp c s p ps :
  str_split c s = p :: ps ->
  (ps = [] /\ s = p /\ str_has_char c s = false)
  \/ exists rest,
       s = String.append p (String c rest) /\ str_split c rest = ps.
Proof.
  revert p ps. induction s as [|x s IH]; intros p ps H.
  - simpl in H. inversion H; subst. left. auto.
  - cbn [str_split] in H. destruct (Ascii.eqb x c) eqn:Ex.
    + apply Ascii.eqb_eq in Ex. subst x. inversion H; subst.
      right. exists s. auto.
    + destruct (str_split c s) as [|q qs] eqn:Es.
      * exfalso. apply (str_split_nonempty c s Es).
      * inversion H; subst.
        destruct (IH q ps eq_refl) as [[-> [-> Hs]] | [rest [-> Hr]]].
        -- left. cbn [str_has_char]. rewrite Ex, Hs. auto.
        -- right. exists rest. auto.
Qed.

(** What a piece of a split contains, the whole contains. *)
Lemma str_contains_piece sub c s p :
  In p (str_split c s) -> str_contains sub p = true ->
  str_contains sub s = true.
Proof.
  remember (str_split c s) as l eqn:El. revert s El.
  induction l as [|q qs IH]; intros s El Hp Hc; [destruct Hp|].
  destruct (str_split_decomp c s q qs (eq_sym El))
    as [[-> [-> _]] | [rest [-> Hr]]].
  - destruct Hp as [<-|[]]. exact Hc.
  - destruct Hp as [<-|Hp].
    + apply str_contains_app_l, Hc.
    + apply str_contains_app_r. cbn [str_contains].
      rewrite (IH rest (eq_sym Hr) Hp Hc). apply orb_true_r.
Qed.

Lemma prefix_same_head c (p base t1 t2 : string) :
  str_has_char c p = false ->
  (t1 = "" \/ exists r, t1 = String c r) ->
  (t2 = "" \/ exists r, t2 = String c r) ->
  String.prefix p (String.append base t1)
  = String.prefix p (String.append base t2).
Proof.
  revert base. induction p as [|x p IH]; intros base Hp H1 H2.
  - destruct (String.append base t1), (String.append base t2); reflexivity.
  - cbn [str_has_char] in Hp. apply orb_false_iff in Hp.
    destruct Hp as [Hx Hp].
    destruct base as [|y base]; cbn [String.append].
    + assert (E : forall t, (t = "" \/ exists r, t = String c r) ->
                            String.prefix (String x p) t = false).
      { intros t [-> | [r ->]]; [reflexivity|]. simpl.
        destruct (ascii_dec x c) as [->|]; [|reflexivity].
        rewrite Ascii.eqb_refl in Hx. discriminate Hx. }
      rewrite (E t1 H1), (E t2 H2). reflexivity.
    + simpl. destruct (ascii_dec x y); [|reflexivity].
      apply IH; assumption.
Qed.

Lemma str_drop_has_char c n s :
  str_has_char c s = false -> str_has_char c (str_drop n s) = false.
Proof.
  revert s. induction n as [|n IH]; intros s H; [exact H|].
  destruct s as [|x s]; [reflexivity|]. simpl.
  cbn [str_has_char] in H. apply orb_false_iff in H. apply IH, H.
Qed.

Lemma str_drop_app (p base rest : string) :
  String.prefix p base = true ->
  str_drop (String.length p) (String.append base rest)
  = String.append (str_drop (String.length p) base) rest.
Proof.
  revert base. induction p as [|x p IH]; intros base H; [reflexivity|].
  destruct base as [|y base]; simpl in H; [discriminate H|].
  destruct (ascii_dec x y); [|discriminate H].
  simpl. apply IH, H.
Qed.

(* ================================================================= *)
(** ** The connection string *)

Lemma DATABASE_URL_steps (url : string) :
  url <> "" ->
  DATABASE_URL (Some url) = without_sslmode (rewrite_scheme url).
Proof. destruct url; [congruence|reflexivity]. Qed.

Lemma rewrite_scheme_no_postgres (url : string) :
  String.prefix "postgres://" (rewrite_scheme url) = false
  /\ String.prefix "postgresql://" (rewrite_scheme url) = false.
Proof.
  unfold rewrite_scheme.
  destruct (String.prefix "postgres://" url) eqn:P1.
  - destruct url as [|a url]; [discriminate P1|].
    cbn [str_replace_first]. rewrite P1. split; reflexivity.
  - destruct (String.prefix "postgresql://" url) eqn:P2.
    + destruct url as [|a url]; [discriminate P2|].
      cbn [str_replace_first]. rewrite P2. split; reflexivity.
    + auto.
Qed.

(** The filter keeps the part before the first question mark, so it
    keeps every prefix that has no question mark in it. *)
Lemma without_sslmode_prefix (p url out : string) :
  str_has_char "?" p = false ->
  without_sslmode url = Ok out ->
  String.prefix p out = String.prefix p url.
Proof.
  intros Hp H. unfold without_sslmode in H.
  destruct (str_contains "sslmode=" url); [|congruence].
  destruct (str_split "?" url) as [|base [|query rest]] eqn:Es;
    try congruence.
  destruct (str_split_decomp _ _ _ _ Es) as [[E _] | [r [-> _]]];
    [discriminate E|].
  destruct (filter _ _) as [|x xs] in H; inversion H; subst out.
  - rewrite <- (append_empty_r base) at 1.
    apply (prefix_same_head "?" p base "" (String "?" r)); eauto.
  - apply (prefix_same_head "?" p base); eauto.
Qed.

(** Whatever [DATABASE_URL] holds, the engine is never given a
    connection string that begins with [postgres://] or [postgresql://];
    an unset or empty variable stops the module with [ValueError]. *)
Theorem DATABASE_URL_never_plain_postgres (getenv : option string) :
  (getenv = None \/ getenv = Some "" ->
   DATABASE_URL getenv
   = Raise (ValueError "DATABASE_URL environment variable is not set"))
  /\ (forall url,
        DATABASE_URL getenv = Ok url ->
        String.prefix "postgres://" url = false
        /\ String.prefix "postgresql://" url = false).
Proof.
  split.
  - intros [-> | ->]; reflexivity.
  - intros url H. destruct getenv as [[|a u]|]; try discriminate H.
    rewrite DATABASE_URL_steps in H by discriminate.
    destruct (rewrite_scheme_no_postgres (String a u)) as [P1 P2].
    rewrite (without_sslmode_prefix "postgres://" _ _ eq_refl H).
    rewrite (without_sslmode_prefix "postgresql://" _ _ eq_refl H).
    auto.
Qed.

Lemma DATABASE_URL_never_plain_postgres_witness :
  DATABASE_URL (Some "")
  = Raise (ValueError "DATABASE_URL environment variable is not set")
  /\ String.prefix "postgres://"
       "postgresql+asyncpg://u:p@h:5432/db?a=1" = false
  /\ String.prefix "postgresql://"
       "postgresql+asyncpg://u:p@h:5432/db?a=1" = false.
Proof.
  split.
  - apply (proj1 (DATABASE_URL_never_plain_postgres (Some ""))).
    right. reflexivity.
  - apply (proj2 (DATABASE_URL_never_plain_postgres
                    (Some "postgres://u:p@h:5432/db?sslmode=require&a=1"))).
    reflexivity.
Defined.

Lemma without_sslmode_params (url out : string) :
  without_sslmode url = Ok out ->
  forall p, In p (query_params out) -> String.prefix "sslmode=" p = false.
Proof.
  intros H p Hp. unfold without_sslmode in H.
  destruct (str_contains "sslmode=" url) eqn:Hc.
  - destruct (str_split "?" url) as [|base [|query rest]] eqn:Es.
    + exfalso. apply (str_split_nonempty _ _ Es).
    + inversion H; subst out. unfold query_params in Hp.
      rewrite Es in Hp. destruct Hp.
    + assert (Hb : str_has_char "?" base = false).
      { refine (proj1 (str_split_pieces "?" "?" url base _)).
        rewrite Es. left. reflexivity. }
      assert (Hq : str_has_char "?" query = false).
      { refine (proj1 (str_split_pieces "?" "?" url query _)).
        rewrite Es. right. left. reflexivity. }
      destruct (filter (fun p => negb (String.prefix "sslmode=" p))
                       (str_split "&" query)) as [|x xs] eqn:Ef.
      * inversion H; subst out; clear H. unfold query_params in Hp.
        rewrite (str_split_no_sep _ _ Hb) in Hp. destruct Hp.
      * remember (str_join "&" (x :: xs)) as J eqn:EJ.
        inversion H; subst out; clear H.
        assert (Hin : forall q, In q (x :: xs) ->
                  In q (str_split "&" query)
                  /\ String.prefix "sslmode=" q = false).
        { intros q Hq'. rewrite <- Ef in Hq'. apply filter_In in Hq'.
          destruct Hq' as [H1 H2]. apply negb_true_iff in H2. auto. }
        assert (Hj : str_has_char "?" J = false).
        { rewrite EJ. apply str_join_has_char; [reflexivity|]. intros q Hq'.
          apply (proj2 (str_split_pieces "&" "?" query q
                          (proj1 (Hin q Hq')))).
          exact Hq. }
        unfold query_params in Hp.
        change (String.append "?" J) with (String "?" J) in Hp.
        rewrite (str_split_app_sep _ _ _ Hb) in Hp.
        rewrite (str_split_no_sep _ _ Hj) in Hp.
        rewrite EJ, (str_split_join "&" (x :: xs)) in Hp.
        -- apply (Hin p Hp).
        -- discriminate.
        -- intros q Hq'.
           apply (proj1 (str_split_pieces "&" "&" query q
                           (proj1 (Hin q Hq')))).
  - inversion H; subst out. unfold query_params in Hp.
    destruct (str_split "?" url) as [|base [|query rest]] eqn:Es;
      try destruct Hp.
    destruct (String.prefix "sslmode=" p) eqn:P; [|reflexivity].
    assert (Hq : str_contains "sslmode=" query = true).
    { apply (str_contains_piece _ "&" query p Hp).
      apply str_contains_prefix, P. }
    assert (Hu : str_contains "sslmode=" url = true).
    { apply (str_contains_piece _ "?" url query); [|exact Hq].
      rewrite Es. right. left. reflexivity. }
    congruence.
Qed.

(** No parameter of the connection string the engine is given begins
    with [sslmode=], whatever the variable holds; parameters are read as
    the module reads them. *)
Theorem DATABASE_URL_has_no_sslmode_parameter
    (getenv : option string) (url : string) :
  DATABASE_URL getenv = Ok url ->
  forall p, In p (query_params url) -> String.prefix "sslmode=" p = false.
Proof.
  intros H. destruct getenv as [[|a u]|]; try discriminate H.
  rewrite DATABASE_URL_steps in H by discriminate.
  apply (without_sslmode_params _ _ H).
Qed.

Lemma DATABASE_URL_has_no_sslmode_parameter_witness :
  String.prefix "sslmode=" "b=2" = false.
Proof.
  apply (DATABASE_URL_has_no_sslmode_parameter
           (Some "postgresql://u:p@h/db?a=1&sslmode=require&b=2")
           "postgresql+asyncpg://u:p@h/db?a=1&b=2").
  - reflexivity.
  - right. left. reflexivity.
Defined.

Lemma str_replace_first_prefix (old new s : string) :
  String.prefix old s = true ->
  str_replace_first old new s
  = String.append new (str_drop (String.length old) s).
Proof. intros H. destruct s; cbn [str_replace_first]; rewrite H; reflexivity. Qed.

Lemma rewrite_scheme_base (base rest : string) :
  str_has_char "?" base = false ->
  rewrite_scheme (String.append base (String "?" rest))
  = String.append (asyncpg_scheme base) (String "?" rest).
Proof.
  intros Hb.
  assert (P : forall p, str_has_char "?" p = false ->
            String.prefix p (String.append base (String "?" rest))
            = String.prefix p base).
  { intros p Hp. rewrite <- (append_empty_r base) at 2.
    apply (prefix_same_head "?" p base); eauto. }
  unfold rewrite_scheme, asyncpg_scheme.
  rewrite !P by reflexivity.
  destruct (String.prefix "postgres://" base) eqn:P1.
  - rewrite str_replace_first_prefix by (rewrite P; auto).
    rewrite (str_drop_app "postgres://" base _ P1), append_assoc.
    reflexivity.
  - destruct (String.prefix "postgresql://" base) eqn:P2; [|reflexivity].
    rewrite str_replace_first_prefix by (rewrite P; auto).
    rewrite (str_drop_app "postgresql://" base _ P2), append_assoc.
    reflexivity.
Qed.

Lemma asyncpg_scheme_has_char (base : string) :
  str_has_char "?" base = false ->
  str_has_char "?" (asyncpg_scheme base) = false.
Proof.
  intros Hb. unfold asyncpg_scheme.
  destruct (String.prefix "postgres://" base);
    [|destruct (String.prefix "postgresql://" base); [|exact Hb]];
    rewrite str_has_char_app, str_drop_has_char by exact Hb; reflexivity.
Qed.

Lemma filter_all {A : Type} (f : A -> bool) (l : list A) :
  (forall x, In x l -> f x = true) -> filter f l = l.
Proof.
  induction l as [|a l IH]; simpl; intros H; [reflexivity|].
  rewrite (H a (or_introl eq_refl)), IH; [reflexivity|].
  intros x Hx. apply H. right. exact Hx.
Qed.

(** For a connection string of the usual shape, a part without question
    mark followed by parameters: the scheme becomes [postgresql+asyncpg]
    when it was [postgres] or [postgresql], the [sslmode] parameters go,
    and the other parameters stay, in their order; when none is left the
    question mark goes too. *)
Theorem DATABASE_URL_keeps_other_parameters
    (base : string) (params : list string) :
  base <> "" ->
  str_has_char "?" base = false ->
  params <> [] ->
  (forall p, In p params ->
             str_has_char "?" p = false /\ str_has_char "&" p = false) ->
  DATABASE_URL
    (Some (String.append base (String.append "?" (str_join "&" params))))
  = Ok (match filter (fun p => negb (String.prefix "sslmode=" p)) params with
        | [] => asyncpg_scheme base
        | kept =>
            String.append (asyncpg_scheme base)
                          (String.append "?" (str_join "&" kept))
        end).
Proof.
  intros Hne Hb Hp Hparams.
  remember (str_join "&" params) as J eqn:EJ.
  change (String.append "?" J) with (String "?" J).
  rewrite DATABASE_URL_steps by (destruct base; [congruence|discriminate]).
  rewrite (rewrite_scheme_base base J Hb).
  pose proof (asyncpg_scheme_has_char base Hb) as Hrb.
  set (rb := asyncpg_scheme base) in *.
  assert (HJ : str_has_char "?" J = false).
  { rewrite EJ. apply str_join_has_char; [reflexivity|].
    intros p Hin. apply (Hparams p Hin). }
  assert (Hsplit : str_split "&" J = params).
  { rewrite EJ. apply str_split_join; [exact Hp|].
    intros p Hin. apply (Hparams p Hin). }
  unfold without_sslmode.
  rewrite (str_split_app_sep _ _ _ Hrb), (str_split_no_sep _ _ HJ), Hsplit.
  destruct (str_contains "sslmode=" (String.append rb (String "?" J))) eqn:Hc.
  - destruct (filter _ params) as [|x xs]; reflexivity.
  - rewrite filter_all.
    + destruct params as [|x xs]; [congruence|]. rewrite EJ. reflexivity.
    + intros p Hin. apply negb_true_iff.
      destruct (String.prefix "sslmode=" p) eqn:P; [|reflexivity].
      assert (str_contains "sslmode=" J = true).
      { apply (str_contains_piece _ "&" J p); [rewrite Hsplit; exact Hin|].
        apply str_contains_prefix, P. }
      assert (str_contains "sslmode=" (String.append rb (String "?" J))
              = true).
      { apply str_contains_app_r. cbn [str_contains].
        rewrite H. apply orb_true_r. }
      congruence.
Qed.

Lemma DATABASE_URL_keeps_other_parameters_witness :
  DATABASE_URL (Some "postgres://u:p@h:5432/db?a=1&sslmode=require&b=2")
  = Ok "postgresql+asyncpg://u:p@h:5432/db?a=1&b=2"
  /\ DATABASE_URL (Some "postgresql://h/db?sslmode=require")
     = Ok "postgresql+asyncpg://h/db".
Proof.
  split.
  - apply (DATABASE_URL_keeps_other_parameters "postgres://u:p@h:5432/db"
             ["a=1"; "sslmode=require"; "b=2"]).
    + discriminate.
    + reflexivity.
    + discriminate.
    + simpl. intros p [<-|[<-|[<-|[]]]]; split; reflexivity.
  - apply (DATABASE_URL_keeps_other_parameters "postgresql://h/db"
             ["sslmode=require"]).
    + discriminate.
    + reflexivity.
    + discriminate.
    + simpl. intros p [<-|[]]; split; reflexivity.
Defined.

(* ================================================================= *)
(** ** The speech endpoints *)

Lemma z_eqb_spec (x y : Z) : Z.eqb x y = true <-> x = y.
Proof. apply Z.eqb_eq. Qed.

(** Push a computation of the speech router one step on. *)
Ltac world_step H :=
  cbn [Speech.db_pending Speech.db_committed Speech.disk Speech.auth
       Speech.speech Speech.rollback fst snd] in H.

Section SpeechFacts.

Context (py : Speech.Runtime) (lib : Library) (environ : Environ)
        (os : Speech.FileSystem).

Local Abbreviation F := (Speech.float py).

(** The authentication dependency reads the users table and nothing
    else of the session. *)
Lemma on_auth_get_current_user utcnow credentials
    (db : Speech.Database F) (files : Speech.Disk) :
  Speech.on_auth py
    (get_current_user lib environ utcnow credentials)
    (Speech.mkWorld db db files)
  = (authenticated lib environ utcnow credentials (Speech.auth db),
     Speech.mkWorld db db files).
Proof.
  destruct db as [a t]. unfold Speech.on_auth, authenticated.
  cbn [Speech.db_committed Speech.db_pending Speech.disk Speech.auth
       Speech.speech].
  destruct (get_current_user lib environ utcnow credentials (mkSession a a))
    as [r s] eqn:G.
  pose proof (get_current_user_reads _ _ _ _ _ _ _ G) as ->.
  reflexivity.
Qed.

(** The lookup of a row by its id and its owner. *)
Lemma owned_row_lookup {R : Type} (key : R -> Z) (owner : R -> string)
    (rows : list R) (k : Z) (uid : string) :
  distinct Z.eqb (map key rows) = true ->
  filter (fun r => Z.eqb (key r) k && (owner r =? uid)) rows = []
  /\ (forall r, In r rows -> key r = k -> owner r <> uid)
  \/ exists r,
       filter (fun r => Z.eqb (key r) k && (owner r =? uid)) rows = [r]
       /\ In r rows /\ key r = k /\ owner r = uid.
Proof.
  intros D. rewrite (filter_key_and Z.eqb key).
  destruct (filter_key_cases Z.eqb z_eqb_spec key k rows D)
    as [[-> N] | [x [-> [Hx Hk]]]].
  - left. split; [reflexivity|]. intros r Hr Hkr. elim (N r Hr Hkr).
  - simpl. destruct (owner x =? uid) eqn:E.
    + right. exists x. apply String.eqb_eq in E. auto.
    + left. split; [reflexivity|]. intros r Hr Hkr.
      assert (r = x).
      { assert (H : In r (filter (fun y => Z.eqb (key y) k) rows)).
        { apply filter_In. split; [exact Hr|]. apply Z.eqb_eq, Hkr. }
        rewrite (filter_key_unique Z.eqb z_eqb_spec key k rows x D Hx Hk)
          in H.
        destruct H as [H|[]]. congruence. }
      subst r. apply String.eqb_neq, E.
Qed.

Lemma not_owned_lookup {R : Type} (key : R -> Z) (owner : R -> string)
    (rows : list R) (k : Z) (uid : string) :
  (forall r, In r rows -> key r = k -> owner r <> uid) ->
  filter (fun r => Z.eqb (key r) k && (owner r =? uid)) rows = [].
Proof.
  intros N. induction rows as [|a rows IH]; simpl; [reflexivity|].
  destruct (Z.eqb (key a) k) eqn:Ek; simpl.
  - apply Z.eqb_eq in Ek.
    assert (E : (owner a =? uid) = false).
    { apply String.eqb_neq. apply N; [left; reflexivity|exact Ek]. }
    rewrite E. apply IH. intros r Hr. apply N. right. exact Hr.
  - apply IH. intros r Hr. apply N. right. exact Hr.
Qed.

(** Every way [analyze_speech] can answer. *)
Lemma analyze_speech_ok utcnow credentials audio_file_id
    (db : Speech.Database F) files r db' files' :
  Speech.get_db py
    (Speech.analyze_speech py lib environ utcnow credentials audio_file_id)
    db files
    = (Ok r, db', files') ->
  files' = files
  /\ exists user audio_file,
       authenticated lib environ utcnow credentials (Speech.auth db) = Ok user
       /\ filter (fun a => Z.eqb (Speech.AudioFile.id a) audio_file_id
                           && (Speech.AudioFile.user_id a =? User.id user))
                 (Speech.audio_files (Speech.speech db)) = [audio_file]
       /\ ((exists existing,
              filter (fun a => Z.eqb (Speech.SpeechAnalysis.audio_file_id a)
                                     audio_file_id)
                     (Speech.speech_analyses (Speech.speech db)) = [existing]
              /\ r = Speech.SpeechAnalysisResponse_of py existing
              /\ db' = db
              /\ Speech.database_ok db = true)
           \/ (filter (fun a => Z.eqb (Speech.SpeechAnalysis.audio_file_id a)
                                      audio_file_id)
                      (Speech.speech_analyses (Speech.speech db)) = []
               /\ let row :=
                    Speech.mock_analysis py utcnow (User.id user)
                      audio_file_id
                      (Speech.speech_analyses_id_seq (Speech.speech db)) in
                  r = Speech.SpeechAnalysisResponse_of py row
                  /\ db' = with_speech_analysis row db
                  /\ Speech.database_ok db' = true)).
Proof.
  intros H. unfold Speech.get_db, Speech.analyze_speech in H.
  unfold Speech.bind at 1 in H. rewrite on_auth_get_current_user in H.
  destruct (authenticated lib environ utcnow credentials (Speech.auth db))
    as [user|e] eqn:G; [|discriminate H].
  unfold Speech.bind, Speech.execute_select, Speech.scalar_one_or_none,
    Speech.ret, Speech.raise, Speech.add_SpeechAnalysis, Speech.commit in H.
  world_step H.
  destruct (filter (fun a => Z.eqb (Speech.AudioFile.id a) audio_file_id
                             && (Speech.AudioFile.user_id a =? User.id user))
                   (Speech.audio_files (Speech.speech db)))
    as [|audio_file [|a1 l]] eqn:Fa; world_step H; try discriminate H.
  destruct (filter (fun a => Z.eqb (Speech.SpeechAnalysis.audio_file_id a)
                                   audio_file_id)
                   (Speech.speech_analyses (Speech.speech db)))
    as [|existing [|e1 l]] eqn:Fe; world_step H; try discriminate H.
  - fold (with_speech_analysis
            (Speech.mock_analysis py utcnow (User.id user) audio_file_id
               (Speech.speech_analyses_id_seq (Speech.speech db))) db) in H.
    destruct (Speech.database_ok
                (with_speech_analysis
                   (Speech.mock_analysis py utcnow (User.id user)
                      audio_file_id
                      (Speech.speech_analyses_id_seq (Speech.speech db)))
                   db)) eqn:C;
      world_step H; [|discriminate H].
    rewrite C in H. world_step H. inversion H; subst.
    split; [reflexivity|]. exists user, audio_file.
    split; [reflexivity|]. split; [exact Fa|]. right.
    split; [reflexivity|]. cbv zeta. auto.
  - destruct (Speech.database_ok db) eqn:C; [|discriminate H].
    inversion H; subst.
    split; [reflexivity|]. exists user, audio_file.
    split; [reflexivity|]. split; [exact Fa|]. left.
    exists existing. auto.
Qed.

Lemma authenticated_user utcnow credentials (users_ : Tables) user :
  authenticated lib environ utcnow credentials users_ = Ok user ->
  In user (users users_).
Proof.
  unfold authenticated. intros H.
  destruct (get_current_user lib environ utcnow credentials
              (mkSession users_ users_)) as [r s] eqn:G.
  simpl in H. subst r.
  destruct (get_current_user_ok _ _ _ _ _ _ _ G) as [_ [_ [_ Fu]]].
  apply (filter_singleton _ _ _ Fu).
Qed.

(** An owned audio file is not analysed by anyone else: for an audio file
    id that names no file of the caller, [analyze_speech] answers 404 and
    writes nothing, whether the id names nobody's file or somebody
    else's. *)
Theorem analyze_speech_is_for_the_owner
    utcnow credentials audio_file_id (db : Speech.Database F) files user :
  authenticated lib environ utcnow credentials (Speech.auth db) = Ok user ->
  (forall a, In a (Speech.audio_files (Speech.speech db)) ->
             Speech.AudioFile.id a = audio_file_id ->
             Speech.AudioFile.user_id a <> User.id user) ->
  Speech.get_db py
    (Speech.analyze_speech py lib environ utcnow credentials audio_file_id)
    db files
  = (Raise (HTTPException 404 "Audio file not found"), db, files).
Proof.
  intros G N. unfold Speech.get_db, Speech.analyze_speech.
  unfold Speech.bind at 1. rewrite on_auth_get_current_user, G.
  unfold Speech.bind, Speech.execute_select.
  cbn [Speech.db_pending Speech.db_committed Speech.disk].
  rewrite (not_owned_lookup Speech.AudioFile.id Speech.AudioFile.user_id
             _ _ _ N).
  reflexivity.
Qed.

(** An analysis that exists is answered as it is, and nothing is
    written. *)
Lemma analyze_speech_existing
    utcnow credentials audio_file_id (db : Speech.Database F) files user
    audio_file existing :
  authenticated lib environ utcnow credentials (Speech.auth db) = Ok user ->
  filter (fun a => Z.eqb (Speech.AudioFile.id a) audio_file_id
                   && (Speech.AudioFile.user_id a =? User.id user))
         (Speech.audio_files (Speech.speech db)) = [audio_file] ->
  filter (fun a => Z.eqb (Speech.SpeechAnalysis.audio_file_id a)
                         audio_file_id)
         (Speech.speech_analyses (Speech.speech db)) = [existing] ->
  Speech.database_ok db = true ->
  Speech.get_db py
    (Speech.analyze_speech py lib environ utcnow credentials audio_file_id)
    db files
  = (Ok (Speech.SpeechAnalysisResponse_of py existing), db, files).
Proof.
  intros G Fa Fe C. unfold Speech.get_db, Speech.analyze_speech.
  unfold Speech.bind at 1. rewrite on_auth_get_current_user, G.
  unfold Speech.bind, Speech.execute_select, Speech.commit.
  cbn [Speech.db_pending Speech.db_committed Speech.disk].
  rewrite Fa. cbn [Speech.scalar_one_or_none Speech.ret
                   Speech.db_pending Speech.db_committed Speech.disk].
  rewrite Fe. cbn [Speech.scalar_one_or_none Speech.ret
                   Speech.db_pending Speech.db_committed Speech.disk].
  rewrite C. reflexivity.
Qed.

(** Asking again for the analysis of an audio file gives the answer of
    the first time, at any later moment, and writes nothing: there is one
    analysis per audio file. *)
Theorem analyze_speech_is_idempotent
    t1 t2 credentials1 credentials2 audio_file_id
    (db : Speech.Database F) files r db1 files1 user :
  Speech.get_db py
    (Speech.analyze_speech py lib environ t1 credentials1 audio_file_id)
    db files
    = (Ok r, db1, files1) ->
  authenticated lib environ t1 credentials1 (Speech.auth db) = Ok user ->
  authenticated lib environ t2 credentials2 (Speech.auth db1) = Ok user ->
  files1 = files
  /\ Speech.get_db py
       (Speech.analyze_speech py lib environ t2 credentials2 audio_file_id)
       db1 files1
     = (Ok r, db1, files1)
  /\ exists analysis,
       filter (fun a => Z.eqb (Speech.SpeechAnalysis.audio_file_id a)
                              audio_file_id)
              (Speech.speech_analyses (Speech.speech db1)) = [analysis]
       /\ r = Speech.SpeechAnalysisResponse_of py analysis.
Proof.
  intros H G1 G2.
  destruct (analyze_speech_ok _ _ _ _ _ _ _ _ H)
    as [-> [user0 [audio_file [G0 [Fa Hcase]]]]].
  rewrite G1 in G0. inversion G0; subst user0. clear G0.
  split; [reflexivity|].
  destruct Hcase as [[existing [Fe [-> [-> C]]]] | [Fe Hnew]].
  - split.
    + apply (analyze_speech_existing t2 credentials2 audio_file_id db files
               user audio_file existing); assumption.
    + exists existing. auto.
  - cbv zeta in Hnew. destruct Hnew as [-> [-> C]].
    set (row := Speech.mock_analysis py t1 (User.id user) audio_file_id
                  (Speech.speech_analyses_id_seq (Speech.speech db))) in *.
    assert (Fe1 : filter (fun a => Z.eqb (Speech.SpeechAnalysis.audio_file_id a)
                                         audio_file_id)
                    (Speech.speech_analyses
                       (Speech.speech (with_speech_analysis row db)))
                  = [row]).
    { unfold with_speech_analysis. simpl. rewrite filter_app, Fe. simpl.
      rewrite Z.eqb_refl. reflexivity. }
    split.
    + apply (analyze_speech_existing t2 credentials2 audio_file_id _ files
               user audio_file row); auto.
    + exists row. auto.
Qed.

Lemma database_ok_iff (d : Speech.Database F) :
  Speech.database_ok d = true <->
  constraints_ok (Speech.auth d) = true
  /\ distinct Z.eqb (map Speech.AudioFile.id
                         (Speech.audio_files (Speech.speech d))) = true
  /\ forallb (fun a => references_user (users (Speech.auth d))
                                       (Speech.AudioFile.user_id a))
             (Speech.audio_files (Speech.speech d)) = true
  /\ distinct Z.eqb (map Speech.SpeechAnalysis.id
                         (Speech.speech_analyses (Speech.speech d))) = true
  /\ forallb (fun a => references_user (users (Speech.auth d))
                                       (Speech.SpeechAnalysis.user_id a))
             (Speech.speech_analyses (Speech.speech d)) = true
  /\ forallb (fun a => Speech.has_id Speech.AudioFile.id
                         (Speech.audio_files (Speech.speech d))
                         (Speech.SpeechAnalysis.audio_file_id a))
             (Speech.speech_analyses (Speech.speech d)) = true
  /\ distinct Z.eqb (map Speech.Report.id
                         (Speech.reports (Speech.speech d))) = true
  /\ forallb (fun r => references_user (users (Speech.auth d))
                                       (Speech.Report.user_id r))
             (Speech.reports (Speech.speech d)) = true
  /\ forallb (fun r => Speech.has_id Speech.SpeechAnalysis.id
                         (Speech.speech_analyses (Speech.speech d))
                         (Speech.Report.speech_analysis_id r))
             (Speech.reports (Speech.speech d)) = true.
Proof.
  unfold Speech.database_ok, Speech.speech_constraints_ok.
  cbv zeta. rewrite !andb_true_iff. tauto.
Qed.

Lemma serials_ahead_iff (d : Speech.Database F) :
  Speech.serials_ahead d = true <->
  (forall a, In a (Speech.audio_files (Speech.speech d)) ->
             (Speech.AudioFile.id a
              < Speech.audio_files_id_seq (Speech.speech d))%Z)
  /\ (forall a, In a (Speech.speech_analyses (Speech.speech d)) ->
                (Speech.SpeechAnalysis.id a
                 < Speech.speech_analyses_id_seq (Speech.speech d))%Z)
  /\ (forall r, In r (Speech.reports (Speech.speech d)) ->
                (Speech.Report.id r
                 < Speech.reports_id_seq (Speech.speech d))%Z).
Proof.
  unfold Speech.serials_ahead. cbv zeta.
  rewrite !andb_true_iff, !forallb_forall.
  split.
  - intros [[H1 H2] H3]. repeat split; intros x Hx; apply Z.ltb_lt; auto.
  - intros [H1 [H2 H3]]. repeat split; intros x Hx; apply Z.ltb_lt; auto.
Qed.

Lemma z_fresh {R : Type} (key : R -> Z) (rows : list R) (k : Z) :
  (forall r, In r rows -> (key r < k)%Z) ->
  negb (existsb (fun r => Z.eqb (key r) k) rows) = true.
Proof.
  intros H. apply negb_true_iff.
  apply (existsb_key_false Z.eqb z_eqb_spec). intros r Hr E.
  specialize (H r Hr). lia.
Qed.

Lemma has_id_snoc {R : Type} (key : R -> Z) (rows : list R) (x : R) (k : Z) :
  Speech.has_id key rows k = true -> Speech.has_id key (rows ++ [x]) k = true.
Proof.
  unfold Speech.has_id. rewrite existsb_app. intros ->. reflexivity.
Qed.

Lemma has_id_iff {R : Type} (key : R -> Z) (rows : list R) (k : Z) :
  Speech.has_id key rows k = true <-> exists r, In r rows /\ key r = k.
Proof. apply (existsb_key_true Z.eqb z_eqb_spec). Qed.

(** Inserting an analysis of a known file for a known user keeps the
    constraints. *)
Lemma with_speech_analysis_ok (d : Speech.Database F) row :
  Speech.database_ok d = true ->
  Speech.serials_ahead d = true ->
  Speech.SpeechAnalysis.id row
    = Speech.speech_analyses_id_seq (Speech.speech d) ->
  references_user (users (Speech.auth d)) (Speech.SpeechAnalysis.user_id row)
    = true ->
  Speech.has_id Speech.AudioFile.id (Speech.audio_files (Speech.speech d))
                (Speech.SpeechAnalysis.audio_file_id row) = true ->
  Speech.database_ok (with_speech_analysis row d) = true.
Proof.
  rewrite !database_ok_iff, serials_ahead_iff.
  unfold with_speech_analysis. simpl.
  intros (H0 & H1 & H2 & H3 & H4 & H5 & H6 & H7 & H8) (_ & S2 & _) Hid Hu Ha.
  rewrite (distinct_snoc Z.eqb z_eqb_spec), H3, Hid.
  rewrite (z_fresh _ _ _ S2).
  rewrite !forallb_snoc, H4, H5, Hu, Ha.
  repeat split; auto.
  rewrite forallb_forall in *. intros r Hr. apply has_id_snoc, H8, Hr.
Qed.

Lemma with_report_ok (d : Speech.Database F) row :
  Speech.database_ok d = true ->
  Speech.serials_ahead d = true ->
  Speech.Report.id row = Speech.reports_id_seq (Speech.speech d) ->
  references_user (users (Speech.auth d)) (Speech.Report.user_id row)
    = true ->
  Speech.has_id Speech.SpeechAnalysis.id
                (Speech.speech_analyses (Speech.speech d))
                (Speech.Report.speech_analysis_id row) = true ->
  Speech.database_ok (with_report row d) = true.
Proof.
  rewrite !database_ok_iff, serials_ahead_iff.
  unfold with_report. simpl.
  intros (H0 & H1 & H2 & H3 & H4 & H5 & H6 & H7 & H8) (_ & _ & S3) Hid Hu Ha.
  rewrite (distinct_snoc Z.eqb z_eqb_spec), H6, Hid.
  rewrite (z_fresh _ _ _ S3).
  rewrite !forallb_snoc, H7, H8, Hu, Ha.
  repeat split; auto.
Qed.

Lemma with_audio_file_ok (d : Speech.Database F) row :
  Speech.database_ok d = true ->
  Speech.serials_ahead d = true ->
  Speech.AudioFile.id row = Speech.audio_files_id_seq (Speech.speech d) ->
  references_user (users (Speech.auth d)) (Speech.AudioFile.user_id row)
    = true ->
  Speech.database_ok (with_audio_file row d) = true.
Proof.
  rewrite !database_ok_iff, serials_ahead_iff.
  unfold with_audio_file. simpl.
  intros (H0 & H1 & H2 & H3 & H4 & H5 & H6 & H7 & H8) (S1 & _ & _) Hid Hu.
  rewrite (distinct_snoc Z.eqb z_eqb_spec), H1, Hid.
  rewrite (z_fresh _ _ _ S1).
  rewrite !forallb_snoc, H2, Hu.
  repeat split; auto.
  rewrite forallb_forall in *. intros r Hr. apply has_id_snoc, H5, Hr.
Qed.

(** The first analysis of an owned audio file. *)
Lemma analyze_speech_new
    utcnow credentials audio_file_id (db : Speech.Database F) files user
    audio_file :
  Speech.database_ok db = true ->
  Speech.serials_ahead db = true ->
  authenticated lib environ utcnow credentials (Speech.auth db) = Ok user ->
  In audio_file (Speech.audio_files (Speech.speech db)) ->
  Speech.AudioFile.id audio_file = audio_file_id ->
  Speech.AudioFile.user_id audio_file = User.id user ->
  (forall a, In a (Speech.speech_analyses (Speech.speech db)) ->
             Speech.SpeechAnalysis.audio_file_id a <> audio_file_id) ->
  let row :=
    Speech.mock_analysis py utcnow (User.id user) audio_file_id
      (Speech.speech_analyses_id_seq (Speech.speech db)) in
  Speech.get_db py
    (Speech.analyze_speech py lib environ utcnow credentials audio_file_id)
    db files
  = (Ok (Speech.SpeechAnalysisResponse_of py row),
     with_speech_analysis row db, files)
  /\ Speech.speech_analyses (Speech.speech (with_speech_analysis row db))
     = Speech.speech_analyses (Speech.speech db) ++ [row]
  /\ Speech.SpeechAnalysis.processing_status row = "completed"
  /\ Speech.SpeechAnalysis.user_id row = User.id user.
Proof.
  intros C Sq G Hin Hid Hown Nan row.
  split; [|repeat split].
  pose proof C as C0. apply database_ok_iff in C0.
  destruct C0 as (_ & D & _).
  assert (Fa : filter (fun a => Z.eqb (Speech.AudioFile.id a) audio_file_id
                                && (Speech.AudioFile.user_id a
                                    =? User.id user))
                      (Speech.audio_files (Speech.speech db)) = [audio_file]).
  { destruct (owned_row_lookup Speech.AudioFile.id Speech.AudioFile.user_id
                _ audio_file_id (User.id user) D)
      as [[_ N] | [x [Fx [Hx [Hk Ho]]]]].
    - elim (N audio_file Hin Hid Hown).
    - rewrite Fx. f_equal.
      assert (H : In audio_file
                    (filter (fun y => Z.eqb (Speech.AudioFile.id y)
                                            audio_file_id)
                            (Speech.audio_files (Speech.speech db)))).
      { apply filter_In. split; [exact Hin|]. apply Z.eqb_eq, Hid. }
      rewrite (filter_key_unique Z.eqb z_eqb_spec Speech.AudioFile.id
                 audio_file_id _ x D Hx Hk) in H.
      destruct H as [H|[]]. exact H. }
  assert (Fe : filter (fun a => Z.eqb (Speech.SpeechAnalysis.audio_file_id a)
                                      audio_file_id)
                      (Speech.speech_analyses (Speech.speech db)) = []).
  { apply (filter_key_none Z.eqb z_eqb_spec). exact Nan. }
  assert (C' : Speech.database_ok (with_speech_analysis row db) = true).
  { apply with_speech_analysis_ok; auto.
    - apply references_user_iff. exists user. split; [|reflexivity].
      apply (authenticated_user _ _ _ _ G).
    - apply has_id_iff. exists audio_file. auto. }
  destruct (Speech.get_db py
              (Speech.analyze_speech py lib environ utcnow credentials
                 audio_file_id) db files) as [[r db'] files'] eqn:H.
  unfold Speech.get_db, Speech.analyze_speech in H.
  unfold Speech.bind at 1 in H. rewrite on_auth_get_current_user, G in H.
  unfold Speech.bind, Speech.execute_select, Speech.scalar_one_or_none,
    Speech.ret, Speech.raise, Speech.add_SpeechAnalysis, Speech.commit in H.
  world_step H. rewrite Fa in H. world_step H. rewrite Fe in H.
  world_step H.
  fold (with_speech_analysis
          (Speech.mock_analysis py utcnow (User.id user) audio_file_id
             (Speech.speech_analyses_id_seq (Speech.speech db))) db) in H.
  fold row in H. rewrite C' in H. world_step H. rewrite C' in H.
  world_step H. inversion H; subst. reflexivity.
Qed.

(** The first request for the analysis of one's own audio file stores
    one analysis, under the next serial id, marked completed, and answers
    it; the disk is not touched. *)
Theorem analyze_speech_stores_one_analysis
    utcnow credentials audio_file_id (db : Speech.Database F) files user
    audio_file :
  Speech.database_ok db = true ->
  Speech.serials_ahead db = true ->
  authenticated lib environ utcnow credentials (Speech.auth db) = Ok user ->
  In audio_file (Speech.audio_files (Speech.speech db)) ->
  Speech.AudioFile.id audio_file = audio_file_id ->
  Speech.AudioFile.user_id audio_file = User.id user ->
  (forall a, In a (Speech.speech_analyses (Speech.speech db)) ->
             Speech.SpeechAnalysis.audio_file_id a <> audio_file_id) ->
  exists row,
    Speech.get_db py
      (Speech.analyze_speech py lib environ utcnow credentials audio_file_id)
      db files
    = (Ok (Speech.SpeechAnalysisResponse_of py row),
       with_speech_analysis row db, files)
    /\ Speech.speech_analyses (Speech.speech (with_speech_analysis row db))
       = Speech.speech_analyses (Speech.speech db) ++ [row]
    /\ Speech.SpeechAnalysis.id row
       = Speech.speech_analyses_id_seq (Speech.speech db)
    /\ Speech.SpeechAnalysis.audio_file_id row = audio_file_id
    /\ Speech.SpeechAnalysis.user_id row = User.id user
    /\ Speech.SpeechAnalysis.processing_status row = "completed"
    /\ Speech.SpeechAnalysis.processed_at row = Some utcnow.
Proof.
  intros C Sq G Hin Hid Hown Nan.
  exists (Speech.mock_analysis py utcnow (User.id user) audio_file_id
            (Speech.speech_analyses_id_seq (Speech.speech db))).
  split; [|repeat split].
  apply (analyze_speech_new utcnow credentials audio_file_id db files user
           audio_file C Sq G Hin Hid Hown Nan).
Qed.

(** [get_user_analyses] lists the analyses of the caller, all of them
    and no one else's, and writes nothing. *)
Theorem get_user_analyses_lists_own_analyses
    utcnow credentials (db : Speech.Database F) files r db' files' :
  Speech.get_db py (Speech.get_user_analyses py lib environ utcnow credentials)
                db files
    = (Ok r, db', files') ->
  db' = db /\ files' = files
  /\ exists user,
       authenticated lib environ utcnow credentials (Speech.auth db) = Ok user
       /\ r = map (Speech.SpeechAnalysisResponse_of py)
                  (filter (fun a => Speech.SpeechAnalysis.user_id a
                                    =? User.id user)
                          (Speech.speech_analyses (Speech.speech db)))
       /\ (forall a, In a (Speech.speech_analyses (Speech.speech db)) ->
                     Speech.SpeechAnalysis.user_id a = User.id user ->
                     In (Speech.SpeechAnalysisResponse_of py a) r)
       /\ (forall x, In x r ->
                     exists a,
                       In a (Speech.speech_analyses (Speech.speech db))
                       /\ Speech.SpeechAnalysis.user_id a = User.id user
                       /\ x = Speech.SpeechAnalysisResponse_of py a).
Proof.
  intros H. unfold Speech.get_db, Speech.get_user_analyses in H.
  unfold Speech.bind at 1 in H. rewrite on_auth_get_current_user in H.
  destruct (authenticated lib environ utcnow credentials (Speech.auth db))
    as [user|e] eqn:G; [|discriminate H].
  unfold Speech.bind, Speech.execute_select, Speech.ret, Speech.commit in H.
  world_step H.
  destruct (Speech.database_ok db) eqn:C; world_step H; [|discriminate H].
  inversion H; subst. split; [reflexivity|]. split; [reflexivity|].
  exists user. split; [reflexivity|]. split; [reflexivity|]. split.
  - intros a Ha Hu. apply in_map, filter_In. split; [exact Ha|].
    apply String.eqb_eq, Hu.
  - intros x Hx. apply in_map_iff in Hx. destruct Hx as [a [<- Ha]].
    apply filter_In in Ha. destruct Ha as [Ha Hu].
    apply String.eqb_eq in Hu. exists a. auto.
Qed.

(** Every way [generate_report] can answer. *)
Lemma generate_report_ok utcnow credentials analysis_id
    (db : Speech.Database F) files r db' files' :
  Speech.get_db py
    (Speech.generate_report py lib environ utcnow credentials analysis_id)
    db files
    = (Ok r, db', files') ->
  files' = files
  /\ exists user analysis,
       authenticated lib environ utcnow credentials (Speech.auth db) = Ok user
       /\ filter (fun a => Z.eqb (Speech.SpeechAnalysis.id a) analysis_id
                           && (Speech.SpeechAnalysis.user_id a
                               =? User.id user))
                 (Speech.speech_analyses (Speech.speech db)) = [analysis]
       /\ ((exists existing,
              filter (fun x => Z.eqb (Speech.Report.speech_analysis_id x)
                                     analysis_id)
                     (Speech.reports (Speech.speech db)) = [existing]
              /\ r = Speech.ReportResponse_of existing
              /\ db' = db
              /\ Speech.database_ok db = true)
           \/ (filter (fun x => Z.eqb (Speech.Report.speech_analysis_id x)
                                      analysis_id)
                      (Speech.reports (Speech.speech db)) = []
               /\ let row :=
                    Speech.new_report py utcnow (User.id user) analysis
                      analysis_id (Speech.reports_id_seq (Speech.speech db))
                  in
                  r = Speech.ReportResponse_of row
                  /\ db' = with_report row db
                  /\ Speech.database_ok db' = true)).
Proof.
  intros H. unfold Speech.get_db, Speech.generate_report in H.
  unfold Speech.bind at 1 in H. rewrite on_auth_get_current_user in H.
  destruct (authenticated lib environ utcnow credentials (Speech.auth db))
    as [user|e] eqn:G; [|discriminate H].
  unfold Speech.bind, Speech.execute_select, Speech.scalar_one_or_none,
    Speech.ret, Speech.raise, Speech.add_Report, Speech.commit in H.
  world_step H.
  destruct (filter (fun a => Z.eqb (Speech.SpeechAnalysis.id a) analysis_id
                             && (Speech.SpeechAnalysis.user_id a
                                 =? User.id user))
                   (Speech.speech_analyses (Speech.speech db)))
    as [|analysis [|a1 l]] eqn:Fa; world_step H; try discriminate H.
  destruct (filter (fun x => Z.eqb (Speech.Report.speech_analysis_id x)
                                   analysis_id)
                   (Speech.reports (Speech.speech db)))
    as [|existing [|e1 l]] eqn:Fe; world_step H; try discriminate H.
  - fold (with_report
            (Speech.new_report py utcnow (User.id user) analysis analysis_id
               (Speech.reports_id_seq (Speech.speech db))) db) in H.
    destruct (Speech.database_ok
                (with_report
                   (Speech.new_report py utcnow (User.id user) analysis
                      analysis_id
                      (Speech.reports_id_seq (Speech.speech db)))
                   db)) eqn:C;
      world_step H; [|discriminate H].
    rewrite C in H. world_step H. inversion H; subst.
    split; [reflexivity|]. exists user, analysis.
    split; [reflexivity|]. split; [exact Fa|]. right.
    split; [reflexivity|]. cbv zeta. auto.
  - destruct (Speech.database_ok db) eqn:C; [|discriminate H].
    inversion H; subst.
    split; [reflexivity|]. exists user, analysis.
    split; [reflexivity|]. split; [exact Fa|]. left.
    exists existing. auto.
Qed.

(** Nobody gets a report on somebody else's analysis: for an analysis id
    that names no analysis of the caller, [generate_report] answers 404
    and writes nothing. *)
Theorem generate_report_is_for_the_owner
    utcnow credentials analysis_id (db : Speech.Database F) files user :
  authenticated lib environ utcnow credentials (Speech.auth db) = Ok user ->
  (forall a, In a (Speech.speech_analyses (Speech.speech db)) ->
             Speech.SpeechAnalysis.id a = analysis_id ->
             Speech.SpeechAnalysis.user_id a <> User.id user) ->
  Speech.get_db py
    (Speech.generate_report py lib environ utcnow credentials analysis_id)
    db files
  = (Raise (HTTPException 404 "Speech analysis not found"), db, files).
Proof.
  intros G N. unfold Speech.get_db, Speech.generate_report.
  unfold Speech.bind at 1. rewrite on_auth_get_current_user, G.
  unfold Speech.bind, Speech.execute_select.
  cbn [Speech.db_pending Speech.db_committed Speech.disk].
  rewrite (not_owned_lookup Speech.SpeechAnalysis.id
             Speech.SpeechAnalysis.user_id _ _ _ N).
  reflexivity.
Qed.

(** A report that exists is answered as it is, and nothing is written. *)
Lemma generate_report_existing
    utcnow credentials analysis_id (db : Speech.Database F) files user
    analysis existing :
  authenticated lib environ utcnow credentials (Speech.auth db) = Ok user ->
  filter (fun a => Z.eqb (Speech.SpeechAnalysis.id a) analysis_id
                   && (Speech.SpeechAnalysis.user_id a =? User.id user))
         (Speech.speech_analyses (Speech.speech db)) = [analysis] ->
  filter (fun x => Z.eqb (Speech.Report.speech_analysis_id x) analysis_id)
         (Speech.reports (Speech.speech db)) = [existing] ->
  Speech.database_ok db = true ->
  Speech.get_db py
    (Speech.generate_report py lib environ utcnow credentials analysis_id)
    db files
  = (Ok (Speech.ReportResponse_of existing), db, files).
Proof.
  intros G Fa Fe C. unfold Speech.get_db, Speech.generate_report.
  unfold Speech.bind at 1. rewrite on_auth_get_current_user, G.
  unfold Speech.bind, Speech.execute_select, Speech.commit.
  cbn [Speech.db_pending Speech.db_committed Speech.disk].
  rewrite Fa. cbn [Speech.scalar_one_or_none Speech.ret
                   Speech.db_pending Speech.db_committed Speech.disk].
  rewrite Fe. cbn [Speech.scalar_one_or_none Speech.ret
                   Speech.db_pending Speech.db_committed Speech.disk].
  rewrite C. reflexivity.
Qed.

(** Asking again for the report on an analysis gives the report of the
    first time, with its first title and dates, and writes nothing: there
    is one report per analysis. *)
Theorem generate_report_is_idempotent
    t1 t2 credentials1 credentials2 analysis_id
    (db : Speech.Database F) files r db1 files1 user :
  Speech.get_db py
    (Speech.generate_report py lib environ t1 credentials1 analysis_id)
    db files
    = (Ok r, db1, files1) ->
  authenticated lib environ t1 credentials1 (Speech.auth db) = Ok user ->
  authenticated lib environ t2 credentials2 (Speech.auth db1) = Ok user ->
  files1 = files
  /\ Speech.get_db py
       (Speech.generate_report py lib environ t2 credentials2 analysis_id)
       db1 files1
     = (Ok r, db1, files1)
  /\ exists report,
       filter (fun x => Z.eqb (Speech.Report.speech_analysis_id x)
                              analysis_id)
              (Speech.reports (Speech.speech db1)) = [report]
       /\ r = Speech.ReportResponse_of report.
Proof.
  intros H G1 G2.
  destruct (generate_report_ok _ _ _ _ _ _ _ _ H)
    as [-> [user0 [analysis [G0 [Fa Hcase]]]]].
  rewrite G1 in G0. inversion G0; subst user0. clear G0.
  split; [reflexivity|].
  destruct Hcase as [[existing [Fe [-> [-> C]]]] | [Fe Hnew]].
  - split.
    + apply (generate_report_existing t2 credentials2 analysis_id db files
               user analysis existing); assumption.
    + exists existing. auto.
  - cbv zeta in Hnew. destruct Hnew as [-> [-> C]].
    set (row := Speech.new_report py t1 (User.id user) analysis analysis_id
                  (Speech.reports_id_seq (Speech.speech db))) in *.
    assert (Fe1 : filter (fun x => Z.eqb (Speech.Report.speech_analysis_id x)
                                         analysis_id)
                    (Speech.reports (Speech.speech (with_report row db)))
                  = [row]).
    { unfold with_report. simpl. rewrite filter_app, Fe. simpl.
      rewrite Z.eqb_refl. reflexivity. }
    split.
    + apply (generate_report_existing t2 credentials2 analysis_id _ files
               user analysis row); auto.
    + exists row. auto.
Qed.

Lemma with_speech_analysis_serials (d : Speech.Database F) row :
  Speech.serials_ahead d = true ->
  Speech.SpeechAnalysis.id row
    = Speech.speech_analyses_id_seq (Speech.speech d) ->
  Speech.serials_ahead (with_speech_analysis row d) = true.
Proof.
  rewrite !serials_ahead_iff. unfold with_speech_analysis. simpl.
  intros (S1 & S2 & S3) Hid. repeat split; auto.
  intros a Ha. apply in_app_or in Ha. destruct Ha as [Ha|[<-|[]]].
  - specialize (S2 a Ha). lia.
  - lia.
Qed.

(** The owner of an audio file gets a report on its first analysis: after
    [analyze_speech] stored the analysis, [generate_report] for the id it
    answered stores one report on that analysis, in the caller's name,
    under the next serial id, and answers it. *)
Theorem report_follows_first_analysis
    t1 t2 credentials1 credentials2 audio_file_id
    (db : Speech.Database F) files user audio_file :
  Speech.database_ok db = true ->
  Speech.serials_ahead db = true ->
  authenticated lib environ t1 credentials1 (Speech.auth db) = Ok user ->
  authenticated lib environ t2 credentials2 (Speech.auth db) = Ok user ->
  In audio_file (Speech.audio_files (Speech.speech db)) ->
  Speech.AudioFile.id audio_file = audio_file_id ->
  Speech.AudioFile.user_id audio_file = User.id user ->
  (forall a, In a (Speech.speech_analyses (Speech.speech db)) ->
             Speech.SpeechAnalysis.audio_file_id a <> audio_file_id) ->
  exists analysis db1,
    Speech.get_db py
      (Speech.analyze_speech py lib environ t1 credentials1 audio_file_id)
      db files
    = (Ok (Speech.SpeechAnalysisResponse_of py analysis), db1, files)
    /\ let report :=
         Speech.new_report py t2 (User.id user) analysis
           (Speech.SpeechAnalysis.id analysis)
           (Speech.reports_id_seq (Speech.speech db)) in
       Speech.get_db py
         (Speech.generate_report py lib environ t2 credentials2
            (Speech.r_id (Speech.SpeechAnalysisResponse_of py analysis)))
         db1 files
       = (Ok (Speech.ReportResponse_of report), with_report report db1,
          files)
       /\ Speech.reports (Speech.speech (with_report report db1))
          = Speech.reports (Speech.speech db) ++ [report].
Proof.
  intros C Sq G1 G2 Hin Hid Hown Nan.
  destruct (analyze_speech_new t1 credentials1 audio_file_id
              db files user audio_file C Sq G1 Hin Hid Hown Nan)
    as [Ha _].
  set (row := Speech.mock_analysis py t1 (User.id user) audio_file_id
                (Speech.speech_analyses_id_seq (Speech.speech db))) in *.
  exists row, (with_speech_analysis row db). split; [exact Ha|].
  set (k := Speech.speech_analyses_id_seq (Speech.speech db)).
  assert (Hk : Speech.SpeechAnalysis.id row = k) by reflexivity.
  change (Speech.r_id (Speech.SpeechAnalysisResponse_of py row)) with k.
  rewrite Hk. intros report.
  assert (C1 : Speech.database_ok (with_speech_analysis row db) = true).
  { apply with_speech_analysis_ok; auto.
    - apply references_user_iff. exists user. split; [|reflexivity].
      apply (authenticated_user _ _ _ _ G1).
    - apply has_id_iff. exists audio_file. auto. }
  assert (S1 : Speech.serials_ahead (with_speech_analysis row db) = true).
  { apply with_speech_analysis_serials; auto. }
  pose proof C as C0. apply database_ok_iff in C0.
  destruct C0 as (_ & _ & _ & _ & _ & _ & _ & _ & FK).
  pose proof Sq as Sq0. apply serials_ahead_iff in Sq0.
  destruct Sq0 as (_ & Sa & _).
  assert (Fa : filter (fun a => Z.eqb (Speech.SpeechAnalysis.id a) k
                                && (Speech.SpeechAnalysis.user_id a
                                    =? User.id user))
                      (Speech.speech_analyses
                         (Speech.speech (with_speech_analysis row db)))
               = [row]).
  { unfold with_speech_analysis. simpl. rewrite filter_app.
    rewrite (not_owned_lookup Speech.SpeechAnalysis.id
               Speech.SpeechAnalysis.user_id).
    - simpl. fold k. rewrite Z.eqb_refl, String.eqb_refl. reflexivity.
    - intros a Ha0 E. specialize (Sa a Ha0). fold k in Sa. lia. }
  assert (Fe : filter (fun x => Z.eqb (Speech.Report.speech_analysis_id x) k)
                      (Speech.reports
                         (Speech.speech (with_speech_analysis row db)))
               = []).
  { unfold with_speech_analysis. simpl.
    apply (filter_key_none Z.eqb z_eqb_spec). intros x Hx E.
    rewrite forallb_forall in FK. specialize (FK x Hx).
    apply has_id_iff in FK. destruct FK as [a [Ha0 Ea]].
    specialize (Sa a Ha0). fold k in Sa. lia. }
  assert (C2 : Speech.database_ok
                 (with_report report (with_speech_analysis row db)) = true).
  { apply with_report_ok; auto.
    - apply references_user_iff. exists user. split; [|reflexivity].
      apply (authenticated_user _ _ _ _ G1).
    - apply has_id_iff. exists row. split; [|reflexivity].
      unfold with_speech_analysis. simpl. apply in_or_app. right.
      left. reflexivity. }
  split; [|reflexivity].
  destruct (Speech.get_db py
              (Speech.generate_report py lib environ t2 credentials2 k)
              (with_speech_analysis row db) files)
    as [[r db'] files'] eqn:H.
  unfold Speech.get_db, Speech.generate_report in H.
  unfold Speech.bind at 1 in H. rewrite on_auth_get_current_user in H.
  change (Speech.auth (with_speech_analysis row db)) with (Speech.auth db)
    in H.
  rewrite G2 in H.
  unfold Speech.bind, Speech.execute_select, Speech.scalar_one_or_none,
    Speech.ret, Speech.raise, Speech.add_Report, Speech.commit in H.
  world_step H. rewrite Fa in H. world_step H. rewrite Fe in H.
  world_step H.
  fold (with_report
          (Speech.new_report py t2 (User.id user) row k
             (Speech.reports_id_seq
                (Speech.speech (with_speech_analysis row db))))
          (with_speech_analysis row db)) in H.
  change (Speech.reports_id_seq
            (Speech.speech (with_speech_analysis row db)))
    with (Speech.reports_id_seq (Speech.speech db)) in H.
  fold report in H. rewrite C2 in H. world_step H. rewrite C2 in H.
  world_step H. inversion H; subst. reflexivity.
Qed.

(** *** Where an upload lands *)

Lemma basename_has_no_slash p : str_has_char "/" (Speech.basename p) = false.
Proof.
  induction p as [|c r IH]; [reflexivity|]. simpl.
  destruct (str_has_char "/" r) eqn:E; [exact IH|].
  destruct (Ascii.eqb c "/") eqn:Ec; [exact E|].
  simpl. rewrite Ec, E. reflexivity.
Qed.

Lemma strip_leading_dots_has_char c s :
  str_has_char c s = false ->
  str_has_char c (Speech.strip_leading_dots s) = false.
Proof.
  induction s as [|x r IH]; intros H; [reflexivity|]. simpl.
  destruct (Ascii.eqb x "."); [|exact H].
  simpl in H. apply orb_false_iff in H. apply IH, H.
Qed.

Lemma from_last_dot_has_char c s ext :
  str_has_char c s = false ->
  Speech.from_last_dot s = Some ext ->
  str_has_char c ext = false.
Proof.
  revert ext. induction s as [|x r IH]; intros ext H E; [discriminate E|].
  simpl in E. pose proof H as H0. simpl in H0. apply orb_false_iff in H0.
  destruct (Speech.from_last_dot r) as [e|].
  - inversion E; subst. apply IH; [apply H0|reflexivity].
  - destruct (Ascii.eqb x "."); [|discriminate E].
    inversion E; subst. exact H.
Qed.

(** The extension of a file name never holds a slash, whatever the name
    is. *)
Lemma splitext_ext_has_no_slash p :
  str_has_char "/" (Speech.splitext_ext p) = false.
Proof.
  unfold Speech.splitext_ext.
  destruct (Speech.from_last_dot
              (Speech.strip_leading_dots (Speech.basename p)))
    as [ext|] eqn:E; [|reflexivity].
  apply (from_last_dot_has_char _ _ _
           (strip_leading_dots_has_char _ _ (basename_has_no_slash p)) E).
Qed.

Lemma path_join_upload_dir name :
  str_has_char "/" name = false ->
  Speech.path_join "uploads/audio" name
  = String.append "uploads/audio/" name.
Proof.
  intros H. unfold Speech.path_join.
  destruct name as [|c r]; [reflexivity|].
  simpl in H. apply orb_false_iff in H. destruct H as [Hc _].
  cbn [String.prefix].
  destruct (ascii_dec "/" c) as [<-|_]; [discriminate Hc|].
  reflexivity.
Qed.

(** An upload that is not of an allowed type, or is larger than 50 MB,
    is refused with status 400, and neither the database nor the disk
    changes. *)
Theorem upload_audio_file_refuses_without_trace
    utcnow uuid4 credentials file (db : Speech.Database F) files user :
  authenticated lib environ utcnow credentials (Speech.auth db) = Ok user ->
  (forall t, Speech.content_type file = Some t ->
             ~ In t ["audio/mpeg"; "audio/wav"; "audio/mp4"; "audio/m4a"])
  \/ (50 * 1024 * 1024 < Speech.len (Speech.content file))%Z ->
  exists detail,
    Speech.get_db py
      (Speech.upload_audio_file py lib environ os utcnow uuid4 credentials file)
      db files
    = (Raise (HTTPException 400 detail), db, files)
    /\ (detail = "File size exceeds 50MB limit"
        \/ detail
           = String.append "File type "
               (String.append (Speech.str_optional (Speech.content_type file))
                  " not supported. Allowed types: audio/mpeg, audio/wav, audio/mp4, audio/m4a")).
Proof.
  intros G Hbad. unfold Speech.get_db, Speech.upload_audio_file.
  unfold Speech.bind at 1. rewrite on_auth_get_current_user, G.
  destruct (match Speech.content_type file with
            | Some t => existsb (String.eqb t) Speech.allowed_types
            | None => false
            end) eqn:A.
  - cbn [negb].
    destruct Hbad as [Hbad|Hbig].
    + destruct (Speech.content_type file) as [t|]; [|discriminate A].
      apply existsb_exists in A. destruct A as [x [Hx E]].
      apply String.eqb_eq in E. subst x. elim (Hbad t eq_refl Hx).
    + cbv zeta. unfold Speech.max_size.
      apply Z.ltb_lt in Hbig. rewrite Hbig.
      eexists. split; [reflexivity|]. left. reflexivity.
  - cbn [negb]. eexists. split; [reflexivity|]. right. reflexivity.
Qed.

Lemma basename_has_char c p :
  str_has_char c p = false -> str_has_char c (Speech.basename p) = false.
Proof.
  induction p as [|x r IH]; intros H; [reflexivity|].
  pose proof H as H0. simpl in H0. apply orb_false_iff in H0.
  destruct H0 as [_ Hr]. simpl.
  destruct (str_has_char "/" r); [apply IH, Hr|].
  destruct (Ascii.eqb x "/"); [exact Hr|exact H].
Qed.

Lemma file_extension_has_no_slash file :
  str_has_char "/" (Speech.file_extension file) = false.
Proof.
  unfold Speech.file_extension.
  destruct (Speech.truthy (Speech.upload_filename file));
    [apply splitext_ext_has_no_slash|reflexivity].
Qed.

(** What [upload_audio_file] does once the user is known, the type is
    allowed, the size is within the limit and the directory is there. *)
Lemma upload_audio_file_checked
    utcnow uuid4 credentials file (db : Speech.Database F) files user t :
  authenticated lib environ utcnow credentials (Speech.auth db) = Ok user ->
  Speech.content_type file = Some t ->
  In t Speech.allowed_types ->
  (Speech.len (Speech.content file) <= Speech.max_size)%Z ->
  Speech.makedirs_error os files "uploads/audio" = None ->
  let path := Speech.path_join "uploads/audio"
                (String.append uuid4 (Speech.file_extension file)) in
  let row := Speech.AudioFile.mk
               (Speech.audio_files_id_seq (Speech.speech db))
               (User.id user)
               (String.append uuid4 (Speech.file_extension file))
               (match Speech.truthy (Speech.upload_filename file) with
                | Some name => name
                | None => "unknown"
                end)
               path (Speech.len (Speech.content file)) t (@None F) utcnow in
  Speech.get_db py
    (Speech.upload_audio_file py lib environ os utcnow uuid4 credentials file)
    db files
  = if str_has_char "000"%char path
    then (Raise (ValueError "embedded null byte"), db, files)
    else
      match Speech.write_error os files path (Speech.content file) with
      | Some (e, files') => (Raise e, db, files')
      | None =>
          if Speech.database_ok (with_audio_file row db)
          then (Ok (Speech.AudioFileUpload_of py row),
                with_audio_file row db,
                (path, Speech.content file)
                  :: filter (fun e => negb (fst e =? path)) files)
          else (Raise IntegrityError, db,
                (path, Speech.content file)
                  :: filter (fun e => negb (fst e =? path)) files)
      end.
Proof.
  intros G Ht Hin Hlen Hmk path row.
  assert (A : existsb (String.eqb t) Speech.allowed_types = true).
  { apply existsb_exists. exists t. split; [exact Hin|].
    apply String.eqb_refl. }
  destruct (Speech.get_db py
              (Speech.upload_audio_file py lib environ os utcnow uuid4
                 credentials file) db files) as [[r db'] files'] eqn:H.
  unfold Speech.get_db, Speech.upload_audio_file in H.
  unfold Speech.bind at 1 in H. rewrite on_auth_get_current_user, G in H.
  rewrite Ht, A in H. cbn [negb] in H. cbv zeta in H.
  apply Z.ltb_ge in Hlen. rewrite Hlen in H.
  fold path in H.
  unfold Speech.bind, Speech.makedirs, Speech.write_file,
    Speech.add_AudioFile, Speech.ret, Speech.commit in H.
  world_step H. rewrite Hmk in H. world_step H.
  destruct (str_has_char "000"%char path); world_step H;
    [symmetry; exact H|].
  destruct (Speech.write_error os files path (Speech.content file))
    as [[e files1]|]; world_step H; [symmetry; exact H|].
  cbn [Speech.str_optional] in H.
  fold row in H. fold (with_audio_file row db) in H.
  destruct (Speech.database_ok (with_audio_file row db)) eqn:C';
    world_step H; [|symmetry; exact H].
  rewrite C' in H. world_step H. symmetry. exact H.
Qed.

(** Every way an upload can be answered with success. *)
Lemma upload_audio_file_ok
    utcnow uuid4 credentials file (db : Speech.Database F) files
    upload db1 files1 :
  Speech.get_db py
    (Speech.upload_audio_file py lib environ os utcnow uuid4 credentials file)
    db files
    = (Ok upload, db1, files1) ->
  exists user row,
    authenticated lib environ utcnow credentials (Speech.auth db) = Ok user
    /\ upload = Speech.AudioFileUpload_of py row
    /\ db1 = with_audio_file row db
    /\ Speech.database_ok db1 = true
    /\ Speech.AudioFile.id row = Speech.audio_files_id_seq (Speech.speech db)
    /\ Speech.AudioFile.user_id row = User.id user
    /\ In (Speech.AudioFile.file_path row, Speech.content file) files1.
Proof.
  intros H. unfold Speech.get_db, Speech.upload_audio_file in H.
  unfold Speech.bind at 1 in H. rewrite on_auth_get_current_user in H.
  destruct (authenticated lib environ utcnow credentials (Speech.auth db))
    as [user|e] eqn:G; [|discriminate H].
  destruct (negb _) in H; [discriminate H|]. cbv zeta in H.
  destruct (Speech.max_size <? _)%Z in H; [discriminate H|].
  unfold Speech.bind, Speech.makedirs, Speech.write_file,
    Speech.add_AudioFile, Speech.ret, Speech.commit in H.
  world_step H.
  destruct (Speech.makedirs_error os files "uploads/audio");
    world_step H; [discriminate H|].
  destruct (str_has_char "000"%char _) in H; world_step H;
    [discriminate H|].
  destruct (Speech.write_error os files _ _) as [[e files2]|] in H;
    world_step H; [discriminate H|].
  match type of H with
  | context [Speech.AudioFile.mk ?i ?u ?n ?o ?pth ?sz ?m ?d ?c] =>
      set (row := Speech.AudioFile.mk i u n o pth sz m d c) in *
  end.
  fold (with_audio_file row db) in H.
  destruct (Speech.database_ok (with_audio_file row db)) eqn:C';
    world_step H; [|discriminate H].
  rewrite C' in H. world_step H. inversion H; subst.
  exists user, row. repeat split; auto. left. reflexivity.
Qed.

(** An upload of an allowed type and of at most 50 MB goes to one file
    directly inside [uploads/audio/], named by the fresh uuid and the
    extension of the client's file name, which holds no slash whatever the
    client sent.  When [open] or the operating system refuses that path
    the request fails with their error and no row is inserted; when the
    write goes through, one row is inserted for the caller, under the
    next serial id, with that path, the size and the type. *)
Theorem upload_audio_file_stores_in_upload_dir
    utcnow uuid4 credentials file (db : Speech.Database F) files user t :
  Speech.database_ok db = true ->
  Speech.serials_ahead db = true ->
  authenticated lib environ utcnow credentials (Speech.auth db) = Ok user ->
  Speech.content_type file = Some t ->
  In t ["audio/mpeg"; "audio/wav"; "audio/mp4"; "audio/m4a"] ->
  (Speech.len (Speech.content file) <= 50 * 1024 * 1024)%Z ->
  str_has_char "/" uuid4 = false ->
  Speech.makedirs_error os files "uploads/audio" = None ->
  let name := String.append uuid4 (Speech.file_extension file) in
  let path := String.append "uploads/audio/" name in
  let upload :=
    Speech.get_db py
      (Speech.upload_audio_file py lib environ os utcnow uuid4 credentials
         file)
      db files in
  str_has_char "/" name = false
  /\ (str_has_char "000"%char path = true ->
      upload = (Raise (ValueError "embedded null byte"), db, files))
  /\ (forall e files',
        str_has_char "000"%char path = false ->
        Speech.write_error os files path (Speech.content file)
          = Some (e, files') ->
        upload = (Raise e, db, files'))
  /\ (str_has_char "000"%char path = false ->
      Speech.write_error os files path (Speech.content file) = None ->
      exists row,
        upload
        = (Ok (Speech.AudioFileUpload_of py row), with_audio_file row db,
           (path, Speech.content file)
             :: filter (fun e => negb (fst e =? path)) files)
        /\ Speech.AudioFile.file_path row = path
        /\ Speech.AudioFile.filename row = name
        /\ Speech.AudioFile.id row
           = Speech.audio_files_id_seq (Speech.speech db)
        /\ Speech.AudioFile.user_id row = User.id user
        /\ Speech.AudioFile.file_size row = Speech.len (Speech.content file)
        /\ Speech.AudioFile.mime_type row = t).
Proof.
  intros C Sq G Ht Hin Hlen Hu Hmk name path upload.
  assert (Hn : str_has_char "/" name = false).
  { unfold name. rewrite str_has_char_app, Hu, file_extension_has_no_slash.
    reflexivity. }
  pose proof (upload_audio_file_checked utcnow uuid4 credentials file db
                files user t G Ht Hin Hlen Hmk) as H.
  cbv zeta in H. fold name in H.
  rewrite (path_join_upload_dir _ Hn) in H. fold path in H. fold upload in H.
  split; [exact Hn|]. split; [|split].
  - intros Hnul. rewrite Hnul in H. exact H.
  - intros e files' Hnul Hw. rewrite Hnul, Hw in H. exact H.
  - intros Hnul Hw. rewrite Hnul, Hw in H.
    match type of H with
    | context [Speech.database_ok (with_audio_file ?r db)] =>
        set (row := r) in *
    end.
    assert (C' : Speech.database_ok (with_audio_file row db) = true).
    { apply with_audio_file_ok; auto.
      apply references_user_iff. exists user. split; [|reflexivity].
      apply (authenticated_user _ _ _ _ G). }
    rewrite C' in H. exists row. split; [exact H|]. repeat split.
Qed.

Lemma with_audio_file_serials (d : Speech.Database F) row :
  Speech.serials_ahead d = true ->
  Speech.AudioFile.id row = Speech.audio_files_id_seq (Speech.speech d) ->
  Speech.serials_ahead (with_audio_file row d) = true.
Proof.
  rewrite !serials_ahead_iff. unfold with_audio_file. simpl.
  intros (S1 & S2 & S3) Hid. repeat split; auto.
  intros a Ha. apply in_app_or in Ha. destruct Ha as [Ha|[<-|[]]].
  - specialize (S1 a Ha). lia.
  - lia.
Qed.

(** Who has uploaded a file can have it analysed: after an upload that
    was answered with success, [analyze_speech] for the id the upload
    answered stores an analysis of that file in the caller's name. *)
Theorem uploaded_file_can_be_analysed
    t1 t2 uuid4 credentials1 credentials2 file
    (db : Speech.Database F) files user upload db1 files1 :
  Speech.database_ok db = true ->
  Speech.serials_ahead db = true ->
  Speech.get_db py
    (Speech.upload_audio_file py lib environ os t1 uuid4 credentials1 file)
    db files
    = (Ok upload, db1, files1) ->
  authenticated lib environ t1 credentials1 (Speech.auth db) = Ok user ->
  authenticated lib environ t2 credentials2 (Speech.auth db1) = Ok user ->
  exists analysis,
    Speech.get_db py
      (Speech.analyze_speech py lib environ t2 credentials2
         (Speech.upload_id upload))
      db1 files1
    = (Ok (Speech.SpeechAnalysisResponse_of py analysis),
       with_speech_analysis analysis db1, files1)
    /\ Speech.SpeechAnalysis.audio_file_id analysis = Speech.upload_id upload
    /\ Speech.SpeechAnalysis.user_id analysis = User.id user
    /\ Speech.upload_id upload
       = Speech.audio_files_id_seq (Speech.speech db).
Proof.
  intros C Sq H G1 G2.
  destruct (upload_audio_file_ok _ _ _ _ _ _ _ _ _ H)
    as [user0 [row [G0 [-> [-> [C1 [Hid [Hown _]]]]]]]].
  rewrite G1 in G0. inversion G0; subst user0. clear G0.
  set (k := Speech.audio_files_id_seq (Speech.speech db)) in *.
  assert (S1 : Speech.serials_ahead (with_audio_file row db) = true).
  { apply with_audio_file_serials; auto. }
  pose proof C as C0. apply database_ok_iff in C0.
  destruct C0 as (_ & _ & _ & _ & _ & FK & _).
  pose proof Sq as Sq0. apply serials_ahead_iff in Sq0.
  destruct Sq0 as (Sa & _ & _).
  assert (Nan : forall a,
             In a (Speech.speech_analyses
                     (Speech.speech (with_audio_file row db))) ->
             Speech.SpeechAnalysis.audio_file_id a <> k).
  { intros a Ha E. unfold with_audio_file in Ha. simpl in Ha.
    rewrite forallb_forall in FK. specialize (FK a Ha).
    apply has_id_iff in FK. destruct FK as [af [Haf Ea]].
    specialize (Sa af Haf). fold k in Sa. lia. }
  assert (Hrow : In row (Speech.audio_files
                           (Speech.speech (with_audio_file row db)))).
  { unfold with_audio_file. simpl. apply in_or_app. right. left.
    reflexivity. }
  exists (Speech.mock_analysis py t2 (User.id user) k
            (Speech.speech_analyses_id_seq
               (Speech.speech (with_audio_file row db)))).
  change (Speech.upload_id (Speech.AudioFileUpload_of py row))
    with (Speech.AudioFile.id row).
  rewrite Hid. split; [|repeat split].
  apply (analyze_speech_new t2 credentials2 k (with_audio_file row db) _
           user row C1 S1 G2 Hrow Hid Hown Nan).
Qed.

End SpeechFacts.

(** *** The speech endpoints on the sample database *)

Lemma analyze_speech_is_for_the_owner_witness :
  Speech.get_db SpeechSample.py
    (Speech.analyze_speech SpeechSample.py Sample.lib Sample.production
       100%Z "jwt:u1" 2%Z)
    SpeechSample.db SpeechSample.files
  = (Raise (HTTPException 404 "Audio file not found"), SpeechSample.db,
     SpeechSample.files).
Proof.
  apply (analyze_speech_is_for_the_owner SpeechSample.py Sample.lib
           Sample.production 100%Z "jwt:u1" 2%Z SpeechSample.db
           SpeechSample.files Sample.alice).
  - reflexivity.
  - intros a [<-|[<-|[]]]; simpl; intros E;
      [discriminate E | intros E2; discriminate E2].
Defined.

Lemma analyze_speech_is_idempotent_witness :
  let first := Speech.mock_analysis SpeechSample.py 100%Z "u1" 1%Z 2%Z in
  let db1 := with_speech_analysis first SpeechSample.db in
  SpeechSample.files = SpeechSample.files
  /\ Speech.get_db SpeechSample.py
       (Speech.analyze_speech SpeechSample.py Sample.lib Sample.production
          900%Z "jwt:u1" 1%Z)
       db1 SpeechSample.files
     = (Ok (Speech.SpeechAnalysisResponse_of SpeechSample.py first), db1,
        SpeechSample.files)
  /\ exists analysis,
       filter (fun a => Z.eqb (Speech.SpeechAnalysis.audio_file_id a) 1%Z)
              (Speech.speech_analyses (Speech.speech db1)) = [analysis]
       /\ Speech.SpeechAnalysisResponse_of SpeechSample.py first
          = Speech.SpeechAnalysisResponse_of SpeechSample.py analysis.
Proof.
  intros first db1.
  apply (analyze_speech_is_idempotent SpeechSample.py Sample.lib
           Sample.production 100%Z 900%Z "jwt:u1" "jwt:u1" 1%Z
           SpeechSample.db SpeechSample.files
           (Speech.SpeechAnalysisResponse_of SpeechSample.py first) db1
           SpeechSample.files Sample.alice); reflexivity.
Defined.

Lemma analyze_speech_stores_one_analysis_witness :
  exists row,
    Speech.get_db SpeechSample.py
      (Speech.analyze_speech SpeechSample.py Sample.lib Sample.production
         100%Z "jwt:u1" 1%Z)
      SpeechSample.db SpeechSample.files
    = (Ok (Speech.SpeechAnalysisResponse_of SpeechSample.py row),
       with_speech_analysis row SpeechSample.db, SpeechSample.files)
    /\ Speech.speech_analyses
         (Speech.speech (with_speech_analysis row SpeechSample.db))
       = Speech.speech_analyses (Speech.speech SpeechSample.db) ++ [row]
    /\ Speech.SpeechAnalysis.id row = 2%Z
    /\ Speech.SpeechAnalysis.audio_file_id row = 1%Z
    /\ Speech.SpeechAnalysis.user_id row = "u1"
    /\ Speech.SpeechAnalysis.processing_status row = "completed"
    /\ Speech.SpeechAnalysis.processed_at row = Some 100%Z.
Proof.
  apply (analyze_speech_stores_one_analysis SpeechSample.py Sample.lib
           Sample.production 100%Z "jwt:u1" 1%Z SpeechSample.db
           SpeechSample.files Sample.alice SpeechSample.alice_recording);
    try reflexivity.
  - left. reflexivity.
  - intros a [<-|[]] E. discriminate E.
Defined.

Lemma get_user_analyses_lists_own_analyses_witness :
  SpeechSample.db = SpeechSample.db
  /\ SpeechSample.files = SpeechSample.files
  /\ exists user,
       authenticated Sample.lib Sample.production 100%Z "jwt:u2"
                     (Speech.auth SpeechSample.db) = Ok user
       /\ [Speech.SpeechAnalysisResponse_of SpeechSample.py
             SpeechSample.bob_analysis]
          = map (Speech.SpeechAnalysisResponse_of SpeechSample.py)
                (filter (fun a => Speech.SpeechAnalysis.user_id a
                                  =? User.id user)
                        (Speech.speech_analyses
                           (Speech.speech SpeechSample.db)))
       /\ (forall a,
             In a (Speech.speech_analyses (Speech.speech SpeechSample.db)) ->
             Speech.SpeechAnalysis.user_id a = User.id user ->
             In (Speech.SpeechAnalysisResponse_of SpeechSample.py a)
                [Speech.SpeechAnalysisResponse_of SpeechSample.py
                   SpeechSample.bob_analysis])
       /\ (forall x,
             In x [Speech.SpeechAnalysisResponse_of SpeechSample.py
                     SpeechSample.bob_analysis] ->
             exists a,
               In a (Speech.speech_analyses (Speech.speech SpeechSample.db))
               /\ Speech.SpeechAnalysis.user_id a = User.id user
               /\ x = Speech.SpeechAnalysisResponse_of SpeechSample.py a).
Proof.
  apply (get_user_analyses_lists_own_analyses SpeechSample.py Sample.lib
           Sample.production 100%Z "jwt:u2" SpeechSample.db
           SpeechSample.files).
  reflexivity.
Defined.

Lemma generate_report_is_for_the_owner_witness :
  Speech.get_db SpeechSample.py
    (Speech.generate_report SpeechSample.py Sample.lib Sample.production
       100%Z "jwt:u1" 1%Z)
    SpeechSample.db SpeechSample.files
  = (Raise (HTTPException 404 "Speech analysis not found"), SpeechSample.db,
     SpeechSample.files).
Proof.
  apply (generate_report_is_for_the_owner SpeechSample.py Sample.lib
           Sample.production 100%Z "jwt:u1" 1%Z SpeechSample.db
           SpeechSample.files Sample.alice).
  - reflexivity.
  - intros a [<-|[]] _ E. discriminate E.
Defined.

Lemma generate_report_is_idempotent_witness :
  let first :=
    Speech.new_report SpeechSample.py 100%Z "u2" SpeechSample.bob_analysis
                      1%Z 1%Z in
  let db1 := with_report first SpeechSample.db in
  SpeechSample.files = SpeechSample.files
  /\ Speech.get_db SpeechSample.py
       (Speech.generate_report SpeechSample.py Sample.lib Sample.production
          900%Z "jwt:u2" 1%Z)
       db1 SpeechSample.files
     = (Ok (Speech.ReportResponse_of first), db1, SpeechSample.files)
  /\ exists report,
       filter (fun x => Z.eqb (Speech.Report.speech_analysis_id x) 1%Z)
              (Speech.reports (Speech.speech db1)) = [report]
       /\ Speech.ReportResponse_of first = Speech.ReportResponse_of report.
Proof.
  intros first db1.
  apply (generate_report_is_idempotent SpeechSample.py Sample.lib
           Sample.production 100%Z 900%Z "jwt:u2" "jwt:u2" 1%Z
           SpeechSample.db SpeechSample.files
           (Speech.ReportResponse_of first) db1 SpeechSample.files
           Sample.bob); reflexivity.
Defined.

Lemma report_follows_first_analysis_witness :
  exists analysis db1,
    Speech.get_db SpeechSample.py
      (Speech.analyze_speech SpeechSample.py Sample.lib Sample.production
         100%Z "jwt:u1" 1%Z)
      SpeechSample.db SpeechSample.files
    = (Ok (Speech.SpeechAnalysisResponse_of SpeechSample.py analysis), db1,
       SpeechSample.files)
    /\ let report :=
         Speech.new_report SpeechSample.py 900%Z "u1" analysis
           (Speech.SpeechAnalysis.id analysis) 1%Z in
       Speech.get_db SpeechSample.py
         (Speech.generate_report SpeechSample.py Sample.lib
            Sample.production 900%Z "jwt:u1"
            (Speech.r_id
               (Speech.SpeechAnalysisResponse_of SpeechSample.py analysis)))
         db1 SpeechSample.files
       = (Ok (Speech.ReportResponse_of report), with_report report db1,
          SpeechSample.files)
       /\ Speech.reports (Speech.speech (with_report report db1))
          = Speech.reports (Speech.speech SpeechSample.db) ++ [report].
Proof.
  apply (report_follows_first_analysis SpeechSample.py Sample.lib
           Sample.production 100%Z 900%Z "jwt:u1" "jwt:u1" 1%Z
           SpeechSample.db SpeechSample.files Sample.alice
           SpeechSample.alice_recording); try reflexivity.
  - left. reflexivity.
  - intros a [<-|[]] E. discriminate E.
Defined.

Lemma upload_audio_file_refuses_without_trace_witness :
  exists detail,
    Speech.get_db SpeechSample.py
      (Speech.upload_audio_file SpeechSample.py Sample.lib Sample.production
         SpeechSample.os 100%Z "9f1c" "jwt:u1" SpeechSample.slides)
      SpeechSample.db SpeechSample.files
    = (Raise (HTTPException 400 detail), SpeechSample.db, SpeechSample.files)
    /\ (detail = "File size exceeds 50MB limit"
        \/ detail
           = String.append "File type "
               (String.append
                  (Speech.str_optional
                     (Speech.content_type SpeechSample.slides))
                  " not supported. Allowed types: audio/mpeg, audio/wav, audio/mp4, audio/m4a")).
Proof.
  apply (upload_audio_file_refuses_without_trace SpeechSample.py Sample.lib
           Sample.production SpeechSample.os 100%Z "9f1c" "jwt:u1"
           SpeechSample.slides
           SpeechSample.db SpeechSample.files Sample.alice).
  - reflexivity.
  - left. intros t E. inversion E; subst t.
    intros [H|[H|[H|[H|[]]]]]; discriminate H.
Defined.

Lemma upload_audio_file_stores_in_upload_dir_witness :
  let name :=
    String.append "9f1c" (Speech.file_extension SpeechSample.voice_memo) in
  let path := String.append "uploads/audio/" name in
  let upload :=
    Speech.get_db SpeechSample.py
      (Speech.upload_audio_file SpeechSample.py Sample.lib Sample.production
         SpeechSample.os 100%Z "9f1c" "jwt:u1" SpeechSample.voice_memo)
      SpeechSample.db SpeechSample.files in
  str_has_char "/" name = false
  /\ (str_has_char "000"%char path = true ->
      upload
      = (Raise (ValueError "embedded null byte"), SpeechSample.db,
         SpeechSample.files))
  /\ (forall e files',
        str_has_char "000"%char path = false ->
        Speech.write_error SpeechSample.os SpeechSample.files path
                           (Speech.content SpeechSample.voice_memo)
          = Some (e, files') ->
        upload = (Raise e, SpeechSample.db, files'))
  /\ (str_has_char "000"%char path = false ->
      Speech.write_error SpeechSample.os SpeechSample.files path
                         (Speech.content SpeechSample.voice_memo) = None ->
      exists row,
        upload
        = (Ok (Speech.AudioFileUpload_of SpeechSample.py row),
           with_audio_file row SpeechSample.db,
           (path, Speech.content SpeechSample.voice_memo)
             :: filter (fun e => negb (fst e =? path)) SpeechSample.files)
        /\ Speech.AudioFile.file_path row = path
        /\ Speech.AudioFile.filename row = name
        /\ Speech.AudioFile.id row = 3%Z
        /\ Speech.AudioFile.user_id row = "u1"
        /\ Speech.AudioFile.file_size row = 4096%Z
        /\ Speech.AudioFile.mime_type row = "audio/m4a").
Proof.
  apply (upload_audio_file_stores_in_upload_dir SpeechSample.py Sample.lib
           Sample.production SpeechSample.os 100%Z "9f1c" "jwt:u1"
           SpeechSample.voice_memo SpeechSample.db SpeechSample.files
           Sample.alice "audio/m4a"); try reflexivity.
  - simpl. tauto.
  - simpl. lia.
Defined.

(** The two refusals of the file system on the sample data: a NUL in the
    extension stops at [open], and nothing is stored. *)
Lemma upload_with_nul_in_extension_is_refused :
  Speech.get_db SpeechSample.py
    (Speech.upload_audio_file SpeechSample.py Sample.lib Sample.production
       SpeechSample.os 100%Z "9f1c" "jwt:u1" SpeechSample.poisoned)
    SpeechSample.db SpeechSample.files
  = (Raise (ValueError "embedded null byte"), SpeechSample.db,
     SpeechSample.files).
Proof. reflexivity. Qed.

Lemma uploaded_file_can_be_analysed_witness :
  let row :=
    Speech.AudioFile.mk 3%Z "u1" "9f1c.m4a" "../../etc/memo.final.m4a"
                        "uploads/audio/9f1c.m4a" 4096%Z "audio/m4a"
                        (@None string) 100%Z in
  let upload := Speech.AudioFileUpload_of SpeechSample.py row in
  let db1 := with_audio_file row SpeechSample.db in
  let files1 :=
    [("uploads/audio/9f1c.m4a", Speech.content SpeechSample.voice_memo)] in
  exists analysis,
    Speech.get_db SpeechSample.py
      (Speech.analyze_speech SpeechSample.py Sample.lib Sample.production
         900%Z "jwt:u1" (Speech.upload_id upload))
      db1 files1
    = (Ok (Speech.SpeechAnalysisResponse_of SpeechSample.py analysis),
       with_speech_analysis analysis db1, files1)
    /\ Speech.SpeechAnalysis.audio_file_id analysis = Speech.upload_id upload
    /\ Speech.SpeechAnalysis.user_id analysis = "u1"
    /\ Speech.upload_id upload = 3%Z.
Proof.
  intros row upload db1 files1.
  apply (uploaded_file_can_be_analysed SpeechSample.py Sample.lib
           Sample.production SpeechSample.os 100%Z 900%Z "9f1c" "jwt:u1"
           "jwt:u1" SpeechSample.voice_memo SpeechSample.db
           SpeechSample.files Sample.alice upload db1 files1);
    reflexivity.
Defined.
